(** * GNSS base-station monitor: the RTCM framer/decoder and the ECEF conversion

    A shallow embedding of [src/utils/gnss_client.py]:

    - [ecef_to_geodetic], written over the arithmetic of the platform
      ([MathOps]: Python's float operators and the [math] module), with two
      instances: exact real arithmetic ([RealMath]) and IEEE binary64 numbers
      with the zero and infinity cases of [math.atan2] ([FloatMath]);
    - [GnssMonitor] with [connect], [update_status] and [cleanup], in a small
      state-and-exception monad; the socket and the RTCM reader of [pyrtcm]
      are the environment of a polling cycle. *)

From Stdlib Require Import Floats.
From Stdlib Require Import ZArith NArith QArith List String Ascii Bool Lia.
From Stdlib.Strings Require Import Byte.
From Stdlib Require DecimalString.
From Stdlib Require Import Reals Lra Qreals.
Import ListNotations.

Set Implicit Arguments.

(** ** The arithmetic of the platform *)

(** What [ecef_to_geodetic] and [update_status] use of Python's floats: the
    operators [+ - * / **], literals, and [math.sqrt], [math.sin],
    [math.cos], [math.atan2], [math.degrees] and the builtin [round].  The
    operations are total: the exceptions of float arithmetic (an overflow in
    [x ** 2], a division by a zero that no cosine of a binary64 number
    gives) are not part of this interface. *)
Class MathOps (F : Type) : Type := {
  flit : Q -> F;                  (* a numeric literal *)
  fadd : F -> F -> F;
  fsub : F -> F -> F;
  fmul : F -> F -> F;
  fdiv : F -> F -> F;
  fpow : F -> nat -> F;           (* [x ** n] for a literal exponent *)
  fsqrt : F -> F;
  fsin : F -> F;
  fcos : F -> F;
  fatan2 : F -> F -> F;           (* [math.atan2(y, x)] *)
  fdegrees : F -> F;
  fround : F -> Z -> F            (* [round(x, ndigits)] *)
}.

Declare Scope py_scope.
Delimit Scope py_scope with py.
Infix "+" := fadd : py_scope.
Infix "-" := fsub : py_scope.
Infix "*" := fmul : py_scope.
Infix "/" := fdiv : py_scope.
Infix "**" := fpow (at level 30, right associativity) : py_scope.

Section Geodesy.
Context {F : Type} {M : MathOps F}.
Local Open Scope py_scope.

(** [ecef_to_geodetic(x, y, z)], line by line. *)
Definition ecef_to_geodetic (x y z : F) : F * F * F :=
  let a := flit 6378137 in
  let f := flit 1 / flit (298257223563 # 1000000000) in
  let e2 := flit 2 * f - f ** 2 in
  let b := a * (flit 1 - f) in
  let ep2 := (a ** 2 - b ** 2) / b ** 2 in
  let p := fsqrt (x ** 2 + y ** 2) in
  let theta := fatan2 (z * a) (p * b) in
  let lon := fatan2 y x in
  let lat :=
    fatan2 (z + ep2 * b * fsin theta ** 3) (p - e2 * a * fcos theta ** 3) in
  let N := a / fsqrt (flit 1 - e2 * fsin lat ** 2) in
  let height := p / fcos lat - N in
  (fdegrees lat, fdegrees lon, height).

Definition geo_lat (r : F * F * F) : F := fst (fst r).
Definition geo_lon (r : F * F * F) : F := snd (fst r).
Definition geo_height (r : F * F * F) : F := snd r.


End Geodesy.

(** ** Exact real arithmetic *)

Module RealMath.
Local Open Scope R_scope.

(** [math.atan2] on the reals: the angle of the point [(x, y)] in
    [(-PI, PI]], and [0] at the origin. *)
Definition atan2 (y x : R) : R :=
  if Rlt_dec 0 x then atan (y / x)
  else if Rlt_dec x 0 then
    if Rle_dec 0 y then atan (y / x) + PI else atan (y / x) - PI
  else if Rlt_dec 0 y then PI / 2
  else if Rlt_dec y 0 then - (PI / 2)
  else 0.

Definition degrees (x : R) : R := x * (180 / PI).

(** [round(x, n)]: the nearest multiple of [10^-n], ties to the even one. *)
Definition round_half_even (x : R) : Z :=
  let fl := (up x - 1)%Z in
  if Rlt_dec (x - IZR fl) (1 / 2) then fl
  else if Rlt_dec (1 / 2) (x - IZR fl) then (fl + 1)%Z
  else if Z.even fl then fl else (fl + 1)%Z.

Definition round (x : R) (n : Z) : R :=
  IZR (round_half_even (x * powerRZ 10 n)) / powerRZ 10 n.

#[export] Instance ops : MathOps R := {|
  flit := Q2R;
  fadd := Rplus;
  fsub := Rminus;
  fmul := Rmult;
  fdiv := Rdiv;
  fpow := pow;
  fsqrt := sqrt;
  fsin := sin;
  fcos := cos;
  fatan2 := atan2;
  fdegrees := degrees;
  fround := round
|}.

(** The WGS-84 constants of [ecef_to_geodetic], as real numbers. *)
Definition wgs84_a : R := 6378137.
Definition wgs84_f : R := 1 / 298.257223563.
Definition wgs84_e2 : R := 2 * wgs84_f - wgs84_f ^ 2.
Definition wgs84_b : R := wgs84_a * (1 - wgs84_f).


End RealMath.

(** ** IEEE binary64 *)

Module FloatMath.
Local Open Scope float_scope.

(** The C library behind the [math] module and the float formatting behind
    [round]: what this development does not compute. *)
Record Libm : Type := {
  c_sin : float -> float;
  c_cos : float -> float;
  c_atan2 : float -> float -> float;
  c_pow : float -> nat -> float;
  py_round : float -> Z -> float
}.

Definition pi : float := 0x1.921fb54442d18p+1.

Definition is_neg (x : float) : bool :=
  match PrimFloat.classify x with
  | NInf | NNormal | NSubn | NZero => true
  | _ => false
  end.

Definition copysign (m s : float) : float :=
  if is_neg s then - PrimFloat.abs m else PrimFloat.abs m.

(** [math.atan2]: zeros and infinities are decided before the C library is
    called, the sign of a zero included. *)
Definition atan2 (lm : Libm) (y x : float) : float :=
  if PrimFloat.is_nan x || PrimFloat.is_nan y then PrimFloat.nan
  else if PrimFloat.is_infinity y then
    if PrimFloat.is_infinity x then
      if is_neg x then copysign (0.75 * pi) y else copysign (0.25 * pi) y
    else copysign (0.5 * pi) y
  else if PrimFloat.is_infinity x || PrimFloat.is_zero y then
    if is_neg x then copysign pi y else copysign 0 y
  else c_atan2 lm y x.

Definition degrees (x : float) : float := x * (180 / pi).

Definition of_Q (q : Q) : float :=
  let n := PrimFloat.of_uint63 (Uint63.of_Z (Z.abs (Qnum q))) in
  let d := PrimFloat.of_uint63 (Uint63.of_Z (Z.pos (Qden q))) in
  if (Qnum q <? 0)%Z then - (n / d) else n / d.

Definition ops (lm : Libm) : MathOps float := {|
  flit := of_Q;
  fadd := PrimFloat.add;
  fsub := PrimFloat.sub;
  fmul := PrimFloat.mul;
  fdiv := PrimFloat.div;
  fpow := c_pow lm;
  fsqrt := PrimFloat.sqrt;
  fsin := c_sin lm;
  fcos := c_cos lm;
  fatan2 := atan2 lm;
  fdegrees := degrees;
  fround := py_round lm
|}.
End FloatMath.

(** ** Exceptions and the monitor's state *)

(** A call into the outside world (the socket, the RTCM reader) returns a
    value or raises an [Exception]. *)
Inductive try (A : Type) : Type :=
| Returns (a : A)
| Raises.
Arguments Raises {A}.

(** How a piece of the program ends: with a value, with an [Exception] on its
    way up, or not at all within the bound on loop iterations. *)
Inductive outcome (A : Type) : Type :=
| Return (a : A)
| Raise
| Unfinished.
Arguments Raise {A}.
Arguments Unfinished {A}.

Module Py.
(** A computation over a state [S]: effects on the state persist when an
    exception is raised. *)
Definition M (S A : Type) : Type := S -> outcome A * S.

Section Monad.
Context {S : Type}.
Local Abbreviation M := (M S).

Definition ret {A} (a : A) : M A := fun s => (Return a, s).

Definition bind {A B} (m : M A) (k : A -> M B) : M B :=
  fun s =>
    match m s with
    | (Return a, s') => k a s'
    | (Raise, s') => (Raise, s')
    | (Unfinished, s') => (Unfinished, s')
    end.

Definition raise {A} : M A := fun s => (Raise, s).

(** [try: body / except Exception: handler]; the handler runs in the
    state the body left. *)
Definition try_except {A} (body handler : M A) : M A :=
  fun s =>
    match body s with
    | (Raise, s') => handler s'
    | r => r
    end.

Definition get : M S := fun s => (Return s, s).
Definition modify (f : S -> S) : M unit := fun s => (Return tt, f s).

Definition call {A} (r : try A) : M A :=
  match r with
  | Returns a => ret a
  | Raises => raise
  end.

(** An attribute or value that may be missing. *)
Definition getattr {A} (o : option A) : M A :=
  match o with
  | Some a => ret a
  | None => raise
  end.
End Monad.
End Py.

Notation "x <- m ;; k" := (Py.bind m (fun x => k))
  (at level 61, m at next level, right associativity).
Notation "m ;;; k" := (Py.bind m (fun _ => k))
  (at level 61, right associativity).

Record BaseStationStatus (F : Type) : Type := {
  latitude : F;
  longitude : F;
  altitude : F;
  accuracy_mm : Z;
  is_fixed_mode : bool;
  is_survey_in_active : bool;
  survey_in_duration : Z
}.

(** What [update_status] reads of a parsed [pyrtcm] message: its [identity]
    and the three ECEF attributes, each of which the message may lack. *)
Record RTCMMessage (F : Type) : Type := {
  identity : string;
  DF025 : option F;
  DF026 : option F;
  DF027 : option F
}.

(** A connected socket, named by its descriptor. *)
Definition Socket : Type := nat.

(** The fields of [GnssMonitor] that change; the logger, [HOST] and [PORT]
    are left out, and so is every call of the logger below. *)
Record GnssMonitor (F : Type) : Type := {
  status : BaseStationStatus F;
  _socket : option Socket;
  _buffer : list byte
}.

(** The outside world during one polling cycle: whether opening the
    connection succeeds, and what the one [sock_recv] of at most 1024 bytes
    gives. *)
Record Env : Type := {
  sock_connect : try Socket;
  sock_recv : try (list byte)
}.

(** The bytes the receive of a cycle brings, none when it raises. *)
Definition received (env : Env) : list byte :=
  match sock_recv env with
  | Returns data => data
  | Raises => []
  end.

Inductive loop_ctl : Type := Continue | Break.

Section Monitor.
Context {F : Type} {MO : MathOps F}.

(** [RTCMReader(BytesIO(buffer)).read()]: the pair [(raw_data, parsed_data)],
    either of which may be [None], or an exception. *)
Variable rtcm_read :
  list byte -> try (option (list byte) * option (RTCMMessage F)).

Local Abbreviation Monitor := (GnssMonitor F).
Local Abbreviation M := (Py.M Monitor).

Definition with_status (f : BaseStationStatus F -> BaseStationStatus F)
  (m : Monitor) : Monitor :=
  {| status := f (status m); _socket := _socket m; _buffer := _buffer m |}.

Definition with_socket (s : option Socket) (m : Monitor) : Monitor :=
  {| status := status m; _socket := s; _buffer := _buffer m |}.

Definition with_buffer (f : list byte -> list byte) (m : Monitor) : Monitor :=
  {| status := status m; _socket := _socket m; _buffer := f (_buffer m) |}.

Definition set_status f : M unit := Py.modify (with_status f).
Definition set_socket s : M unit := Py.modify (with_socket s).
Definition set_buffer f : M unit := Py.modify (with_buffer f).

Definition set_latitude (v : F) (st : BaseStationStatus F) :=
  {| latitude := v; longitude := longitude st; altitude := altitude st;
     accuracy_mm := accuracy_mm st; is_fixed_mode := is_fixed_mode st;
     is_survey_in_active := is_survey_in_active st;
     survey_in_duration := survey_in_duration st |}.

Definition set_longitude (v : F) (st : BaseStationStatus F) :=
  {| latitude := latitude st; longitude := v; altitude := altitude st;
     accuracy_mm := accuracy_mm st; is_fixed_mode := is_fixed_mode st;
     is_survey_in_active := is_survey_in_active st;
     survey_in_duration := survey_in_duration st |}.

Definition set_altitude (v : F) (st : BaseStationStatus F) :=
  {| latitude := latitude st; longitude := longitude st; altitude := v;
     accuracy_mm := accuracy_mm st; is_fixed_mode := is_fixed_mode st;
     is_survey_in_active := is_survey_in_active st;
     survey_in_duration := survey_in_duration st |}.

(** The three assignments to [self.status] for a position [(x, y, z)]. *)
Definition write_position (x y z : F) : M unit :=
  let '(lat, lon, height) := ecef_to_geodetic x y z in
  set_status (set_latitude (fround lat 8)) ;;;
  set_status (set_longitude (fround lon 8)) ;;;
  set_status (set_altitude (fround height 2)).

(** [GnssMonitor.__init__] *)
Definition init : Monitor :=
  {| status := {| latitude := flit 0; longitude := flit 0;
                  altitude := flit 0; accuracy_mm := 0;
                  is_fixed_mode := false; is_survey_in_active := false;
                  survey_in_duration := 0 |};
     _socket := None;
     _buffer := [] |}.

(** [connect]: creating the socket, connecting it and making it
    non-blocking stand under one [try]; any failure leaves [_socket] at
    [None]. *)
Definition connect (env : Env) : M unit :=
  Py.try_except
    (s <- Py.call (sock_connect env) ;;
     set_socket (Some s))
    (set_socket None).

(** The statements under the inner [try] of [update_status]. *)
Definition try_suite : M loop_ctl :=
  self <- Py.get ;;
  r <- Py.call (rtcm_read (_buffer self)) ;;
  let '(raw_data, parsed_data) := r in
  match parsed_data with
  | Some msg =>
      (if String.eqb (identity msg) "1005" then
         x <- Py.getattr (DF025 msg) ;;
         y <- Py.getattr (DF026 msg) ;;
         z <- Py.getattr (DF027 msg) ;;
         write_position x y z
       else Py.ret tt) ;;;
      raw <- Py.getattr raw_data ;;
      set_buffer (skipn (List.length raw)) ;;;
      Py.ret Continue
  | None => Py.ret Break
  end.

(** One pass through the body of the [while]: the inner [try] with its
    handler, which drops the first byte and continues. *)
Definition loop_body : M loop_ctl :=
  Py.try_except try_suite
    (set_buffer (skipn 1) ;;;
     Py.ret Continue).

(** [while len(self._buffer) > 0: ...], at most [fuel] passes. *)
Fixpoint process_buffer (fuel : nat) : M unit :=
  self <- Py.get ;;
  if (0 <? List.length (_buffer self))%nat then
    match fuel with
    | O => fun s => (Unfinished, s)
    | S fuel' =>
        c <- loop_body ;;
        match c with
        | Continue => process_buffer fuel'
        | Break => Py.ret tt
        end
    end
  else Py.ret tt.

(** [update_status]: the result [None] of the Python function is [None]
    here, and [self.status] is the status of the monitor it returns with. *)
Definition update_status (fuel : nat) (env : Env)
  : M (option (BaseStationStatus F)) :=
  self <- Py.get ;;
  no_socket <-
    match _socket self with
    | None =>
        connect env ;;;
        self <- Py.get ;;
        Py.ret (match _socket self with None => true | Some _ => false end)
    | Some _ => Py.ret false
    end ;;
  if no_socket : bool then Py.ret None
  else
    Py.try_except
      (self <- Py.get ;;
       _ <- Py.getattr (_socket self) ;;
       data <- Py.call (sock_recv env) ;;
       match data with
       | [] => Py.ret tt
       | _ :: _ =>
           set_buffer (fun b => b ++ data) ;;;
           process_buffer fuel
       end ;;;
       self <- Py.get ;;
       Py.ret (Some (status self)))
      (set_socket None ;;;
       Py.ret None).

(** [cleanup] *)
Definition cleanup : M unit :=
  self <- Py.get ;;
  match _socket self with
  | Some _ => set_socket None
  | None => Py.ret tt
  end.

(** Vocabulary of the properties below. *)

(** The snapshot after the three assignments for the position [(x, y, z)]. *)
Definition position_status (x y z : F) (st : BaseStationStatus F)
  : BaseStationStatus F :=
  let r := ecef_to_geodetic x y z in
  set_altitude (fround (geo_height r) 2)
    (set_longitude (fround (geo_lon r) 8)
       (set_latitude (fround (geo_lat r) 8) st)).

(** A message the decoder handles without an exception: any message that is
    not a 1005, and a 1005 with its three coordinates. *)
Definition decodes (msg : RTCMMessage F) : Prop :=
  identity msg = "1005"%string ->
  exists x y z,
    DF025 msg = Some x /\ DF026 msg = Some y /\ DF027 msg = Some z.

(** A 1005 message without one of its coordinates: reading the attribute
    raises. *)
Definition decode_fails (msg : RTCMMessage F) : Prop :=
  identity msg = "1005"%string /\
  (DF025 msg = None \/ DF026 msg = None \/ DF027 msg = None).

(** The snapshot after a message has been handled. *)
Definition status_after (msg : RTCMMessage F) (st : BaseStationStatus F)
  : BaseStationStatus F :=
  if String.eqb (identity msg) "1005" then
    match DF025 msg, DF026 msg, DF027 msg with
    | Some x, Some y, Some z => position_status x y z st
    | _, _, _ => st
    end
  else st.


(** The reader's three answers on a buffer. *)
Definition reads_message (buf raw : list byte) (msg : RTCMMessage F) : Prop :=
  rtcm_read buf = Returns (Some raw, Some msg).

Definition reads_incomplete (buf : list byte) : Prop :=
  exists raw, rtcm_read buf = Returns (raw, None).



End Monitor.

(** ** A strict RTCM3 frame reader *)

(** Modelled from the spec: the frame parser, which is the third-party
    [pyrtcm] and not part of this repository.  A frame is a preamble byte
    [0xD3], six reserved bits and a 10-bit payload length, the payload, and a
    3-byte CRC-24Q; reading the front of a buffer gives a complete message,
    finds the buffer too short to tell, or fails on a bad preamble, bad
    reserved bits or a checksum mismatch.  It instantiates [rtcm_read] on
    concrete buffers. *)
Module Rtcm3.
Local Open Scope N_scope.
Local Open Scope list_scope.

Definition be_value (bs : list byte) : N :=
  fold_left (fun acc b => acc * 256 + Byte.to_N b) bs 0.

Definition byte_of (n : N) : byte :=
  match Byte.of_N (n mod 256) with
  | Some b => b
  | None => x00
  end.

(** The [len] low-order bytes of [n], most significant first. *)
Fixpoint be_bytes (len : nat) (n : N) : list byte :=
  match len with
  | O => []
  | S k => be_bytes k (n / 256) ++ [byte_of n]
  end.

Definition crc24q_byte (crc : N) (b : byte) : N :=
  Nat.iter 8
    (fun c => let c := N.shiftl c 1 in
              if N.testbit c 24 then N.lxor c 0x1864CFB else c)
    (N.lxor crc (N.shiftl (Byte.to_N b) 16)).

Definition crc24q (bs : list byte) : N :=
  N.land (fold_left crc24q_byte bs 0) 0xFFFFFF.

(** The frame around a payload of fewer than 1024 bytes. *)
Definition frame (payload : list byte) : list byte :=
  let head := xd3 :: be_bytes 2 (N.of_nat (List.length payload)) in
  head ++ payload ++ be_bytes 3 (crc24q (head ++ payload)).

(** [len] bits of the payload from bit [start], the first bit being bit 0. *)
Definition bits (payload : list byte) (start len : N) : N :=
  N.land
    (N.shiftr (be_value payload)
              (8 * N.of_nat (List.length payload) - start - len))
    (N.ones len).

Definition signed (len : N) (v : N) : Z :=
  if v <? 2 ^ (len - 1) then Z.of_N v else (Z.of_N v - 2 ^ Z.of_N len)%Z.

Definition decimal (n : N) : string :=
  DecimalString.NilZero.string_of_uint (N.to_uint n).

(** The payload of a station-position message: message number 1005, the
    station identifier, and the three ECEF coordinates in units of 0.1 mm. *)
Definition payload_1005 (station : N) (x y z : Z) : list byte :=
  let field v := Z.to_N (v mod 2 ^ 38) in
  be_bytes 19
    (N.shiftl 1005 140 + N.shiftl (station mod 4096) 128 +
     N.shiftl (field x) 80 + N.shiftl (field y) 40 + field z).

Section Reader.
Context {F : Type} {MO : MathOps F}.

Definition ecef_field (payload : list byte) (start : N) : F :=
  flit (signed 38 (bits payload start 38) # 10000).

(** The message of a payload: its number is the first 12 bits; a message
    1005 of the full 19 bytes has the attributes [DF025], [DF026], [DF027]. *)
Definition decode (payload : list byte) : RTCMMessage F :=
  let id := decimal (bits payload 0 12) in
  if String.eqb id "1005" && (List.length payload =? 19)%nat then
    {| identity := id;
       DF025 := Some (ecef_field payload 34);
       DF026 := Some (ecef_field payload 74);
       DF027 := Some (ecef_field payload 114) |}
  else
    {| identity := id; DF025 := None; DF026 := None; DF027 := None |}.

Definition read (buf : list byte)
  : try (option (list byte) * option (RTCMMessage F)) :=
  match buf with
  | [] => Returns (None, None)
  | b0 :: rest =>
      if negb (Byte.eqb b0 xd3) then Raises
      else
        match rest with
        | b1 :: b2 :: body =>
            if negb (Byte.to_N b1 <? 4) then Raises
            else
              let len := N.to_nat (be_value [b1; b2]) in
              let payload := firstn len body in
              let crc := firstn 3 (skipn len body) in
              if (List.length body <? len + 3)%nat then Returns (None, None)
              else if negb (be_value crc =? crc24q (b0 :: b1 :: b2 :: payload))
              then Raises
              else if (len <? 2)%nat then Raises
              else Returns (Some (b0 :: b1 :: b2 :: payload ++ crc),
                            Some (decode payload))
        | _ => Returns (None, None)
        end
  end.
End Reader.
End Rtcm3.

(** ** Concrete buffers *)

(** A monitor over the reals with the strict reader, and frames to feed it:
    a station-position message (the ECEF point 1114104.5999, -4850729.7108,
    3975521.4643 of station 2003), a message 1077, a message 1005 cut down to
    four payload bytes, and bytes that start no frame. *)
Module Example.
#[local] Existing Instance RealMath.ops.

Definition reader := @Rtcm3.read R RealMath.ops.

Definition connected : GnssMonitor R := with_socket (Some 3%nat) init.


Definition position_payload : list byte :=
  Rtcm3.payload_1005 2003 11141045999 (-48507297108) 39755214643.
Definition position_frame : list byte := Rtcm3.frame position_payload.
Definition position_message : RTCMMessage R := Rtcm3.decode position_payload.

Definition other_payload : list byte := [x43; x50; x00; x2a].
Definition other_frame : list byte := Rtcm3.frame other_payload.
Definition other_message : RTCMMessage R := Rtcm3.decode other_payload.



Definition quiet : Env := {| sock_connect := Returns 4%nat; sock_recv := Returns [] |}.
Definition receiving (data : list byte) : Env :=
  {| sock_connect := Returns 4%nat; sock_recv := Returns data |}.
Definition broken : Env := {| sock_connect := Raises; sock_recv := Raises |}.


Definition waiting : GnssMonitor R :=
  with_buffer (fun _ => firstn 10 position_frame) connected.

Definition filtering : GnssMonitor R :=
  with_buffer (fun _ => other_frame) connected.

Definition positioned : GnssMonitor R :=
  with_buffer (fun _ => position_frame) connected.

End Example.

(** ** Streams of messages *)

Section Streams.
Context {F : Type} {MO : MathOps F}.
Variable rtcm_read :
  list byte -> try (option (list byte) * option (RTCMMessage F)).

(** A buffer that holds complete messages one after the other, each read at
    the front of what is left and handled without an exception, and then a
    tail that is empty or not yet a message. *)
Inductive framed_stream (tail : list byte)
  : list (list byte * RTCMMessage F) -> list byte -> Prop :=
| framed_tail :
    tail = [] \/ reads_incomplete rtcm_read tail ->
    framed_stream tail [] tail
| framed_message raw msg frames rest :
    reads_message rtcm_read (raw ++ rest) raw msg ->
    raw <> [] ->
    decodes msg ->
    framed_stream tail frames rest ->
    framed_stream tail ((raw, msg) :: frames) (raw ++ rest).

(** The snapshot after the messages of a stream, in their order. *)
Definition status_after_all (frames : list (list byte * RTCMMessage F))
  (st : BaseStationStatus F) : BaseStationStatus F :=
  fold_left (fun st fm => status_after (snd fm) st) frames st.

(** Polling cycles one after the other, each in its own outside world: the
    monitor they leave, if every one of them returns. *)
Fixpoint cycles (fuel : nat) (envs : list Env) (m : GnssMonitor F)
  : option (GnssMonitor F) :=
  match envs with
  | [] => Some m
  | env :: envs' =>
      match update_status rtcm_read fuel env m with
      | (Return _, m') => cycles fuel envs' m'
      | _ => None
      end
  end.
End Streams.

(** A reader that hands back a message and no bytes, whatever the buffer. *)
Definition idle_reader (F : Type) (buf : list byte)
  : try (option (list byte) * option (RTCMMessage F)) :=
  Returns (Some [],
           Some {| identity := "1077"; DF025 := None; DF026 := None;
                   DF027 := None |}).

(** ** Further concrete buffers and monitors *)

Module Scenario.
Import Example.
#[local] Existing Instance RealMath.ops.

(** The position frame, the 1077 frame, and the first ten bytes of another
    position frame. *)
Definition stream : list byte :=
  position_frame ++ other_frame ++ firstn 10 position_frame.

Definition streaming : GnssMonitor R := with_buffer (fun _ => stream) connected.

(** The position frame in two parts, as two receives deliver it. *)
Definition first_part : list byte := firstn 10 position_frame.
Definition second_part : list byte := skipn 10 position_frame.
End Scenario.

(** ** The application: known locations, modes and the configuration *)

(** The values of [json.load]: [None], [bool], [int], [float], [str], [list]
    and [dict], a dict as the list of its items in order. *)
Unset Elimination Schemes.
Inductive json : Type :=
| JNull
| JBool (b : bool)
| JInt (n : Z)
| JFloat (x : float)
| JStr (s : string)
| JList (items : list json)
| JDict (items : list (string * json)).
Set Elimination Schemes.

(** A Python number: an [int] (a [bool] counts as one) or a [float]. *)
Inductive number : Type :=
| NInt (n : Z)
| NFloat (x : float).

Module Json.
Definition bind {A B} (r : try A) (k : A -> try B) : try B :=
  match r with
  | Returns a => k a
  | Raises => Raises
  end.

(** The value under a key in the items of a dict. *)
Fixpoint lookup (items : list (string * json)) (k : string) : option json :=
  match items with
  | [] => None
  | (k', v) :: rest => if String.eqb k' k then Some v else lookup rest k
  end.

(** [v[k]] for a string [k]: a [KeyError] on a dict without the key, a
    [TypeError] on everything that is not a dict. *)
Definition getitem (v : json) (k : string) : try json :=
  match v with
  | JDict items =>
      match lookup items k with
      | Some x => Returns x
      | None => Raises
      end
  | _ => Raises
  end.

(** The items of a dict after [d[k] = v]: the value is replaced where the
    key stands, or the item is added at the end. *)
Fixpoint assign (items : list (string * json)) (k : string) (v : json)
  : list (string * json) :=
  match items with
  | [] => [(k, v)]
  | (k', v') :: rest =>
      if String.eqb k' k then (k, v) :: rest else (k', v') :: assign rest k v
  end.

(** [d[k] = v] on a value that is a dict; the callers reach it only after
    [d[k]] has succeeded. *)
Definition setitem (d : json) (k : string) (v : json) : json :=
  match d with
  | JDict items => JDict (assign items k v)
  | _ => d
  end.

(** [for x in v]: the items of a list, the keys of a dict, the characters
    of a string; a [TypeError] on the rest. *)
Definition iterate (v : json) : try (list json) :=
  match v with
  | JList items => Returns items
  | JDict items => Returns (map (fun kv => JStr (fst kv)) items)
  | JStr s =>
      Returns (map (fun c => JStr (String c EmptyString))
                   (list_ascii_of_string s))
  | _ => Raises
  end.

(** [bool(v)] *)
Definition truthy (v : json) : bool :=
  match v with
  | JNull => false
  | JBool b => b
  | JInt n => negb (n =? 0)%Z
  | JFloat x => negb (PrimFloat.eqb x 0)
  | JStr s => negb (String.eqb s "")
  | JList items => match items with [] => false | _ => true end
  | JDict items => match items with [] => false | _ => true end
  end.

(** [v == s] for a string [s] *)
Definition eq_str (v : json) (s : string) : bool :=
  match v with
  | JStr t => String.eqb t s
  | _ => false
  end.

(** The operand of an arithmetic operator: a [TypeError] on what is not a
    number. *)
Definition as_number (v : json) : try number :=
  match v with
  | JBool b => Returns (NInt (if b then 1 else 0))
  | JInt n => Returns (NInt n)
  | JFloat x => Returns (NFloat x)
  | _ => Raises
  end.

(** [[f x for x in items]], which raises as soon as one [f x] does. *)
Fixpoint map_try {A B} (f : A -> try B) (items : list A) : try (list B) :=
  match items with
  | [] => Returns []
  | x :: rest =>
      bind (f x) (fun y => bind (map_try f rest) (fun ys => Returns (y :: ys)))
  end.

(** [[x for x in items if f x]] *)
Fixpoint filter_try {A} (f : A -> try bool) (items : list A) : try (list A) :=
  match items with
  | [] => Returns []
  | x :: rest =>
      bind (f x) (fun keep =>
      bind (filter_try f rest) (fun xs =>
      Returns (if keep then x :: xs else xs)))
  end.
End Json.

(** The widget properties under [self.root.ids] that the handlers read or
    write; [x_text] is [x.text], [x_disabled] is [x.disabled] and [x_opacity]
    is [x.opacity]. *)
Record Ids : Type := {
  current_coordinates_column_opacity : Q;
  fixed_coordinates_column_opacity : Q;
  switch_to_fixed_mode_disabled : bool;
  switch_to_survey_mode_disabled : bool;
  select_location_button_disabled : bool;
  select_location_button_text : string;
  selected_name_label_text : string;
  selected_latitude_label_text : string;
  selected_longitude_label_text : string;
  selected_altitude_label_text : string;
  latitude_label_text : string;
  longitude_label_text : string;
  altitude_label_text : string
}.

(** The attributes of [BaseStationApp]; [None] is [JNull], and
    [async_tasks] is left out. *)
Record BaseStationApp (F : Type) : Type := {
  gnss_monitor : GnssMonitor F;
  selected_location : json;
  current_mode : string;
  known_locations : list json;
  location_data : json;
  initial_config : json;
  ids : Ids
}.

(** The file [utils/known-locations.json]: what [open] and [json.load] give
    for it (the data, or an exception when it is missing or no JSON), and
    whether it can be opened for writing.  [json.dump] followed by
    [json.load] is taken to give the data back.  And what they give for
    [/mnt/service_config/basestation.json]. *)
Record Disk : Type := {
  known_locations_json : try json;
  known_locations_writable : bool;
  basestation_json : try json
}.

(** The commands [on_apply_location] hands to [subprocess.run]: the shell
    that writes the configuration, [id -u adminfarmng], and the restart of
    the GNSS service for that user id. *)
Inductive command : Type :=
| WriteConfig (config : json)
| QueryUid
| RestartService (uid : string).

(** How [subprocess.run(..., check=True)] ends: with the output of the
    command, with [CalledProcessError], or with another exception. *)
Inductive run_result : Type :=
| Completed (stdout : string)
| CalledProcessError
| OtherError.

(** The application, the disk, and the commands run so far, the latest
    first. *)
Record World (F : Type) : Type := {
  w_app : BaseStationApp F;
  w_disk : Disk;
  w_commands : list command
}.

(** What a handler shows when it is done. *)
Inductive feedback : Type :=
| Nothing
| PopupDismissed
| SuccessPopup
| ErrorPopup.

Section Setters.
Context {F : Type}.

Definition ids_current_coordinates_column_opacity (v : Q) (r : Ids) : Ids :=
  {| current_coordinates_column_opacity := v;
     fixed_coordinates_column_opacity := fixed_coordinates_column_opacity r;
     switch_to_fixed_mode_disabled := switch_to_fixed_mode_disabled r;
     switch_to_survey_mode_disabled := switch_to_survey_mode_disabled r;
     select_location_button_disabled := select_location_button_disabled r;
     select_location_button_text := select_location_button_text r;
     selected_name_label_text := selected_name_label_text r;
     selected_latitude_label_text := selected_latitude_label_text r;
     selected_longitude_label_text := selected_longitude_label_text r;
     selected_altitude_label_text := selected_altitude_label_text r;
     latitude_label_text := latitude_label_text r;
     longitude_label_text := longitude_label_text r;
     altitude_label_text := altitude_label_text r |}.

Definition ids_fixed_coordinates_column_opacity (v : Q) (r : Ids) : Ids :=
  {| current_coordinates_column_opacity := current_coordinates_column_opacity r;
     fixed_coordinates_column_opacity := v;
     switch_to_fixed_mode_disabled := switch_to_fixed_mode_disabled r;
     switch_to_survey_mode_disabled := switch_to_survey_mode_disabled r;
     select_location_button_disabled := select_location_button_disabled r;
     select_location_button_text := select_location_button_text r;
     selected_name_label_text := selected_name_label_text r;
     selected_latitude_label_text := selected_latitude_label_text r;
     selected_longitude_label_text := selected_longitude_label_text r;
     selected_altitude_label_text := selected_altitude_label_text r;
     latitude_label_text := latitude_label_text r;
     longitude_label_text := longitude_label_text r;
     altitude_label_text := altitude_label_text r |}.

Definition ids_switch_to_fixed_mode_disabled (v : bool) (r : Ids) : Ids :=
  {| current_coordinates_column_opacity := current_coordinates_column_opacity r;
     fixed_coordinates_column_opacity := fixed_coordinates_column_opacity r;
     switch_to_fixed_mode_disabled := v;
     switch_to_survey_mode_disabled := switch_to_survey_mode_disabled r;
     select_location_button_disabled := select_location_button_disabled r;
     select_location_button_text := select_location_button_text r;
     selected_name_label_text := selected_name_label_text r;
     selected_latitude_label_text := selected_latitude_label_text r;
     selected_longitude_label_text := selected_longitude_label_text r;
     selected_altitude_label_text := selected_altitude_label_text r;
     latitude_label_text := latitude_label_text r;
     longitude_label_text := longitude_label_text r;
     altitude_label_text := altitude_label_text r |}.

Definition ids_switch_to_survey_mode_disabled (v : bool) (r : Ids) : Ids :=
  {| current_coordinates_column_opacity := current_coordinates_column_opacity r;
     fixed_coordinates_column_opacity := fixed_coordinates_column_opacity r;
     switch_to_fixed_mode_disabled := switch_to_fixed_mode_disabled r;
     switch_to_survey_mode_disabled := v;
     select_location_button_disabled := select_location_button_disabled r;
     select_location_button_text := select_location_button_text r;
     selected_name_label_text := selected_name_label_text r;
     selected_latitude_label_text := selected_latitude_label_text r;
     selected_longitude_label_text := selected_longitude_label_text r;
     selected_altitude_label_text := selected_altitude_label_text r;
     latitude_label_text := latitude_label_text r;
     longitude_label_text := longitude_label_text r;
     altitude_label_text := altitude_label_text r |}.

Definition ids_select_location_button_disabled (v : bool) (r : Ids) : Ids :=
  {| current_coordinates_column_opacity := current_coordinates_column_opacity r;
     fixed_coordinates_column_opacity := fixed_coordinates_column_opacity r;
     switch_to_fixed_mode_disabled := switch_to_fixed_mode_disabled r;
     switch_to_survey_mode_disabled := switch_to_survey_mode_disabled r;
     select_location_button_disabled := v;
     select_location_button_text := select_location_button_text r;
     selected_name_label_text := selected_name_label_text r;
     selected_latitude_label_text := selected_latitude_label_text r;
     selected_longitude_label_text := selected_longitude_label_text r;
     selected_altitude_label_text := selected_altitude_label_text r;
     latitude_label_text := latitude_label_text r;
     longitude_label_text := longitude_label_text r;
     altitude_label_text := altitude_label_text r |}.

Definition ids_select_location_button_text (v : string) (r : Ids) : Ids :=
  {| current_coordinates_column_opacity := current_coordinates_column_opacity r;
     fixed_coordinates_column_opacity := fixed_coordinates_column_opacity r;
     switch_to_fixed_mode_disabled := switch_to_fixed_mode_disabled r;
     switch_to_survey_mode_disabled := switch_to_survey_mode_disabled r;
     select_location_button_disabled := select_location_button_disabled r;
     select_location_button_text := v;
     selected_name_label_text := selected_name_label_text r;
     selected_latitude_label_text := selected_latitude_label_text r;
     selected_longitude_label_text := selected_longitude_label_text r;
     selected_altitude_label_text := selected_altitude_label_text r;
     latitude_label_text := latitude_label_text r;
     longitude_label_text := longitude_label_text r;
     altitude_label_text := altitude_label_text r |}.

Definition ids_selected_name_label_text (v : string) (r : Ids) : Ids :=
  {| current_coordinates_column_opacity := current_coordinates_column_opacity r;
     fixed_coordinates_column_opacity := fixed_coordinates_column_opacity r;
     switch_to_fixed_mode_disabled := switch_to_fixed_mode_disabled r;
     switch_to_survey_mode_disabled := switch_to_survey_mode_disabled r;
     select_location_button_disabled := select_location_button_disabled r;
     select_location_button_text := select_location_button_text r;
     selected_name_label_text := v;
     selected_latitude_label_text := selected_latitude_label_text r;
     selected_longitude_label_text := selected_longitude_label_text r;
     selected_altitude_label_text := selected_altitude_label_text r;
     latitude_label_text := latitude_label_text r;
     longitude_label_text := longitude_label_text r;
     altitude_label_text := altitude_label_text r |}.

Definition ids_selected_latitude_label_text (v : string) (r : Ids) : Ids :=
  {| current_coordinates_column_opacity := current_coordinates_column_opacity r;
     fixed_coordinates_column_opacity := fixed_coordinates_column_opacity r;
     switch_to_fixed_mode_disabled := switch_to_fixed_mode_disabled r;
     switch_to_survey_mode_disabled := switch_to_survey_mode_disabled r;
     select_location_button_disabled := select_location_button_disabled r;
     select_location_button_text := select_location_button_text r;
     selected_name_label_text := selected_name_label_text r;
     selected_latitude_label_text := v;
     selected_longitude_label_text := selected_longitude_label_text r;
     selected_altitude_label_text := selected_altitude_label_text r;
     latitude_label_text := latitude_label_text r;
     longitude_label_text := longitude_label_text r;
     altitude_label_text := altitude_label_text r |}.

Definition ids_selected_longitude_label_text (v : string) (r : Ids) : Ids :=
  {| current_coordinates_column_opacity := current_coordinates_column_opacity r;
     fixed_coordinates_column_opacity := fixed_coordinates_column_opacity r;
     switch_to_fixed_mode_disabled := switch_to_fixed_mode_disabled r;
     switch_to_survey_mode_disabled := switch_to_survey_mode_disabled r;
     select_location_button_disabled := select_location_button_disabled r;
     select_location_button_text := select_location_button_text r;
     selected_name_label_text := selected_name_label_text r;
     selected_latitude_label_text := selected_latitude_label_text r;
     selected_longitude_label_text := v;
     selected_altitude_label_text := selected_altitude_label_text r;
     latitude_label_text := latitude_label_text r;
     longitude_label_text := longitude_label_text r;
     altitude_label_text := altitude_label_text r |}.

Definition ids_selected_altitude_label_text (v : string) (r : Ids) : Ids :=
  {| current_coordinates_column_opacity := current_coordinates_column_opacity r;
     fixed_coordinates_column_opacity := fixed_coordinates_column_opacity r;
     switch_to_fixed_mode_disabled := switch_to_fixed_mode_disabled r;
     switch_to_survey_mode_disabled := switch_to_survey_mode_disabled r;
     select_location_button_disabled := select_location_button_disabled r;
     select_location_button_text := select_location_button_text r;
     selected_name_label_text := selected_name_label_text r;
     selected_latitude_label_text := selected_latitude_label_text r;
     selected_longitude_label_text := selected_longitude_label_text r;
     selected_altitude_label_text := v;
     latitude_label_text := latitude_label_text r;
     longitude_label_text := longitude_label_text r;
     altitude_label_text := altitude_label_text r |}.

Definition ids_latitude_label_text (v : string) (r : Ids) : Ids :=
  {| current_coordinates_column_opacity := current_coordinates_column_opacity r;
     fixed_coordinates_column_opacity := fixed_coordinates_column_opacity r;
     switch_to_fixed_mode_disabled := switch_to_fixed_mode_disabled r;
     switch_to_survey_mode_disabled := switch_to_survey_mode_disabled r;
     select_location_button_disabled := select_location_button_disabled r;
     select_location_button_text := select_location_button_text r;
     selected_name_label_text := selected_name_label_text r;
     selected_latitude_label_text := selected_latitude_label_text r;
     selected_longitude_label_text := selected_longitude_label_text r;
     selected_altitude_label_text := selected_altitude_label_text r;
     latitude_label_text := v;
     longitude_label_text := longitude_label_text r;
     altitude_label_text := altitude_label_text r |}.

Definition ids_longitude_label_text (v : string) (r : Ids) : Ids :=
  {| current_coordinates_column_opacity := current_coordinates_column_opacity r;
     fixed_coordinates_column_opacity := fixed_coordinates_column_opacity r;
     switch_to_fixed_mode_disabled := switch_to_fixed_mode_disabled r;
     switch_to_survey_mode_disabled := switch_to_survey_mode_disabled r;
     select_location_button_disabled := select_location_button_disabled r;
     select_location_button_text := select_location_button_text r;
     selected_name_label_text := selected_name_label_text r;
     selected_latitude_label_text := selected_latitude_label_text r;
     selected_longitude_label_text := selected_longitude_label_text r;
     selected_altitude_label_text := selected_altitude_label_text r;
     latitude_label_text := latitude_label_text r;
     longitude_label_text := v;
     altitude_label_text := altitude_label_text r |}.

Definition ids_altitude_label_text (v : string) (r : Ids) : Ids :=
  {| current_coordinates_column_opacity := current_coordinates_column_opacity r;
     fixed_coordinates_column_opacity := fixed_coordinates_column_opacity r;
     switch_to_fixed_mode_disabled := switch_to_fixed_mode_disabled r;
     switch_to_survey_mode_disabled := switch_to_survey_mode_disabled r;
     select_location_button_disabled := select_location_button_disabled r;
     select_location_button_text := select_location_button_text r;
     selected_name_label_text := selected_name_label_text r;
     selected_latitude_label_text := selected_latitude_label_text r;
     selected_longitude_label_text := selected_longitude_label_text r;
     selected_altitude_label_text := selected_altitude_label_text r;
     latitude_label_text := latitude_label_text r;
     longitude_label_text := longitude_label_text r;
     altitude_label_text := v |}.

Definition app_gnss_monitor (v : GnssMonitor F) (r : BaseStationApp F) : BaseStationApp F :=
  {| gnss_monitor := v;
     selected_location := selected_location r;
     current_mode := current_mode r;
     known_locations := known_locations r;
     location_data := location_data r;
     initial_config := initial_config r;
     ids := ids r |}.

Definition app_selected_location (v : json) (r : BaseStationApp F) : BaseStationApp F :=
  {| gnss_monitor := gnss_monitor r;
     selected_location := v;
     current_mode := current_mode r;
     known_locations := known_locations r;
     location_data := location_data r;
     initial_config := initial_config r;
     ids := ids r |}.

Definition app_current_mode (v : string) (r : BaseStationApp F) : BaseStationApp F :=
  {| gnss_monitor := gnss_monitor r;
     selected_location := selected_location r;
     current_mode := v;
     known_locations := known_locations r;
     location_data := location_data r;
     initial_config := initial_config r;
     ids := ids r |}.

Definition app_known_locations (v : list json) (r : BaseStationApp F) : BaseStationApp F :=
  {| gnss_monitor := gnss_monitor r;
     selected_location := selected_location r;
     current_mode := current_mode r;
     known_locations := v;
     location_data := location_data r;
     initial_config := initial_config r;
     ids := ids r |}.

Definition app_location_data (v : json) (r : BaseStationApp F) : BaseStationApp F :=
  {| gnss_monitor := gnss_monitor r;
     selected_location := selected_location r;
     current_mode := current_mode r;
     known_locations := known_locations r;
     location_data := v;
     initial_config := initial_config r;
     ids := ids r |}.

Definition app_initial_config (v : json) (r : BaseStationApp F) : BaseStationApp F :=
  {| gnss_monitor := gnss_monitor r;
     selected_location := selected_location r;
     current_mode := current_mode r;
     known_locations := known_locations r;
     location_data := location_data r;
     initial_config := v;
     ids := ids r |}.

Definition app_ids (v : Ids) (r : BaseStationApp F) : BaseStationApp F :=
  {| gnss_monitor := gnss_monitor r;
     selected_location := selected_location r;
     current_mode := current_mode r;
     known_locations := known_locations r;
     location_data := location_data r;
     initial_config := initial_config r;
     ids := v |}.

Definition disk_known_locations_json (v : try json) (r : Disk) : Disk :=
  {| known_locations_json := v;
     known_locations_writable := known_locations_writable r;
     basestation_json := basestation_json r |}.

Definition world_app (v : BaseStationApp F) (r : World F) : World F :=
  {| w_app := v; w_disk := w_disk r; w_commands := w_commands r |}.

Definition world_disk (v : Disk) (r : World F) : World F :=
  {| w_app := w_app r; w_disk := v; w_commands := w_commands r |}.

Definition world_commands (v : list command) (r : World F) : World F :=
  {| w_app := w_app r; w_disk := w_disk r; w_commands := v |}.

End Setters.

Section Application.
Context {F : Type} {MO : MathOps F}.

(** The reader of the monitor, and the pieces of Python and Kivy the
    handlers lean on: [f"{x:.nf}"] for a float of the snapshot and for a
    number of a JSON value, [str(v)], [s.strip()],
    [float(text.split(": ")[1])] and
    [float(text.split(": ")[1].split(" ")[0])] on the text of a label, and
    the conversion of an [int] to a [float] in mixed arithmetic. *)
Variable rtcm_read :
  list byte -> try (option (list byte) * option (RTCMMessage F)).
Variable fmt_float : nat -> F -> string.
Variable fmt_num : nat -> number -> try string.
Variable py_str : json -> string.
Variable strip : string -> string.
Variable parse_label : string -> try float.
Variable parse_altitude_label : string -> try float.
Variable int_to_float : Z -> try float.

Local Abbreviation M := (Py.M (World F)).
Local Open Scope string_scope.

Definition get_app : M (BaseStationApp F) :=
  w <- Py.get ;; Py.ret (w_app w).

Definition modify_app (f : BaseStationApp F -> BaseStationApp F) : M unit :=
  Py.modify (fun w => world_app (f (w_app w)) w).

Definition modify_ids (f : Ids -> Ids) : M unit :=
  modify_app (fun a => app_ids (f (ids a)) a).

(** [with open(json_path, "r") as f: data = json.load(f)] *)
Definition read_known_locations : M json :=
  w <- Py.get ;; Py.call (known_locations_json (w_disk w)).

(** [with open(json_path, "w") as f: json.dump(data, f, indent=4)] *)
Definition write_known_locations (data : json) : M unit :=
  w <- Py.get ;;
  if known_locations_writable (w_disk w) then
    Py.modify
      (fun w => world_disk (disk_known_locations_json (Returns data) (w_disk w)) w)
  else Py.raise.

(** [f"{v:.nf}"] for a value of the JSON data: a number is formatted (which
    raises for an [int] beyond the floats), the rest raises. *)
Definition format_f (digits : nat) (v : json) : try string :=
  Json.bind (Json.as_number v) (fmt_num digits).

(** Assigning to the [text] of a Kivy widget: only a string is accepted. *)
Definition as_text (v : json) : try string :=
  match v with
  | JStr s => Returns s
  | _ => Raises
  end.

(** [load_known_locations] *)
Definition load_known_locations : M unit :=
  Py.try_except
    (data <- read_known_locations ;;
     locs <- Py.call (Json.getitem data "locations") ;;
     items <- Py.call (Json.iterate locs) ;;
     names <- Py.call (Json.map_try (fun loc => Json.getitem loc "name") items) ;;
     modify_app (app_known_locations names) ;;;
     locs <- Py.call (Json.getitem data "locations") ;;
     modify_app (app_location_data locs))
    (modify_app (app_known_locations []) ;;;
     modify_app (app_location_data (JList []))).

(** The [for] loop of [on_location_selected] over the locations left. *)
Fixpoint select_named (location_name : string) (items : list json) : M unit :=
  match items with
  | [] => Py.ret tt
  | loc :: rest =>
      name <- Py.call (Json.getitem loc "name") ;;
      if Json.eq_str name location_name then
        modify_app (app_selected_location loc) ;;;
        name <- Py.call (Json.getitem loc "name") ;;
        modify_ids
          (ids_selected_name_label_text ("Selected Location: " ++ py_str name)) ;;;
        lat <- Py.call (Json.getitem loc "latitude") ;;
        lat <- Py.call (format_f 10 lat) ;;
        modify_ids (ids_selected_latitude_label_text ("Latitude: " ++ lat)) ;;;
        lon <- Py.call (Json.getitem loc "longitude") ;;
        lon <- Py.call (format_f 10 lon) ;;
        modify_ids (ids_selected_longitude_label_text ("Longitude: " ++ lon)) ;;;
        alt <- Py.call (Json.getitem loc "altitude") ;;
        alt <- Py.call (format_f 2 alt) ;;
        modify_ids
          (ids_selected_altitude_label_text ("Altitude: " ++ alt ++ " m"))
      else select_named location_name rest
  end.

(** [on_location_selected]; the popup it dismisses is not modelled. *)
Definition on_location_selected (location_name : string) : M unit :=
  Py.try_except
    (data <- read_known_locations ;;
     locs <- Py.call (Json.getitem data "locations") ;;
     items <- Py.call (Json.iterate locs) ;;
     select_named location_name items)
    (Py.ret tt).

(** The location [save_location] builds. *)
Definition new_location (name : string) (lat lon alt : float) : json :=
  JDict [("name", JStr name); ("latitude", JFloat lat);
         ("longitude", JFloat lon); ("altitude", JFloat alt)].

(** [save_location] inside [on_save_new_location], for the text of the name
    field; [data["locations"].append] needs a list. *)
Definition save_location (text : string) : M feedback :=
  let name := strip text in
  if String.eqb name "" then Py.ret Nothing
  else
    Py.try_except
      (a <- get_app ;;
       lat <- Py.call (parse_label (latitude_label_text (ids a))) ;;
       lon <- Py.call (parse_label (longitude_label_text (ids a))) ;;
       alt <- Py.call (parse_altitude_label (altitude_label_text (ids a))) ;;
       data <- read_known_locations ;;
       locs <- Py.call (Json.getitem data "locations") ;;
       items <- Py.call (match locs with
                         | JList items => Returns items
                         | _ => Raises
                         end) ;;
       write_known_locations
         (Json.setitem data "locations"
            (JList (items ++ [new_location name lat lon alt]))) ;;;
       load_known_locations ;;;
       Py.ret PopupDismissed)
      (Py.ret ErrorPopup).

(** [do_delete] inside [confirm_delete_location] *)
Definition do_delete (location_name : string) : M feedback :=
  Py.try_except
    (data <- read_known_locations ;;
     locs <- Py.call (Json.getitem data "locations") ;;
     items <- Py.call (Json.iterate locs) ;;
     kept <- Py.call
       (Json.filter_try
          (fun loc =>
             Json.bind (Json.getitem loc "name")
               (fun name => Returns (negb (Json.eq_str name location_name))))
          items) ;;
     write_known_locations (Json.setitem data "locations" (JList kept)) ;;;
     load_known_locations ;;;
     Py.ret SuccessPopup)
    (Py.ret ErrorPopup).

(** [switch_to_survey_mode] *)
Definition switch_to_survey_mode : M unit :=
  modify_app (app_current_mode "survey-in") ;;;
  modify_ids (ids_switch_to_fixed_mode_disabled false) ;;;
  modify_ids (ids_switch_to_survey_mode_disabled true) ;;;
  modify_ids (ids_current_coordinates_column_opacity 1) ;;;
  modify_ids (ids_fixed_coordinates_column_opacity (1 # 2)).

(** [switch_to_fixed_mode] *)
Definition switch_to_fixed_mode : M unit :=
  modify_app (app_current_mode "fixed") ;;;
  modify_ids (ids_select_location_button_disabled false) ;;;
  modify_ids (ids_switch_to_fixed_mode_disabled true) ;;;
  modify_ids (ids_switch_to_survey_mode_disabled false) ;;;
  modify_ids (ids_current_coordinates_column_opacity (1 # 2)) ;;;
  modify_ids (ids_fixed_coordinates_column_opacity 1).

(** [on_mode_toggle] *)
Definition on_mode_toggle (state : string) : M unit :=
  modify_app
    (app_current_mode (if String.eqb state "down" then "fixed" else "survey-in")).

(** [a - b] on two values of the JSON data. *)
Definition py_sub (a b : json) : try number :=
  Json.bind (Json.as_number a) (fun x =>
  Json.bind (Json.as_number b) (fun y =>
  match x, y with
  | NInt m, NInt n => Returns (NInt (m - n))
  | NFloat u, NFloat v => Returns (NFloat (u - v))
  | NInt m, NFloat v =>
      Json.bind (int_to_float m) (fun u => Returns (NFloat (u - v)))
  | NFloat u, NInt n =>
      Json.bind (int_to_float n) (fun v => Returns (NFloat (u - v)))
  end)).

Definition py_abs (x : number) : number :=
  match x with
  | NInt n => NInt (Z.abs n)
  | NFloat u => NFloat (PrimFloat.abs u)
  end.

(** [x < tol] for a tolerance strictly between 0 and 1, below which an
    [int] is exactly when it is not positive. *)
Definition below (x : number) (tol : float) : bool :=
  match x with
  | NInt n => (n <=? 0)%Z
  | NFloat u => PrimFloat.ltb u tol
  end.

(** [abs(loc[k] - coords[K]) < tol] *)
Definition close_to (loc : json) (k : string) (coords : json) (K : string)
  (tol : float) : try bool :=
  Json.bind (Json.getitem loc k) (fun a =>
  Json.bind (Json.getitem coords K) (fun b =>
  Json.bind (py_sub a b) (fun d => Returns (below (py_abs d) tol)))).

(** The literals [1e-6] and [0.1], as the binary64 values Python reads
    them to. *)
Definition tol_1e_6 : float := 0x1.0c6f7a0b5ed8dp-20%float.
Definition tol_0_1 : float := 0x1.999999999999ap-4%float.

(** The condition of the [if] in [apply_initial_config]; [and] evaluates
    its right side only when the left is true. *)
Definition matches (loc coords : json) : try bool :=
  Json.bind (close_to loc "latitude" coords "LATITUDE" tol_1e_6) (fun c1 =>
  if c1 then
    Json.bind (close_to loc "longitude" coords "LONGITUDE" tol_1e_6) (fun c2 =>
    if c2 then close_to loc "altitude" coords "ALTITUDE" tol_0_1
    else Returns false)
  else Returns false).

(** The [for] loop of [apply_initial_config] over the locations left. *)
Fixpoint select_matching (coords : json) (items : list json) : M unit :=
  match items with
  | [] => Py.ret tt
  | loc :: rest =>
      hit <- Py.call (matches loc coords) ;;
      if hit then modify_app (app_selected_location loc)
      else select_matching coords rest
  end.

(** [update_ui_with_config] *)
Definition update_ui_with_config (coords : json) : M unit :=
  lat <- Py.call (Json.getitem coords "LATITUDE") ;;
  lat <- Py.call (format_f 8 lat) ;;
  modify_ids (ids_selected_latitude_label_text ("Latitude: " ++ lat)) ;;;
  lon <- Py.call (Json.getitem coords "LONGITUDE") ;;
  lon <- Py.call (format_f 8 lon) ;;
  modify_ids (ids_selected_longitude_label_text ("Longitude: " ++ lon)) ;;;
  alt <- Py.call (Json.getitem coords "ALTITUDE") ;;
  alt <- Py.call (format_f 2 alt) ;;
  modify_ids (ids_selected_altitude_label_text ("Altitude: " ++ alt)) ;;;
  a <- get_app ;;
  if Json.truthy (selected_location a) then
    name <- Py.call (Json.getitem (selected_location a) "name") ;;
    modify_ids (ids_selected_name_label_text ("Name: " ++ py_str name)) ;;;
    name <- Py.call (Json.getitem (selected_location a) "name") ;;
    name <- Py.call (as_text name) ;;
    modify_ids (ids_select_location_button_text name)
  else Py.ret tt.

(** [apply_initial_config] *)
Definition apply_initial_config (config : json) : M unit :=
  flag <- Py.call (Json.getitem config "USE_FIXED_MODE") ;;
  modify_app
    (app_current_mode (if Json.truthy flag then "fixed" else "survey-in")) ;;;
  flag <- Py.call (Json.getitem config "USE_FIXED_MODE") ;;
  if Json.truthy flag then
    coords <- Py.call (Json.getitem config "COORDINATES") ;;
    modify_ids (ids_current_coordinates_column_opacity (1 # 2)) ;;;
    modify_ids (ids_fixed_coordinates_column_opacity 1) ;;;
    modify_ids (ids_switch_to_fixed_mode_disabled true) ;;;
    modify_ids (ids_switch_to_survey_mode_disabled false) ;;;
    a <- get_app ;;
    items <- Py.call (Json.iterate (location_data a)) ;;
    select_matching coords items ;;;
    update_ui_with_config coords
  else
    modify_ids (ids_current_coordinates_column_opacity 1) ;;;
    modify_ids (ids_fixed_coordinates_column_opacity (1 # 2)) ;;;
    modify_ids (ids_switch_to_fixed_mode_disabled false) ;;;
    modify_ids (ids_switch_to_survey_mode_disabled true).

(** The configuration [on_apply_location] prepares, or [None] where it
    shows "Please select a location first" and returns. *)
Definition prepare_config : M (option json) :=
  a <- get_app ;;
  if String.eqb (current_mode a) "fixed" then
    if negb (Json.truthy (selected_location a)) then Py.ret None
    else
      lat <- Py.call (Json.getitem (selected_location a) "latitude") ;;
      lon <- Py.call (Json.getitem (selected_location a) "longitude") ;;
      alt <- Py.call (Json.getitem (selected_location a) "altitude") ;;
      Py.ret (Some (JDict [("USE_FIXED_MODE", JBool true);
                           ("COORDINATES",
                            JDict [("LATITUDE", lat); ("LONGITUDE", lon);
                                   ("ALTITUDE", alt)])]))
  else
    Py.ret (Some (JDict [("USE_FIXED_MODE", JBool false);
                         ("COORDINATES",
                          JDict [("LATITUDE", JFloat 0);
                                 ("LONGITUDE", JFloat 0);
                                 ("ALTITUDE", JFloat 0)])])).

(** [subprocess.run(cmd, check=True)] under
    [except subprocess.CalledProcessError]: the command is recorded; a
    [CalledProcessError] ends the handler with the error popup, another
    exception leaves it. *)
Definition run_checked (run : command -> run_result) (cmd : command)
  (k : string -> M feedback) : M feedback :=
  Py.modify (fun w => world_commands (cmd :: w_commands w) w) ;;;
  match run cmd with
  | Completed stdout => k stdout
  | CalledProcessError => Py.ret ErrorPopup
  | OtherError => Py.raise
  end.

(** [on_apply_location], the method of the class. *)
Definition on_apply_location (run : command -> run_result) : M feedback :=
  config <- prepare_config ;;
  match config with
  | None => Py.ret ErrorPopup
  | Some config =>
      run_checked run (WriteConfig config) (fun _ =>
      run_checked run QueryUid (fun stdout =>
      run_checked run (RestartService (strip stdout)) (fun _ =>
      Py.ret SuccessPopup)))
  end.



(** [__init__], for the widgets as the layout file sets them up, followed
    by what [build] schedules: [apply_initial_config] when the initial
    configuration is there and not empty. *)
Definition startup (widgets : Ids) (d : Disk) : outcome unit * World F :=
  let w0 :=
    {| w_app := {| gnss_monitor := init;
                   selected_location := JNull;
                   current_mode := "survey-in";
                   known_locations := [];
                   location_data := JList [];
                   initial_config := JNull;
                   ids := widgets |};
       w_disk := d;
       w_commands := [] |} in
  (load_known_locations ;;;
   modify_app (app_initial_config
                 match basestation_json d with
                 | Returns config => config
                 | Raises => JNull
                 end) ;;;
   a <- get_app ;;
   if Json.truthy (initial_config a)
   then apply_initial_config (initial_config a)
   else Py.ret tt) w0.
End Application.

(** ** A station with two known locations *)

Module Station.
#[local] Existing Instance RealMath.ops.
Local Open Scope string_scope.

(** A display that shows every number as two dashes. *)
Definition fmt_num (digits : nat) (n : number) : try string := Returns "--".

Definition py_str (v : json) : string :=
  match v with
  | JStr s => s
  | _ => "?"
  end.

(** [str.strip] on ASCII. *)
Definition is_space (c : ascii) : bool :=
  let n := nat_of_ascii c in
  ((9 <=? n) && (n <=? 13) || (28 <=? n) && (n <=? 32))%nat.

Fixpoint lstrip (s : list ascii) : list ascii :=
  match s with
  | c :: rest => if is_space c then lstrip rest else s
  | [] => []
  end.

Definition strip (s : string) : string :=
  string_of_list_ascii
    (rev (lstrip (rev (lstrip (list_ascii_of_string s))))).

(** The labels of the current position, and what [float] reads in them. *)
Definition latitude_text : string := "Latitude: 36.5000000000".
Definition longitude_text : string := "Longitude: -121.5000000000".
Definition altitude_text : string := "Altitude: 12.25000 m".

Definition parse_label (text : string) : try float :=
  if String.eqb text latitude_text then Returns 36.5%float
  else if String.eqb text longitude_text then Returns (-121.5)%float
  else Raises.

Definition parse_altitude_label (text : string) : try float :=
  if String.eqb text altitude_text then Returns 12.25%float else Raises.

(** The conversion of the integers below [2^63] in absolute value, the only
    ones of this station. *)
Definition int_to_float (n : Z) : try float :=
  if (Z.abs n <? 2 ^ 63)%Z then
    Returns (if (0 <=? n)%Z then PrimFloat.of_uint63 (Uint63.of_Z n)
             else PrimFloat.opp (PrimFloat.of_uint63 (Uint63.of_Z (- n))))
  else Raises.

Definition barn : json :=
  JDict [("name", JStr "Barn"); ("latitude", JFloat 36.5);
         ("longitude", JFloat (-121.5)); ("altitude", JFloat 12.25)].

Definition field : json :=
  JDict [("name", JStr "Field"); ("latitude", JFloat 37.25);
         ("longitude", JFloat (-120.75)); ("altitude", JFloat 80.5)].

(** An entry without a name, and one without coordinates. *)
Definition nameless : json :=
  JDict [("latitude", JFloat 1); ("longitude", JFloat 2);
         ("altitude", JFloat 3)].

Definition sketch : json := JDict [("name", JStr "Sketch")].

Definition locations_file (items : list json) : json :=
  JDict [("version", JInt 1); ("locations", JList items)].

Definition disk (items : list json) : Disk :=
  {| known_locations_json := Returns (locations_file items);
     known_locations_writable := true;
     basestation_json := Raises |}.

Definition widgets : Ids :=
  {| current_coordinates_column_opacity := 1;
     fixed_coordinates_column_opacity := 1 # 2;
     switch_to_fixed_mode_disabled := false;
     switch_to_survey_mode_disabled := true;
     select_location_button_disabled := true;
     select_location_button_text := "Select Location";
     selected_name_label_text := "";
     selected_latitude_label_text := "";
     selected_longitude_label_text := "";
     selected_altitude_label_text := "";
     latitude_label_text := latitude_text;
     longitude_label_text := longitude_text;
     altitude_label_text := altitude_text |}.

(** The application in the survey-in mode, with the locations of the file
    loaded, and in the fixed mode with a location selected. *)
Definition running (items : list json) : World R :=
  {| w_app := {| gnss_monitor := Example.connected;
                 selected_location := JNull;
                 current_mode := "survey-in";
                 known_locations :=
                   map (fun loc => match Json.getitem loc "name" with
                                   | Returns v => v
                                   | Raises => JNull
                                   end) items;
                 location_data := JList items;
                 initial_config := JNull;
                 ids := widgets |};
     w_disk := disk items;
     w_commands := [] |}.

Definition chosen (loc : json) (items : list json) : World R :=
  world_app
    (app_selected_location loc (app_current_mode "fixed" (w_app (running items))))
    (running items).

(** The configuration of the fixed mode at the coordinates of a location. *)
Definition fixed_config (lat lon alt : float) : json :=
  JDict [("USE_FIXED_MODE", JBool true);
         ("COORDINATES",
          JDict [("LATITUDE", JFloat lat); ("LONGITUDE", JFloat lon);
                 ("ALTITUDE", JFloat alt)])].

Definition survey_config : json :=
  JDict [("USE_FIXED_MODE", JBool false);
         ("COORDINATES",
          JDict [("LATITUDE", JFloat 0); ("LONGITUDE", JFloat 0);
                 ("ALTITUDE", JFloat 0)])].

(** Commands that all complete; [id -u] prints the user id and a newline. *)
Definition run (cmd : command) : run_result :=
  match cmd with
  | QueryUid => Completed (String "1" (String "0" (String "0" (String "0"
                  (String (ascii_of_nat 10) EmptyString)))))
  | _ => Completed ""
  end.

End Station.

(** * Properties *)

(** ** The conversion on every platform *)



(** ** The conversion in exact real arithmetic *)

Module RealFacts.
Import RealMath.
Local Open Scope R_scope.

Lemma atan2_right (y x : R) : 0 < x -> atan2 y x = atan (y / x).
Proof. intros Hx. unfold atan2. destruct (Rlt_dec 0 x); [reflexivity | lra]. Qed.

Lemma atan2_up (y : R) : 0 < y -> atan2 y 0 = PI / 2.
Proof.
  intros Hy. unfold atan2.
  destruct (Rlt_dec 0 0); [lra|].
  destruct (Rlt_dec 0 y); [reflexivity | lra].
Qed.

Lemma atan2_origin : atan2 0 0 = 0.
Proof.
  unfold atan2. destruct (Rlt_dec 0 0); [lra | reflexivity].
Qed.








(** *** The constants *)

Lemma wgs84_a_pos : 0 < wgs84_a.
Proof. unfold wgs84_a. lra. Qed.

Lemma wgs84_f_range : 0 < wgs84_f < 1 / 100.
Proof. unfold wgs84_f. lra. Qed.


Lemma wgs84_e2_range : 0 < wgs84_e2 < 1.
Proof. pose proof wgs84_f_range. unfold wgs84_e2. nra. Qed.


(** [ecef_to_geodetic] over the reals, its literals read as real numbers. *)
Lemma ecef_to_geodetic_real (x y z : R) :
  ecef_to_geodetic x y z =
  let a := wgs84_a in
  let e2 := wgs84_e2 in
  let b := wgs84_b in
  let ep2 := (a ^ 2 - b ^ 2) / b ^ 2 in
  let p := sqrt (x ^ 2 + y ^ 2) in
  let theta := atan2 (z * a) (p * b) in
  let lat := atan2 (z + ep2 * b * sin theta ^ 3) (p - e2 * a * cos theta ^ 3) in
  (degrees lat, degrees (atan2 y x),
   p / cos lat - a / sqrt (1 - e2 * sin lat ^ 2)).
Proof.
  unfold ecef_to_geodetic. cbn [flit fadd fsub fmul fdiv fpow fsqrt fsin fcos
                                fatan2 fdegrees ops].
  assert (Ha : Q2R 6378137 = wgs84_a) by (unfold wgs84_a, Q2R; cbn; lra).
  assert (H1 : Q2R 1 = 1) by (unfold Q2R; cbn; lra).
  assert (H2 : Q2R 2 = 2) by (unfold Q2R; cbn; lra).
  assert (Hf : Q2R 1 / Q2R (298257223563 # 1000000000) = wgs84_f)
    by (rewrite H1; reflexivity).
  rewrite Ha, Hf, H1, H2. reflexivity.
Qed.

(** *** Points of the ellipsoid *)

Section OnEllipsoid.
Variables phi lam : R.
Hypothesis Hphi : - (PI / 2) < phi < PI / 2.
Hypothesis Hlam : - PI < lam <= PI.

Let a := wgs84_a.
Let f := wgs84_f.
Let e2 := 2 * f - f ^ 2.
Let b := a * (1 - f).
Let ep2 := (a ^ 2 - b ^ 2) / b ^ 2.
Let s := sin phi.
Let c := cos phi.
Let W := sqrt (1 - e2 * s ^ 2).
Let N := a / W.
Let x := (N + 0) * c * cos lam.
Let y := (N + 0) * c * sin lam.
Let z := (N * (1 - e2) + 0) * s.
Let p := sqrt (x ^ 2 + y ^ 2).
Let theta := atan2 (z * a) (p * b).
Let lat := atan2 (z + ep2 * b * sin theta ^ 3) (p - e2 * a * cos theta ^ 3).











End OnEllipsoid.





(** There the latitude still comes out as 90 degrees, north of the centre. *)
Lemma latitude_on_axis (z : R) :
  0 < z -> geo_lat (ecef_to_geodetic 0 0 z) = 90.
Proof.
  intros Hz. pose proof wgs84_a_pos as Ha. pose proof wgs84_f_range as Hf.
  rewrite ecef_to_geodetic_real. cbv zeta. unfold geo_lat. cbn [fst].
  replace (0 ^ 2 + 0 ^ 2) with 0 by ring. rewrite sqrt_0, Rmult_0_l.
  rewrite atan2_up by nra. rewrite sin_PI2, cos_PI2.
  assert (Hb : 0 < wgs84_b) by (unfold wgs84_b; nra).
  assert (Hab : wgs84_b < wgs84_a) by (unfold wgs84_b; nra).
  assert (Hep : 0 < (wgs84_a ^ 2 - wgs84_b ^ 2) / wgs84_b ^ 2)
    by (apply Rdiv_lt_0_compat; nra).
  replace (0 - wgs84_e2 * wgs84_a * 0 ^ 3) with 0 by ring.
  rewrite atan2_up.
  - unfold degrees. field. pose proof PI_RGT_0. lra.
  - replace (1 ^ 3) with 1 by ring. nra.
Qed.


End RealFacts.



(** ** The longitude on the polar axis *)

(** C6, as the code has it.  The longitude is [math.degrees(math.atan2(y, x))]
    and nothing else: there is no case for [x = y = 0] in the code.  Over the
    reals this is 0 at [x = y = 0]; over binary64 it is a zero of the sign of
    [y] when [x] is the positive zero, for every [z] and every C library. *)
Theorem pole_longitude_is_atan2 :
  (forall (F : Type) (M : MathOps F) (x y z : F),
      geo_lon (ecef_to_geodetic x y z) = fdegrees (fatan2 y x)) /\
  (forall z : R,
      geo_lon (@ecef_to_geodetic R RealMath.ops 0%R 0%R z) = 0%R) /\
  (forall (lm : FloatMath.Libm) (z : float),
      geo_lon (@ecef_to_geodetic _ (FloatMath.ops lm) 0%float 0%float z)
      = 0%float /\
      geo_lon (@ecef_to_geodetic _ (FloatMath.ops lm) 0%float (-0)%float z)
      = (-0)%float).
Proof.
  split; [reflexivity|]. split.
  - intros z. unfold geo_lon, ecef_to_geodetic. cbn.
    rewrite RealFacts.atan2_origin. unfold RealMath.degrees. apply Rmult_0_l.
  - intros lm z. split; reflexivity.
Qed.

(** C6, the claim as it stands.  For the negative zero in [x], which
    equals 0, and [y = 0] the longitude is 180, for every [z] and every C
    library. *)
Lemma pole_longitude_negative_zero :
  exists x y : float,
    PrimFloat.eqb x 0 = true /\ PrimFloat.eqb y 0 = true /\
    PrimFloat.eqb 180 0 = false /\
    forall (lm : FloatMath.Libm) (z : float),
      geo_lon (@ecef_to_geodetic _ (FloatMath.ops lm) x y z) = 180%float.
Proof.
  exists (-0)%float, 0%float. repeat split.
Qed.


(** ** The decode loop *)

Section MonitorFacts.
Context {F : Type} {MO : MathOps F}.
Variable rtcm_read :
  list byte -> try (option (list byte) * option (RTCMMessage F)).

Local Abbreviation Monitor := (GnssMonitor F).

Ltac py_unfold :=
  unfold loop_body, try_suite, write_position, connect,
    set_status, set_socket, set_buffer,
    Py.try_except, Py.bind, Py.get, Py.modify, Py.call, Py.getattr,
    Py.ret, Py.raise.

Lemma write_position_spec (x y z : F) (m : Monitor) :
  write_position x y z m =
  (Return tt, with_status (position_status x y z) m).
Proof.
  unfold write_position, position_status, geo_lat, geo_lon, geo_height.
  destruct (ecef_to_geodetic x y z) as [[lat lon] h]. reflexivity.
Qed.

(** The reader raises: the handler drops one byte. *)
Lemma loop_body_error (m : Monitor) :
  rtcm_read (_buffer m) = Raises ->
  loop_body rtcm_read m = (Return Continue, with_buffer (skipn 1) m).
Proof. intros H. py_unfold. rewrite H. reflexivity. Qed.

(** The reader returns without a message: [break]. *)
Lemma loop_body_incomplete (m : Monitor) raw :
  rtcm_read (_buffer m) = Returns (raw, None) ->
  loop_body rtcm_read m = (Return Break, m).
Proof. intros H. py_unfold. rewrite H. reflexivity. Qed.

(** A message that is not a 1005 is dropped from the buffer. *)
Lemma loop_body_other (m : Monitor) raw msg :
  rtcm_read (_buffer m) = Returns (Some raw, Some msg) ->
  identity msg <> "1005"%string ->
  loop_body rtcm_read m = (Return Continue, with_buffer (skipn (List.length raw)) m).
Proof.
  intros H Hid. py_unfold. rewrite H.
  apply String.eqb_neq in Hid. rewrite Hid. reflexivity.
Qed.

(** A 1005 with its coordinates updates the snapshot and is dropped. *)
Lemma loop_body_position (m : Monitor) raw msg x y z :
  rtcm_read (_buffer m) = Returns (Some raw, Some msg) ->
  identity msg = "1005"%string ->
  DF025 msg = Some x -> DF026 msg = Some y -> DF027 msg = Some z ->
  loop_body rtcm_read m =
  (Return Continue,
   with_buffer (skipn (List.length raw))
     (with_status (position_status x y z) m)).
Proof.
  intros H Hid Hx Hy Hz.
  unfold loop_body, try_suite, Py.try_except, Py.bind, Py.get,
    Py.call, Py.ret.
  rewrite H, Hid, Hx, Hy, Hz. cbn -[write_position].
  rewrite write_position_spec. reflexivity.
Qed.

(** A 1005 that lacks a coordinate: the attribute access raises, and the
    handler drops one byte. *)
Lemma loop_body_decode_error (m : Monitor) raw msg :
  rtcm_read (_buffer m) = Returns (raw, Some msg) ->
  decode_fails msg ->
  loop_body rtcm_read m = (Return Continue, with_buffer (skipn 1) m).
Proof.
  intros H [Hid Hmiss]. py_unfold. rewrite H, Hid. cbn.
  destruct (DF025 msg); [|reflexivity].
  destruct (DF026 msg); [|reflexivity].
  destruct (DF027 msg); [|reflexivity].
  destruct Hmiss as [Hm|[Hm|Hm]]; discriminate.
Qed.

(** A message the decoder handles is dropped, and the snapshot is the one
    [status_after] gives. *)
Lemma loop_body_message (m : Monitor) raw msg :
  rtcm_read (_buffer m) = Returns (Some raw, Some msg) ->
  decodes msg ->
  loop_body rtcm_read m =
  (Return Continue,
   with_buffer (skipn (List.length raw)) (with_status (status_after msg) m)).
Proof.
  intros H Hd. unfold status_after.
  destruct (String.eqb (identity msg) "1005") eqn:E.
  - apply String.eqb_eq in E. destruct (Hd E) as (x & y & z & Hx & Hy & Hz).
    rewrite Hx, Hy, Hz. now apply loop_body_position with (msg := msg).
  - apply String.eqb_neq in E. rewrite (loop_body_other m H E).
    destruct m; reflexivity.
Qed.

Lemma with_status_id (m : Monitor) : with_status (fun st => st) m = m.
Proof. destruct m; reflexivity. Qed.

(** A pass through the body never raises and never runs on: every exception
    under the inner [try] is caught.  It either breaks, leaving the monitor
    as it was, or continues with a shorter buffer. *)
Lemma loop_body_cases (m : Monitor) :
  loop_body rtcm_read m = (Return Break, m) \/
  exists n f,
    loop_body rtcm_read m =
    (Return Continue, with_buffer (skipn n) (with_status f m)) /\
    (n = 1%nat \/
     exists raw msg, rtcm_read (_buffer m) = Returns (Some raw, Some msg) /\
                     n = List.length raw).
Proof.
  destruct (rtcm_read (_buffer m)) as [[raw [msg|]]|] eqn:H.
  - right. destruct (String.eqb (identity msg) "1005") eqn:E.
    + apply String.eqb_eq in E.
      destruct (DF025 msg) as [x|] eqn:Hx;
        [destruct (DF026 msg) as [y|] eqn:Hy;
         [destruct (DF027 msg) as [z|] eqn:Hz|]|].
      * destruct raw as [raw|].
        -- exists (List.length raw), (position_status x y z).
           split; [now apply loop_body_position with (msg := msg) | eauto].
        -- exists 1%nat, (position_status x y z). split; [|auto].
           unfold loop_body, try_suite, Py.try_except, Py.bind,
             Py.get, Py.call, Py.ret.
           rewrite H, E, Hx, Hy, Hz. cbn -[write_position].
           rewrite write_position_spec. reflexivity.
      * exists 1%nat, (fun st => st). rewrite with_status_id. split; [|auto].
        apply loop_body_decode_error with (raw := raw) (msg := msg); auto.
        split; auto.
      * exists 1%nat, (fun st => st). rewrite with_status_id. split; [|auto].
        apply loop_body_decode_error with (raw := raw) (msg := msg); auto.
        split; auto.
      * exists 1%nat, (fun st => st). rewrite with_status_id. split; [|auto].
        apply loop_body_decode_error with (raw := raw) (msg := msg); auto.
        split; auto.
    + destruct raw as [raw|].
      * exists (List.length raw), (fun st => st). rewrite with_status_id.
        apply String.eqb_neq in E.
        split; [now apply loop_body_other with (msg := msg) | eauto].
      * exists 1%nat, (fun st => st). rewrite with_status_id. split; [|auto].
        py_unfold. rewrite H, E. reflexivity.
  - left. now apply loop_body_incomplete with (raw := raw).
  - right. exists 1%nat, (fun st => st). rewrite with_status_id.
    split; [now apply loop_body_error | auto].
Qed.


(** A pass leaves the socket alone and never lengthens the buffer. *)
Lemma loop_body_frame (m : Monitor) c m' :
  loop_body rtcm_read m = (Return c, m') ->
  _socket m' = _socket m /\
  (List.length (_buffer m') <= List.length (_buffer m))%nat /\
  (c = Break -> m' = m).
Proof.
  destruct (loop_body_cases m) as [H|(n & f & H & _)]; rewrite H;
    intros [= <- <-].
  - repeat split; lia.
  - cbn -[skipn]. rewrite length_skipn. repeat split; try lia. discriminate.
Qed.


(** *** The [while] loop *)

Lemma process_buffer_empty fuel (m : Monitor) :
  _buffer m = [] -> process_buffer rtcm_read fuel m = (Return tt, m).
Proof.
  intros H. destruct fuel; cbn; unfold Py.bind, Py.get; rewrite H;
    reflexivity.
Qed.

Lemma process_buffer_pass fuel (m : Monitor) :
  _buffer m <> [] ->
  process_buffer rtcm_read (S fuel) m =
  match loop_body rtcm_read m with
  | (Return Continue, m') => process_buffer rtcm_read fuel m'
  | (Return Break, m') => (Return tt, m')
  | (Raise, m') => (Raise, m')
  | (Unfinished, m') => (Unfinished, m')
  end.
Proof.
  intros H. cbn. unfold Py.bind at 1, Py.get.
  destruct (_buffer m) eqn:E; [congruence|]. cbn.
  unfold Py.bind. destruct (loop_body rtcm_read m) as [[[|]| |] m']; reflexivity.
Qed.

(** The loop never raises, whatever the reader does. *)
Lemma process_buffer_no_raise fuel : forall (m : Monitor),
  fst (process_buffer rtcm_read fuel m) <> Raise.
Proof.
  induction fuel as [|fuel IH]; intros m.
  - cbn. unfold Py.bind, Py.get. destruct (_buffer m); cbn; discriminate.
  - destruct (_buffer m) eqn:E.
    + rewrite process_buffer_empty by assumption. cbn. discriminate.
    + rewrite process_buffer_pass by congruence.
      destruct (loop_body_cases m) as [H|(n & f & H & _)]; rewrite H.
      * cbn. discriminate.
      * apply IH.
Qed.

(** The loop leaves the socket alone. *)
Lemma process_buffer_socket fuel : forall (m : Monitor),
  _socket (snd (process_buffer rtcm_read fuel m)) = _socket m.
Proof.
  induction fuel as [|fuel IH]; intros m.
  - cbn. unfold Py.bind, Py.get. destruct (_buffer m); reflexivity.
  - destruct (_buffer m) eqn:E.
    + rewrite process_buffer_empty by assumption. reflexivity.
    + rewrite process_buffer_pass by congruence.
      destruct (loop_body_cases m) as [H|(n & f & H & _)]; rewrite H.
      * reflexivity.
      * rewrite IH. reflexivity.
Qed.


(** *** A polling cycle *)

Lemma with_socket_same (m : Monitor) : with_socket (_socket m) m = m.
Proof. destruct m; reflexivity. Qed.

Lemma connect_spec (env : Env) (m : Monitor) :
  connect env m =
  (Return tt,
   with_socket match sock_connect env with
               | Returns s => Some s
               | Raises => None
               end m).
Proof. py_unfold. destruct (sock_connect env); reflexivity. Qed.

(** The cycle of a monitor that holds a socket. *)
Lemma update_status_connected fuel (env : Env) (m : Monitor) s :
  _socket m = Some s ->
  update_status rtcm_read fuel env m =
  match sock_recv env with
  | Raises => (Return None, with_socket None m)
  | Returns [] => (Return (Some (status m)), m)
  | Returns data =>
      match process_buffer rtcm_read fuel (with_buffer (fun b => b ++ data) m) with
      | (Return _, m') => (Return (Some (status m')), m')
      | (Raise, m') => (Return None, with_socket None m')
      | (Unfinished, m') => (Unfinished, m')
      end
  end.
Proof.
  intros H. unfold update_status.
  unfold Py.bind at 1, Py.get at 1. rewrite H.
  unfold Py.bind at 1, Py.ret at 1.
  unfold Py.try_except, Py.bind at 1, Py.get at 1. rewrite H.
  unfold Py.bind at 1, Py.getattr, Py.ret at 1.
  unfold Py.bind at 1, Py.call.
  destruct (sock_recv env) as [[|b data]|]; try reflexivity.
  unfold Py.ret at 1.
  unfold Py.bind at 1, Py.bind at 1, set_buffer, Py.modify.
  destruct (process_buffer _ _ _) as [[[]| |] m']; reflexivity.
Qed.

(** The cycle of a monitor without a socket: it connects first. *)
Lemma update_status_disconnected fuel (env : Env) (m : Monitor) :
  _socket m = None ->
  update_status rtcm_read fuel env m =
  match sock_connect env with
  | Raises => (Return None, m)
  | Returns s => update_status rtcm_read fuel env (with_socket (Some s) m)
  end.
Proof.
  intros H.
  destruct (sock_connect env) as [s|] eqn:C.
  - rewrite (@update_status_connected fuel env (with_socket (Some s) m) s)
      by reflexivity.
    unfold update_status.
    unfold Py.bind at 1, Py.get at 1. rewrite H.
    unfold Py.bind at 1, Py.bind at 1. rewrite connect_spec, C.
    unfold Py.bind at 1, Py.get at 1, Py.ret at 1. cbn [_socket with_socket].
    unfold Py.try_except, Py.bind at 1, Py.get at 1. cbn [_socket with_socket].
    unfold Py.bind at 1, Py.getattr, Py.ret at 1.
    unfold Py.bind at 1, Py.call.
    destruct (sock_recv env) as [[|b data]|]; try reflexivity.
    unfold Py.ret at 1.
    unfold Py.bind at 1, Py.bind at 1, set_buffer, Py.modify.
    destruct (process_buffer _ _ _) as [[[]| |] m']; reflexivity.
  - unfold update_status.
    unfold Py.bind at 1, Py.get at 1. rewrite H.
    unfold Py.bind at 1, Py.bind at 1. rewrite connect_spec, C.
    unfold Py.bind at 1, Py.get at 1, Py.ret at 1. cbn [_socket with_socket].
    unfold Py.ret. rewrite <- H. rewrite with_socket_same. reflexivity.
Qed.

(** *** Resynchronisation *)

Lemma with_buffer_app_nil (m : Monitor) : with_buffer (fun b => b ++ []) m = m.
Proof.
  destruct m. unfold with_buffer. cbn [status _socket _buffer].
  rewrite app_nil_r. reflexivity.
Qed.






(** C3.  A buffer on which the reader cannot yet tell a message (it returns
    without one): the pass breaks, the loop ends, and the monitor, buffer and
    snapshot alike, is as it was.  So is a cycle that receives bytes which
    leave the buffer incomplete, but for the bytes appended; and so is any
    later cycle that receives nothing. *)
Theorem partial_message_stability (m : Monitor) (s : Socket) :
  reads_incomplete rtcm_read (_buffer m) ->
  _socket m = Some s ->
  loop_body rtcm_read m = (Return Break, m) /\
  (forall fuel, process_buffer rtcm_read (S fuel) m = (Return tt, m)) /\
  (forall fuel env m0 data,
      sock_recv env = Returns data ->
      with_buffer (fun b => b ++ data) m0 = m ->
      update_status rtcm_read (S fuel) env m0 = (Return (Some (status m0)), m)) /\
  (forall fuel env,
      sock_recv env = Returns [] ->
      update_status rtcm_read fuel env m = (Return (Some (status m)), m)).
Proof.
  intros [raw Hr] Hs.
  assert (Hb : loop_body rtcm_read m = (Return Break, m))
    by (now apply loop_body_incomplete with (raw := raw)).
  assert (Hp : forall fuel, process_buffer rtcm_read (S fuel) m = (Return tt, m)).
  { intros fuel. destruct (_buffer m) eqn:E.
    - now apply process_buffer_empty.
    - rewrite process_buffer_pass by congruence. rewrite Hb. reflexivity. }
  repeat split; auto.
  - intros fuel env m0 data Hrecv Hm0.
    rewrite (@update_status_connected _ env m0 s)
      by (rewrite <- Hs, <- Hm0; reflexivity).
    rewrite Hrecv. destruct data as [|b data].
    + rewrite with_buffer_app_nil in Hm0. subst m0. reflexivity.
    + rewrite Hm0, Hp. rewrite <- Hm0. reflexivity.
  - intros fuel env Hrecv.
    rewrite (@update_status_connected _ env m s) by assumption.
    rewrite Hrecv. reflexivity.
Qed.

(** C5.  A complete message at the front of the buffer whose identity is not
    "1005": the pass takes exactly its bytes off the buffer, returns normally
    and leaves the snapshot and the socket as they were; alone in the buffer,
    it leaves the buffer empty, and the cycle that received it returns the
    unchanged snapshot. *)
Theorem other_message_consumed_silently
  (m : Monitor) (raw rest : list byte) (msg : RTCMMessage F) :
  _buffer m = raw ++ rest ->
  reads_message rtcm_read (raw ++ rest) raw msg ->
  identity msg <> "1005"%string ->
  loop_body rtcm_read m = (Return Continue, with_buffer (fun _ => rest) m) /\
  (rest = [] ->
   forall fuel,
     process_buffer rtcm_read (S fuel) m = (Return tt, with_buffer (fun _ => []) m)) /\
  (rest = [] ->
   forall fuel env m0 s,
     _socket m0 = Some s ->
     sock_recv env = Returns raw ->
     with_buffer (fun b => b ++ raw) m0 = m ->
     update_status rtcm_read (S fuel) env m0 =
     (Return (Some (status m0)), with_buffer (fun _ => []) m)).
Proof.
  intros Hb Hm Hid.
  assert (Hpass : loop_body rtcm_read m = (Return Continue, with_buffer (fun _ => rest) m)).
  { rewrite (@loop_body_other m raw msg); [|rewrite Hb; exact Hm | exact Hid].
    unfold with_buffer. rewrite Hb, skipn_app, skipn_all, Nat.sub_diag.
    reflexivity. }
  assert (Hloop : rest = [] -> forall fuel,
    process_buffer rtcm_read (S fuel) m = (Return tt, with_buffer (fun _ => []) m)).
  { intros -> fuel. destruct raw as [|b raw].
    - rewrite process_buffer_empty by (rewrite Hb; reflexivity).
      destruct m; cbn in *; subst; reflexivity.
    - rewrite process_buffer_pass by (rewrite Hb; discriminate).
      rewrite Hpass. apply process_buffer_empty. reflexivity. }
  repeat split; auto.
  intros Hrest fuel env m0 s Hs Hrecv Hm0.
  rewrite (@update_status_connected _ env m0 s) by assumption.
  rewrite Hrecv. destruct raw as [|b raw].
  - rewrite with_buffer_app_nil in Hm0. subst m0 rest.
    destruct m; cbn in *; subst; reflexivity.
  - rewrite Hm0, (Hloop Hrest). rewrite <- Hm0. reflexivity.
Qed.

(** C7.  When the reader returns a message 1005 that has its three
    coordinates, the pass writes to the snapshot the latitude and the
    longitude of [ecef_to_geodetic] rounded to 8 places and its height
    rounded to 2 places, and no other field. *)
Theorem position_written_rounded
  (m : Monitor) raw (msg : RTCMMessage F) (x y z : F) :
  rtcm_read (_buffer m) = Returns (raw, Some msg) ->
  identity msg = "1005"%string ->
  DF025 msg = Some x -> DF026 msg = Some y -> DF027 msg = Some z ->
  let st := status m in
  let st' := status (snd (loop_body rtcm_read m)) in
  let r := ecef_to_geodetic x y z in
  fst (loop_body rtcm_read m) = Return Continue /\
  latitude st' = fround (geo_lat r) 8 /\
  longitude st' = fround (geo_lon r) 8 /\
  altitude st' = fround (geo_height r) 2 /\
  accuracy_mm st' = accuracy_mm st /\
  is_fixed_mode st' = is_fixed_mode st /\
  is_survey_in_active st' = is_survey_in_active st /\
  survey_in_duration st' = survey_in_duration st.
Proof.
  intros H Hid Hx Hy Hz st st' r. subst st st' r.
  assert (E : exists n,
    loop_body rtcm_read m =
    (Return Continue, with_buffer (skipn n) (with_status (position_status x y z) m))).
  { destruct raw as [raw|].
    - exists (List.length raw). now apply loop_body_position with (msg := msg).
    - exists 1%nat.
      unfold loop_body, try_suite, Py.try_except, Py.bind,
        Py.get, Py.call, Py.ret.
      rewrite H, Hid, Hx, Hy, Hz. cbn -[write_position].
      rewrite write_position_spec. reflexivity. }
  destruct E as [n ->]. cbn. repeat split; reflexivity.
Qed.


(** *** The connection *)


(** C8.  The socket of the monitor over a cycle.  [connect] leaves it at the
    new socket if connecting succeeds and at [None] if not.  A cycle that
    starts without a socket ends with one only if connecting succeeded; if
    connecting fails it returns [None] at once and the monitor is as it was.
    If the receive raises, the cycle returns [None] without a socket, whether
    the socket was there before or just connected.  If the receive returns,
    a socket that was there is kept.  And from a monitor without a socket the
    next cycle connects by itself. *)
Theorem connection_state_machine fuel (env : Env) (m : Monitor) o m' :
  update_status rtcm_read fuel env m = (o, m') ->
  connect env m =
    (Return tt, with_socket match sock_connect env with
                            | Returns s => Some s
                            | Raises => None
                            end m) /\
  (_socket m = None ->
   forall s, _socket m' = Some s -> sock_connect env = Returns s) /\
  (_socket m = None -> sock_connect env = Raises ->
   o = Return None /\ m' = m) /\
  (_socket m <> None \/ sock_connect env <> Raises ->
   sock_recv env = Raises ->
   o = Return None /\ m' = with_socket None m) /\
  (forall s data, _socket m = Some s -> sock_recv env = Returns data ->
                  _socket m' = Some s) /\
  (_socket m' = None ->
   forall fuel' env' s,
     sock_connect env' = Returns s -> sock_recv env' = Returns [] ->
     update_status rtcm_read fuel' env' m' =
     (Return (Some (status m')), with_socket (Some s) m')).
Proof.
  intros H.
  assert (K : forall m0 s, _socket m0 = Some s ->
              forall o0 m0', update_status rtcm_read fuel env m0 = (o0, m0') ->
              (sock_recv env = Raises ->
               o0 = Return None /\ m0' = with_socket None m0) /\
              (forall data, sock_recv env = Returns data ->
                            _socket m0' = Some s)).
  { intros m0 s Hs o0 m0' H0.
    rewrite (update_status_connected fuel env m0 Hs) in H0.
    destruct (sock_recv env) as [[|b data]|] eqn:R.
    - injection H0 as Ho Hm. subst o0 m0'. split; [discriminate | auto].
    - split; [discriminate|]. intros data' _.
      pose proof (process_buffer_socket fuel
                    (with_buffer (fun b0 => b0 ++ b :: data) m0)) as Hk.
      pose proof (process_buffer_no_raise fuel
                    (with_buffer (fun b0 => b0 ++ b :: data) m0)) as Hn.
      destruct (process_buffer _ _ _) as [[[]| |] m1];
        cbn in Hk, Hn; try congruence; injection H0 as Ho Hm;
        subst o0 m0'; rewrite Hk; exact Hs.
    - injection H0 as Ho Hm. subst o0 m0'. split; [auto | discriminate]. }
  assert (R6 : forall m1 : Monitor, _socket m1 = None ->
            forall fuel' env' s,
              sock_connect env' = Returns s -> sock_recv env' = Returns [] ->
              update_status rtcm_read fuel' env' m1 =
              (Return (Some (status m1)), with_socket (Some s) m1)).
  { intros m1 Hn fuel' env' s C R.
    rewrite update_status_disconnected, C by assumption.
    rewrite (@update_status_connected _ env' (with_socket (Some s) m1) s)
      by reflexivity.
    rewrite R. reflexivity. }
  split; [apply connect_spec|].
  destruct (_socket m) as [s0|] eqn:Hs.
  - destruct (K m s0 Hs o m' H) as [K1 K2].
    refine (conj _ (conj _ (conj _ (conj _ _)))).
    + discriminate.
    + discriminate.
    + intros _ R. apply K1, R.
    + intros s data [= <-] R. apply (K2 data R).
    + apply R6.
  - rewrite update_status_disconnected in H by assumption.
    destruct (sock_connect env) as [s1|] eqn:C.
    + destruct (K (with_socket (Some s1) m) s1 eq_refl o m' H) as [K1 K2].
      refine (conj _ (conj _ (conj _ (conj _ _)))).
      * intros _ s Hs'.
        destruct (sock_recv env) as [data|] eqn:R.
        -- rewrite (K2 data eq_refl) in Hs'. congruence.
        -- destruct (K1 eq_refl) as [_ Hm]. rewrite Hm in Hs'. discriminate.
      * discriminate.
      * intros _ R. destruct (K1 R) as [Ho Hm]. split; [exact Ho|].
        rewrite Hm. destruct m; reflexivity.
      * discriminate.
      * apply R6.
    + injection H as Ho Hm. subst o m'.
      refine (conj _ (conj _ (conj _ (conj _ _)))).
      * intros _ s Hs'. congruence.
      * auto.
      * intros [Hc|Hc]; congruence.
      * discriminate.
      * apply R6.
Qed.


End MonitorFacts.


(** ** The strict reader *)

Module Rtcm3Facts.
Import Rtcm3.
Local Open Scope N_scope.

Lemma to_N_byte_of (n : N) : Byte.to_N (byte_of n) = n mod 256.
Proof.
  unfold byte_of. destruct (Byte.of_N (n mod 256)) as [b|] eqn:E.
  - now apply Byte.to_of_N.
  - apply Byte.of_N_None_iff in E.
    pose proof (N.mod_upper_bound n 256). lia.
Qed.

Lemma length_be_bytes (k : nat) : forall n, List.length (be_bytes k n) = k.
Proof.
  induction k as [|k IH]; intros n; cbn [be_bytes]; [reflexivity|].
  rewrite length_app, IH. cbn. lia.
Qed.

Lemma be_value_snoc (l : list byte) (b : byte) :
  be_value (l ++ [b]) = be_value l * 256 + Byte.to_N b.
Proof. unfold be_value. rewrite fold_left_app. reflexivity. Qed.

Lemma be_value_be_bytes (k : nat) :
  forall n, be_value (be_bytes k n) = n mod 256 ^ N.of_nat k.
Proof.
  induction k as [|k IH]; intros n.
  - cbn. now rewrite N.mod_1_r.
  - cbn [be_bytes]. rewrite be_value_snoc, IH, to_N_byte_of.
    rewrite Nat2N.inj_succ, N.pow_succ_r', N.Div0.mod_mul_r. lia.
Qed.

Lemma crc24q_bound (bs : list byte) : crc24q bs < 2 ^ 24.
Proof.
  unfold crc24q. change 0xFFFFFF with (N.ones 24).
  rewrite N.land_ones. apply N.mod_upper_bound. discriminate.
Qed.

Section Frames.
Context {F : Type} {MO : MathOps F}.
Variable payload : list byte.
Hypothesis Hlen : (List.length payload < 1024)%nat.

Let n := N.of_nat (List.length payload).
Let b1 := byte_of (n / 256).
Let b2 := byte_of n.
Let crc := be_bytes 3 (crc24q (xd3 :: b1 :: b2 :: payload)).

Lemma frame_bytes : frame payload = xd3 :: b1 :: b2 :: payload ++ crc.
Proof. reflexivity. Qed.

Lemma frame_length :
  List.length (frame payload) = (List.length payload + 6)%nat.
Proof.
  rewrite frame_bytes. cbn [List.length]. rewrite length_app.
  subst crc. rewrite length_be_bytes. lia.
Qed.

Lemma frame_header :
  Byte.to_N b1 < 4 /\ N.to_nat (be_value [b1; b2]) = List.length payload.
Proof.
  assert (Hn : n < 1024) by (subst n; lia).
  subst b1 b2. rewrite !to_N_byte_of.
  assert (H4 : n / 256 < 4) by (apply N.Div0.div_lt_upper_bound; lia).
  split.
  - rewrite N.mod_small; lia.
  - unfold be_value. cbn [fold_left]. rewrite !to_N_byte_of.
    rewrite (N.mod_small (n / 256)) by lia.
    pose proof (N.div_mod n 256 ltac:(discriminate)). subst n. lia.
Qed.

(** A frame at the front of a buffer is read back whole, with the message
    of its payload. *)
Lemma read_frame (rest : list byte) :
  (2 <= List.length payload)%nat ->
  read (frame payload ++ rest)
  = Returns (Some (frame payload), Some (decode (F := F) payload)).
Proof.
  intros H2. destruct frame_header as [Hb1 Hval].
  rewrite frame_bytes. unfold read. cbn [app].
  change (negb (Byte.eqb xd3 xd3)) with false. cbn match.
  apply N.ltb_lt in Hb1. rewrite Hb1. cbn [negb].
  rewrite Hval.
  rewrite <- !app_assoc.
  rewrite firstn_app, firstn_all, Nat.sub_diag, firstn_O, app_nil_r.
  rewrite skipn_app, skipn_all, Nat.sub_diag. cbn [skipn app].
  assert (Hc : List.length crc = 3%nat) by (subst crc; apply length_be_bytes).
  rewrite firstn_app, Hc, Nat.sub_diag, firstn_O, app_nil_r.
  rewrite firstn_all2 by lia.
  assert (Hl : (List.length (payload ++ crc ++ rest)
                <? List.length payload + 3)%nat = false).
  { apply Nat.ltb_ge. rewrite !length_app, Hc. lia. }
  rewrite Hl.
  assert (Hcrc : be_value crc = crc24q (xd3 :: b1 :: b2 :: payload)).
  { subst crc. rewrite be_value_be_bytes. apply N.mod_small.
    apply crc24q_bound. }
  rewrite Hcrc, N.eqb_refl. cbn [negb].
  assert (Hp : (List.length payload <? 2)%nat = false)
    by (apply Nat.ltb_ge; lia).
  rewrite Hp. reflexivity.
Qed.

(** A frame cut short is a buffer the reader cannot yet decide. *)
Lemma read_truncated (k : nat) :
  (k < List.length (frame payload))%nat ->
  read (F := F) (firstn k (frame payload)) = Returns (None, None).
Proof.
  intros Hk. rewrite frame_length in Hk. destruct frame_header as [Hb1 Hval].
  rewrite frame_bytes.
  destruct k as [|[|[|k]]]; try reflexivity.
  cbn [firstn]. unfold read.
  change (negb (Byte.eqb xd3 xd3)) with false. cbn match.
  apply N.ltb_lt in Hb1. rewrite Hb1. cbn [negb].
  rewrite Hval.
  assert (Hl : (List.length (firstn k (payload ++ crc))
                <? List.length payload + 3)%nat = true).
  { apply Nat.ltb_lt. rewrite length_firstn. lia. }
  rewrite Hl. reflexivity.
Qed.
End Frames.
End Rtcm3Facts.


(** ** The concrete buffers *)

#[local] Existing Instance RealMath.ops.

Module ExampleFacts.
Import Example.


Lemma position_message_decodes : decodes position_message.
Proof. intros _. do 3 eexists. repeat split; reflexivity. Qed.


End ExampleFacts.


(** C3 on the first ten bytes of the position frame. *)
Lemma partial_message_stability_witness :
  loop_body Example.reader Example.waiting =
    (Return Break, Example.waiting) /\
  process_buffer Example.reader 1 Example.waiting =
    (Return tt, Example.waiting) /\
  update_status Example.reader 1
    (Example.receiving (firstn 10 Example.position_frame)) Example.connected =
    (Return (Some (status Example.connected)), Example.waiting) /\
  update_status Example.reader 0 Example.quiet Example.waiting =
    (Return (Some (status Example.waiting)), Example.waiting).
Proof.
  destruct (@partial_message_stability R RealMath.ops Example.reader
              Example.waiting 3%nat)
    as (H1 & H2 & H3 & H4).
  - exists None. vm_compute. reflexivity.
  - reflexivity.
  - split; [exact H1|]. split; [apply H2|]. split.
    + apply (H3 0%nat (Example.receiving (firstn 10 Example.position_frame))
                Example.connected (firstn 10 Example.position_frame));
        reflexivity.
    + apply H4. reflexivity.
Defined.


(** C5 on a message 1077. *)
Lemma other_message_consumed_silently_witness :
  loop_body Example.reader Example.filtering =
    (Return Continue, with_buffer (fun _ => []) Example.filtering) /\
  update_status Example.reader 1 (Example.receiving Example.other_frame)
    Example.connected =
    (Return (Some (status Example.connected)),
     with_buffer (fun _ => []) Example.filtering).
Proof.
  destruct (@other_message_consumed_silently R RealMath.ops Example.reader
              Example.filtering Example.other_frame [] Example.other_message)
    as (H1 & _ & H3).
  - vm_compute. reflexivity.
  - vm_compute. reflexivity.
  - intros H. vm_compute in H. discriminate.
  - split; [exact H1|].
    apply (H3 eq_refl 0%nat (Example.receiving Example.other_frame)
              Example.connected 3%nat); reflexivity.
Defined.

(** C7 on the position frame. *)
Lemma position_written_rounded_witness :
  let r := @ecef_to_geodetic R RealMath.ops
             (Q2R (11141045999 # 10000)) (Q2R (-48507297108 # 10000))
             (Q2R (39755214643 # 10000)) in
  let st' := status (snd (loop_body Example.reader Example.positioned)) in
  latitude st' = RealMath.round (geo_lat r) 8 /\
  longitude st' = RealMath.round (geo_lon r) 8 /\
  altitude st' = RealMath.round (geo_height r) 2.
Proof.
  destruct (@position_written_rounded R RealMath.ops Example.reader
              Example.positioned (Some Example.position_frame)
              Example.position_message
              (Q2R (11141045999 # 10000)) (Q2R (-48507297108 # 10000))
              (Q2R (39755214643 # 10000)))
    as (_ & H1 & H2 & H3 & _); try reflexivity.
  cbv zeta. repeat split; assumption.
Defined.

(** C8 on a receive that raises, and the cycle after it. *)
Lemma connection_state_machine_witness :
  update_status Example.reader 0 Example.broken Example.connected =
    (Return None, with_socket None Example.connected) /\
  update_status Example.reader 0 Example.quiet
    (with_socket None Example.connected) =
    (Return (Some (status Example.connected)),
     with_socket (Some 4%nat) Example.connected).
Proof.
  destruct (@connection_state_machine R RealMath.ops Example.reader 0%nat
              Example.broken Example.connected (Return None)
              (with_socket None Example.connected) eq_refl)
    as (_ & _ & _ & _ & _ & H).
  split; [reflexivity|].
  apply (H eq_refl 0%nat Example.quiet 4%nat); reflexivity.
Defined.




(** * Further properties *)

(** ** The decode loop over whole streams *)

Section MonitorExtras.
Context {F : Type} {MO : MathOps F}.
Variable rtcm_read :
  list byte -> try (option (list byte) * option (RTCMMessage F)).

Local Abbreviation Monitor := (GnssMonitor F).

Lemma position_status_twice (x y z x' y' z' : F) (st : BaseStationStatus F) :
  position_status x' y' z' (position_status x y z st)
  = position_status x' y' z' st.
Proof. reflexivity. Qed.

(** What a pass does to the monitor: it drops bytes from the front of the
    buffer and either leaves the snapshot or writes one position. *)
Lemma loop_body_effect (m : Monitor) :
  exists c n f,
    loop_body rtcm_read m =
    (Return c, with_buffer (skipn n) (with_status f m)) /\
    (f = (fun st => st) \/ exists x y z, f = position_status x y z) /\
    (c = Break -> reads_incomplete rtcm_read (_buffer m) /\ n = 0%nat).
Proof.
  destruct (rtcm_read (_buffer m)) as [[raw [msg|]]|] eqn:H.
  - exists Continue.
    destruct (String.eqb (identity msg) "1005") eqn:E.
    + apply String.eqb_eq in E.
      destruct (DF025 msg) as [x|] eqn:Hx;
        [destruct (DF026 msg) as [y|] eqn:Hy;
         [destruct (DF027 msg) as [z|] eqn:Hz|]|].
      * destruct raw as [raw|].
        -- exists (List.length raw), (position_status x y z).
           split; [now apply loop_body_position with (msg := msg)|].
           split; [eauto | discriminate].
        -- exists 1%nat, (position_status x y z).
           split; [|split; [eauto | discriminate]].
           unfold loop_body, try_suite, Py.try_except, Py.bind,
             Py.get, Py.call, Py.ret.
           rewrite H, E, Hx, Hy, Hz. cbn -[write_position].
           rewrite write_position_spec. reflexivity.
      * exists 1%nat, (fun st => st). rewrite with_status_id.
        split; [|split; [auto | discriminate]].
        apply loop_body_decode_error with (raw := raw) (msg := msg); auto.
        split; auto.
      * exists 1%nat, (fun st => st). rewrite with_status_id.
        split; [|split; [auto | discriminate]].
        apply loop_body_decode_error with (raw := raw) (msg := msg); auto.
        split; auto.
      * exists 1%nat, (fun st => st). rewrite with_status_id.
        split; [|split; [auto | discriminate]].
        apply loop_body_decode_error with (raw := raw) (msg := msg); auto.
        split; auto.
    + destruct raw as [raw|].
      * exists (List.length raw), (fun st => st). rewrite with_status_id.
        apply String.eqb_neq in E.
        split; [now apply loop_body_other with (msg := msg)|].
        split; [auto | discriminate].
      * exists 1%nat, (fun st => st). rewrite with_status_id.
        split; [|split; [auto | discriminate]].
        unfold loop_body, try_suite, write_position, set_status, set_buffer,
          Py.try_except, Py.bind, Py.get, Py.modify, Py.call, Py.getattr,
          Py.ret, Py.raise.
        rewrite H, E. reflexivity.
  - exists Break, 0%nat, (fun st => st). rewrite with_status_id.
    split; [|split; [auto|intros _; split; [exists raw; exact H | reflexivity]]].
    rewrite (loop_body_incomplete rtcm_read m H). destruct m; reflexivity.
  - exists Continue, 1%nat, (fun st => st). rewrite with_status_id.
    split; [now apply loop_body_error|]. split; [auto | discriminate].
Qed.

(** The same for the whole loop, however it ends. *)
Lemma process_buffer_effect fuel : forall (m : Monitor),
  exists n f,
    snd (process_buffer rtcm_read fuel m) =
    with_buffer (skipn n) (with_status f m) /\
    (f = (fun st => st) \/ exists x y z, f = position_status x y z).
Proof.
  induction fuel as [|fuel IH]; intros m.
  - exists 0%nat, (fun st => st). split; [|auto].
    cbn. unfold Py.bind, Py.get. destruct m as [st so [|b l]]; reflexivity.
  - destruct (_buffer m) eqn:E.
    + exists 0%nat, (fun st => st). split; [|auto].
      rewrite process_buffer_empty by assumption. destruct m; reflexivity.
    + rewrite process_buffer_pass by congruence.
      destruct (loop_body_effect m) as (c & n & f & H & Hf & _). rewrite H.
      destruct c.
      * destruct (IH (with_buffer (skipn n) (with_status f m)))
          as (n' & f' & H' & Hf').
        rewrite H'. exists (n' + n)%nat.
        destruct Hf' as [->|(x & y & z & ->)].
        -- exists f. split; [|exact Hf].
           unfold with_buffer, with_status. cbn [status _socket _buffer].
           rewrite skipn_skipn. reflexivity.
        -- exists (position_status x y z). split; [|eauto].
           unfold with_buffer, with_status. cbn [status _socket _buffer].
           rewrite skipn_skipn.
           destruct Hf as [->|(x0 & y0 & z0 & ->)]; reflexivity.
      * exists n, f. split; [reflexivity | exact Hf].
Qed.

(** The monitor a cycle leaves: the socket apart, the one the loop leaves
    on the old buffer and the received bytes, or the old one. *)
Lemma update_status_effect fuel (env : Env) (m : Monitor) :
  exists n f data,
    _buffer (snd (update_status rtcm_read fuel env m)) =
      skipn n (_buffer m ++ data) /\
    status (snd (update_status rtcm_read fuel env m)) = f (status m) /\
    (data = [] \/ data = received env) /\
    (f = (fun st => st) \/ exists x y z, f = position_status x y z).
Proof.
  assert (C : forall (m0 : Monitor) s, _socket m0 = Some s ->
    exists n f data,
      _buffer (snd (update_status rtcm_read fuel env m0)) =
        skipn n (_buffer m0 ++ data) /\
      status (snd (update_status rtcm_read fuel env m0)) = f (status m0) /\
      (data = [] \/ data = received env) /\
      (f = (fun st => st) \/ exists x y z, f = position_status x y z)).
  { intros m0 s Hs. rewrite (update_status_connected rtcm_read fuel env m0 Hs).
    unfold received.
    destruct (sock_recv env) as [[|b data]|] eqn:R.
    - exists 0%nat, (fun st => st), []. cbn. rewrite app_nil_r. auto.
    - destruct (process_buffer_effect fuel
                  (with_buffer (fun b0 => b0 ++ b :: data) m0))
        as (n & f & H & Hf).
      exists n, f, (b :: data).
      destruct (process_buffer rtcm_read fuel _) as [[[]| |] m1];
        cbn [snd] in H; subst m1; cbn; auto.
    - exists 0%nat, (fun st => st), []. cbn. rewrite app_nil_r. auto. }
  destruct (_socket m) as [s|] eqn:Hs; [eauto|].
  rewrite update_status_disconnected by assumption.
  destruct (sock_connect env) as [s|].
  - destruct (C (with_socket (Some s) m) s eq_refl) as (n & f & d & H).
    exists n, f, d. exact H.
  - exists 0%nat, (fun st => st), []. cbn. rewrite app_nil_r. auto.
Qed.

(** X1.  Whatever the reader and the outside world do, a cycle leaves the
    snapshot as it was or holding exactly one position, the rounded
    conversion of three coordinates; [accuracy_mm], [is_fixed_mode],
    [is_survey_in_active] and [survey_in_duration] are never written. *)
Theorem snapshot_changes_only_by_position fuel (env : Env) (m : Monitor) :
  let st := status m in
  let st' := status (snd (update_status rtcm_read fuel env m)) in
  (st' = st \/ exists x y z, st' = position_status x y z st) /\
  accuracy_mm st' = accuracy_mm st /\
  is_fixed_mode st' = is_fixed_mode st /\
  is_survey_in_active st' = is_survey_in_active st /\
  survey_in_duration st' = survey_in_duration st.
Proof.
  intros st st'. subst st st'.
  destruct (update_status_effect fuel env m) as (n & f & d & _ & H & _ & Hf).
  rewrite H. destruct Hf as [->|(x & y & z & ->)].
  - repeat split; auto.
  - repeat split; eauto.
Qed.

(** X2.  The bytes a cycle leaves in the buffer are a tail of the bytes it
    started with followed by the bytes it received: nothing is added,
    changed or reordered, and bytes go from the front only. *)
Theorem buffer_only_loses_front fuel (env : Env) (m : Monitor) :
  exists n,
    _buffer (snd (update_status rtcm_read fuel env m)) =
      skipn n (_buffer m ++ received env) \/
    _buffer (snd (update_status rtcm_read fuel env m)) = skipn n (_buffer m).
Proof.
  destruct (update_status_effect fuel env m) as (n & f & d & H & _ & Hd & _).
  exists n. rewrite H. destruct Hd as [->| ->].
  - right. now rewrite app_nil_r.
  - left. reflexivity.
Qed.

(** X3.  When the loop ends, the buffer is empty or the reader finds no
    message at its front yet: no complete message is left at the front. *)
Theorem loop_ends_empty_or_incomplete fuel : forall (m m' : Monitor),
  process_buffer rtcm_read fuel m = (Return tt, m') ->
  _buffer m' = [] \/ reads_incomplete rtcm_read (_buffer m').
Proof.
  induction fuel as [|fuel IH]; intros m m' H.
  - destruct (_buffer m) eqn:E.
    + rewrite process_buffer_empty in H by assumption.
      injection H as <-. auto.
    + cbn in H. unfold Py.bind, Py.get in H. rewrite E in H. discriminate.
  - destruct (_buffer m) eqn:E.
    + rewrite process_buffer_empty in H by assumption.
      injection H as <-. auto.
    + rewrite process_buffer_pass in H by congruence.
      destruct (loop_body_effect m) as (c & n & f & Hb & _ & Hc).
      rewrite Hb in H. destruct c.
      * eapply IH. exact H.
      * injection H as <-. destruct (Hc eq_refl) as [Hi ->].
        right. exact Hi.
Qed.

(** X4.  A buffer of complete messages one after the other, then a tail that
    is empty or still incomplete: the loop takes every message in order,
    the snapshot is the one after all of them (the last position wins), and
    the buffer is left with the tail. *)
Theorem stream_drained_in_order
  (frames : list (list byte * RTCMMessage F)) (tail buf : list byte) :
  framed_stream rtcm_read tail frames buf ->
  forall (m : Monitor) fuel,
    _buffer m = buf ->
    (List.length frames < fuel)%nat ->
    process_buffer rtcm_read fuel m =
    (Return tt,
     with_buffer (fun _ => tail)
       (with_status (status_after_all frames) m)).
Proof.
  induction 1 as [Ht | raw msg frames rest Hr Hne Hd Hs IH];
    intros m fuel Hb Hf.
  - destruct fuel as [|fuel]; [cbn in Hf; lia|].
    assert (E : with_buffer (fun _ => tail) (with_status (status_after_all []) m)
                = m) by (destruct m; cbn in *; subst; reflexivity).
    rewrite E. destruct Ht as [->|[r Hi]].
    + now apply process_buffer_empty.
    + destruct tail as [|b t] eqn:Et.
      * now apply process_buffer_empty.
      * rewrite process_buffer_pass by congruence.
        rewrite (loop_body_incomplete rtcm_read m (raw := r))
          by (rewrite Hb; exact Hi).
        reflexivity.
  - destruct fuel as [|fuel]; [cbn in Hf; lia|].
    rewrite process_buffer_pass
      by (rewrite Hb; destruct raw; [congruence | discriminate]).
    rewrite (@loop_body_message _ _ rtcm_read m raw msg)
      by (rewrite ?Hb; assumption).
    rewrite IH.
    + reflexivity.
    + cbn [_buffer with_buffer with_status]. rewrite Hb.
      rewrite skipn_app, skipn_all, Nat.sub_diag. reflexivity.
    + cbn in Hf. lia.
Qed.

(** The cycle of a monitor with a socket that receives some bytes. *)
Lemma update_status_receiving fuel (env : Env) (m : Monitor) s data :
  _socket m = Some s ->
  sock_recv env = Returns data ->
  data <> [] ->
  update_status rtcm_read fuel env m =
  match process_buffer rtcm_read fuel (with_buffer (fun b => b ++ data) m) with
  | (Return _, m') => (Return (Some (status m')), m')
  | (Raise, m') => (Return None, with_socket None m')
  | (Unfinished, m') => (Unfinished, m')
  end.
Proof.
  intros Hs Hr Hd. rewrite (update_status_connected rtcm_read fuel env m Hs).
  rewrite Hr. destruct data; [congruence | reflexivity].
Qed.

(** X5.  A receive that raises takes the socket and nothing else: the bytes
    gathered so far stay in the buffer.  So a message whose first part came
    before the failure and whose rest comes after the reconnection is
    decoded, from the old bytes and the new. *)
Theorem message_survives_reconnect
  (m : Monitor) (s s' : Socket) (part1 part2 : list byte)
  (msg : RTCMMessage F) fuel :
  _socket m = Some s ->
  _buffer m = [] ->
  part1 <> [] -> part2 <> [] ->
  reads_incomplete rtcm_read part1 ->
  reads_message rtcm_read (part1 ++ part2) (part1 ++ part2) msg ->
  decodes msg ->
  cycles rtcm_read (S fuel)
    [ {| sock_connect := Raises; sock_recv := Returns part1 |};
      {| sock_connect := Raises; sock_recv := Raises |};
      {| sock_connect := Returns s'; sock_recv := Returns part2 |} ] m
  = Some (with_socket (Some s') (with_status (status_after msg) m)).
Proof.
  intros Hs Hb H1 H2 Hi Hm Hd.
  set (m1 := with_buffer (fun _ => part1) m).
  assert (Hm1 : with_buffer (fun b => b ++ part1) m = m1)
    by (subst m1; destruct m; cbn in *; subst; reflexivity).
  assert (P1 : process_buffer rtcm_read (S fuel) m1 = (Return tt, m1)).
  { destruct Hi as [r Hi]. destruct part1 as [|b p]; [congruence|].
    rewrite process_buffer_pass by discriminate.
    rewrite (loop_body_incomplete rtcm_read m1 (raw := r)) by exact Hi.
    reflexivity. }
  set (m2 := with_buffer (fun _ => part1 ++ part2) (with_socket (Some s') m)).
  assert (P2 : process_buffer rtcm_read (S fuel) m2 =
               (Return tt, with_buffer (fun _ => [])
                             (with_status (status_after msg) m2))).
  { rewrite process_buffer_pass
      by (cbn; destruct part1; [congruence | discriminate]).
    rewrite (@loop_body_message _ _ rtcm_read m2 (part1 ++ part2) msg)
      by assumption.
    unfold with_buffer at 1. unfold m2 at 3. cbn [_buffer with_buffer with_status].
    rewrite skipn_all. apply process_buffer_empty. reflexivity. }
  cbn [cycles].
  erewrite update_status_receiving; [|exact Hs | reflexivity | exact H1].
  rewrite Hm1, P1.
  rewrite (@update_status_connected _ _ rtcm_read (S fuel) _ m1 s)
    by (subst m1; exact Hs).
  cbn [sock_recv].
  rewrite update_status_disconnected by reflexivity. cbn [sock_connect].
  erewrite update_status_receiving; [|reflexivity | reflexivity | exact H2].
  replace (with_buffer (fun b => b ++ part2)
             (with_socket (Some s') (with_socket None m1))) with m2
    by (subst m1 m2; reflexivity).
  rewrite P2. f_equal. subst m2. destruct m; cbn in *; subst. reflexivity.
Qed.

End MonitorExtras.

(** X6.  The loop relies on the reader for its progress: with a reader that
    hands back a message without any raw byte, no pass shortens the buffer,
    and neither the loop nor the cycle ends, whatever the bound. *)
Theorem loop_diverges_without_progress
  (F : Type) (MO : MathOps F) (m : GnssMonitor F) (s : Socket)
  (data : list byte) fuel :
  _socket m = Some s ->
  data <> [] ->
  process_buffer (@idle_reader F) fuel (with_buffer (fun b => b ++ data) m)
    = (Unfinished, with_buffer (fun b => b ++ data) m) /\
  update_status (@idle_reader F) fuel
    {| sock_connect := Raises; sock_recv := Returns data |} m
    = (Unfinished, with_buffer (fun b => b ++ data) m).
Proof.
  intros Hs Hd.
  assert (P : forall m0 : GnssMonitor F, _buffer m0 <> [] ->
                process_buffer (@idle_reader F) fuel m0 = (Unfinished, m0)).
  { induction fuel as [|fuel IH]; intros m0 Hne.
    - cbn. unfold Py.bind, Py.get.
      destruct (_buffer m0); [congruence | reflexivity].
    - rewrite process_buffer_pass by assumption.
      rewrite (@loop_body_other _ _ (@idle_reader F) m0 [] _ eq_refl)
        by discriminate.
      replace (with_buffer (skipn (List.length [])) m0) with m0
        by (destruct m0; reflexivity).
      now apply IH. }
  assert (Hne : _buffer (with_buffer (fun b => b ++ data) m) <> []).
  { cbn. destruct data; [congruence|]. destruct (_buffer m); discriminate. }
  split; [now apply P|].
  rewrite (update_status_connected (@idle_reader F) fuel _ m Hs).
  cbn [sock_recv]. destruct data as [|b d]; [congruence|].
  rewrite P by exact Hne. reflexivity.
Qed.

(** ** The conversion over the reals: ranges and special places *)

Module RealExtras.
Import RealMath RealFacts.
Local Open Scope R_scope.







Lemma cube_le_1 (c : R) : -1 <= c <= 1 -> c ^ 3 <= 1.
Proof. intros Hc. nra. Qed.

(** Further than [e2 * a] from the polar axis the second argument of the
    latitude's [atan2] is positive. *)
Lemma latitude_denominator_pos (p t : R) :
  wgs84_e2 * wgs84_a < p -> 0 < p - wgs84_e2 * wgs84_a * cos t ^ 3.
Proof.
  intros Hp. pose proof wgs84_e2_range as He. pose proof wgs84_a_pos as Ha.
  pose proof (cube_le_1 (COS_bound t)) as Hc.
  assert (0 < wgs84_e2 * wgs84_a) by nra.
  assert (wgs84_e2 * wgs84_a * cos t ^ 3 <= wgs84_e2 * wgs84_a * 1)
    by (apply Rmult_le_compat_l; lra).
  lra.
Qed.

End RealExtras.




(** X10.  Further than [e2 * a] from the polar axis the conversion is
    symmetric about the equatorial plane: mirroring [z] negates the
    latitude and keeps the longitude and the height. *)
Theorem mirror_symmetry (x y z : R) :
  (RealMath.wgs84_e2 * RealMath.wgs84_a < sqrt (x ^ 2 + y ^ 2))%R ->
  let r := @ecef_to_geodetic R RealMath.ops x y z in
  @ecef_to_geodetic R RealMath.ops x y (- z)%R =
  ((- geo_lat r)%R, geo_lon r, geo_height r).
Proof.
  intros Hp r. subst r.
  pose proof RealFacts.wgs84_a_pos as Ha.
  pose proof RealFacts.wgs84_f_range as Hf.
  pose proof RealFacts.wgs84_e2_range as He.
  rewrite !RealFacts.ecef_to_geodetic_real. cbv zeta.
  unfold geo_lat, geo_lon, geo_height. cbn [fst snd].
  set (p := sqrt (x ^ 2 + y ^ 2)) in *.
  set (a := RealMath.wgs84_a) in *. set (e2 := RealMath.wgs84_e2) in *.
  set (b := RealMath.wgs84_b).
  assert (Hb : (0 < b)%R) by (subst b; unfold RealMath.wgs84_b; fold a; nra).
  assert (Hpp : (0 < p)%R) by nra.
  assert (Hpb : (0 < p * b)%R) by nra.
  assert (Hth : RealMath.atan2 (- z * a) (p * b)
                = (- RealMath.atan2 (z * a) (p * b))%R).
  { rewrite !RealFacts.atan2_right by assumption.
    replace (- z * a / (p * b))%R with (- (z * a / (p * b)))%R by (field; lra).
    apply atan_opp. }
  rewrite Hth. set (th := RealMath.atan2 (z * a) (p * b)).
  rewrite sin_neg, cos_neg.
  set (k := ((a ^ 2 - b ^ 2) / b ^ 2 * b)%R).
  pose proof (RealExtras.latitude_denominator_pos th Hp) as Hden.
  fold a e2 in Hden.
  assert (Hlat : RealMath.atan2 (- z + k * (- sin th) ^ 3)
                                (p - e2 * a * cos th ^ 3)
                 = (- RealMath.atan2 (z + k * sin th ^ 3)
                                     (p - e2 * a * cos th ^ 3))%R).
  { rewrite !RealFacts.atan2_right by assumption.
    replace ((- z + k * (- sin th) ^ 3) / (p - e2 * a * cos th ^ 3))%R
      with (- ((z + k * sin th ^ 3) / (p - e2 * a * cos th ^ 3)))%R
      by (field; lra).
    apply atan_opp. }
  rewrite Hlat. set (lat := RealMath.atan2 (z + k * sin th ^ 3) _).
  rewrite sin_neg, cos_neg.
  replace ((- sin lat) ^ 2)%R with (sin lat ^ 2)%R by ring.
  apply (f_equal2 pair); [apply (f_equal2 pair)|]; try reflexivity.
  unfold RealMath.degrees. ring.
Qed.


(** ** The known locations *)

Module JsonFacts.
Lemma map_try_raises {A B} (f : A -> try B) (x : A) (items : list A) :
  In x items -> f x = Raises -> Json.map_try f items = Raises.
Proof.
  intros Hin Hx. induction items as [|y rest IH]; [destruct Hin|].
  cbn. destruct Hin as [->|Hin].
  - rewrite Hx. reflexivity.
  - rewrite (IH Hin). destruct (f y); reflexivity.
Qed.

Lemma map_try_app {A B} (f : A -> try B) (l1 l2 : list A) (r1 r2 : list B) :
  Json.map_try f l1 = Returns r1 -> Json.map_try f l2 = Returns r2 ->
  Json.map_try f (l1 ++ l2) = Returns (r1 ++ r2).
Proof.
  revert r1. induction l1 as [|x l1 IH]; intros r1 H1 H2.
  - cbn in H1. injection H1 as <-. exact H2.
  - cbn in *. destruct (f x) as [y|]; [|discriminate]. cbn in *.
    destruct (Json.map_try f l1) as [ys|]; [|discriminate]. cbn in *.
    injection H1 as <-. rewrite (IH ys eq_refl H2). reflexivity.
Qed.

Lemma filter_try_filter {A} (f : A -> try bool) (items kept : list A) :
  Json.filter_try f items = Returns kept ->
  Forall (fun x => exists b, f x = Returns b) items /\
  kept = filter (fun x => match f x with Returns b => b | Raises => false end)
                items.
Proof.
  revert kept. induction items as [|x rest IH]; intros kept H.
  - cbn in H. injection H as <-. split; [constructor | reflexivity].
  - cbn in H. destruct (f x) as [b|] eqn:Ex; [|discriminate]. cbn in H.
    destruct (Json.filter_try f rest) as [xs|]; [|discriminate]. cbn in H.
    injection H as <-. destruct (IH xs eq_refl) as [Hall ->].
    split; [constructor; eauto|]. cbn. rewrite Ex. reflexivity.
Qed.

Lemma filter_try_total {A} (f : A -> try bool) (items : list A) :
  Forall (fun x => exists b, f x = Returns b) items ->
  Json.filter_try f items =
  Returns (filter (fun x => match f x with Returns b => b | Raises => false end)
                  items).
Proof.
  induction 1 as [|x rest [b Hb] _ IH]; [reflexivity|].
  cbn. rewrite Hb, IH. reflexivity.
Qed.

Lemma lookup_assign (items : list (string * json)) (k : string) (v : json) :
  Json.lookup (Json.assign items k v) k = Some v.
Proof.
  induction items as [|[k' v'] rest IH]; cbn.
  - now rewrite String.eqb_refl.
  - destruct (String.eqb k' k) eqn:E; cbn.
    + now rewrite String.eqb_refl.
    + now rewrite E.
Qed.

Lemma assign_assign (items : list (string * json)) (k : string) (u v : json) :
  Json.assign (Json.assign items k u) k v = Json.assign items k v.
Proof.
  induction items as [|[k' v'] rest IH]; cbn.
  - now rewrite String.eqb_refl.
  - destruct (String.eqb k' k) eqn:E; cbn.
    + now rewrite String.eqb_refl.
    + now rewrite E, IH.
Qed.

Lemma assign_same (items : list (string * json)) (k : string) (v : json) :
  Json.lookup items k = Some v -> Json.assign items k v = items.
Proof.
  induction items as [|[k' v'] rest IH]; cbn; [discriminate|].
  destruct (String.eqb k' k) eqn:E; intros H.
  - apply String.eqb_eq in E. injection H as ->. now subst.
  - now rewrite IH.
Qed.

Lemma lookup_assign_other (items : list (string * json)) (k k' : string)
  (v : json) :
  String.eqb k k' = false ->
  Json.lookup (Json.assign items k v) k' = Json.lookup items k'.
Proof.
  intros Hk. induction items as [|[k0 v0] rest IH]; cbn.
  - now rewrite Hk.
  - destruct (String.eqb k0 k) eqn:E; cbn.
    + apply String.eqb_eq in E. subst. now rewrite Hk.
    + now rewrite IH.
Qed.

Lemma getitem_truthy (v : json) (k : string) (x : json) :
  Json.getitem v k = Returns x -> Json.truthy v = true.
Proof.
  destruct v as [| | | | | |items]; try discriminate.
  destruct items; [discriminate | reflexivity].
Qed.
End JsonFacts.

(** Unfolding of the monad and of the accessors of the application. *)
Ltac py_step :=
  cbv beta iota zeta delta
    [Py.bind Py.ret Py.modify Py.get Py.call Py.raise Py.try_except
     modify_app modify_ids get_app read_known_locations
     write_known_locations] in *.

(** Unfolding of the setters and the fields of the records. *)
Ltac records :=
  cbv beta iota delta
    [ids_current_coordinates_column_opacity ids_fixed_coordinates_column_opacity
     ids_switch_to_fixed_mode_disabled ids_switch_to_survey_mode_disabled
     ids_select_location_button_disabled ids_select_location_button_text
     ids_selected_name_label_text ids_selected_latitude_label_text
     ids_selected_longitude_label_text ids_selected_altitude_label_text
     ids_latitude_label_text ids_longitude_label_text ids_altitude_label_text
     app_gnss_monitor app_selected_location app_current_mode
     app_known_locations app_location_data app_initial_config app_ids
     disk_known_locations_json world_app world_disk world_commands
     current_coordinates_column_opacity fixed_coordinates_column_opacity
     switch_to_fixed_mode_disabled switch_to_survey_mode_disabled
     select_location_button_disabled select_location_button_text
     selected_name_label_text selected_latitude_label_text
     selected_longitude_label_text selected_altitude_label_text
     latitude_label_text longitude_label_text altitude_label_text
     gnss_monitor selected_location current_mode known_locations
     location_data initial_config ids known_locations_json
     known_locations_writable basestation_json w_app w_disk w_commands].

Section Locations.
Context {F : Type}.
Variable fmt_num : nat -> number -> try string.
Variable py_str : json -> string.
Variable strip : string -> string.
Variable parse_label parse_altitude_label : string -> try float.

Local Abbreviation name_of := (fun loc : json => Json.getitem loc "name").

(** The world after [load_known_locations] has set the two attributes. *)
Lemma load_known_locations_cases (w : World F) :
  load_known_locations w =
  match known_locations_json (w_disk w) with
  | Returns data =>
      match Json.getitem data "locations" with
      | Returns locs =>
          match Json.bind (Json.iterate locs) (Json.map_try name_of) with
          | Returns names =>
              (Return tt,
               world_app (app_location_data locs
                            (app_known_locations names (w_app w))) w)
          | Raises =>
              (Return tt,
               world_app (app_location_data (JList [])
                            (app_known_locations [] (w_app w))) w)
          end
      | Raises =>
          (Return tt,
           world_app (app_location_data (JList [])
                        (app_known_locations [] (w_app w))) w)
      end
  | Raises =>
      (Return tt,
       world_app (app_location_data (JList [])
                    (app_known_locations [] (w_app w))) w)
  end.
Proof.
  unfold load_known_locations. py_step.
  destruct (known_locations_json (w_disk w)) as [data|]; [|reflexivity].
  cbn. destruct (Json.getitem data "locations") as [locs|] eqn:E;
    [|reflexivity].
  cbn. destruct (Json.iterate locs) as [items|]; [|reflexivity].
  cbn. destruct (Json.map_try name_of items) as [names|]; [|reflexivity].
  reflexivity.
Qed.

(** X12.  [load_known_locations] never raises and touches nothing but the
    two attributes, which always agree: [known_locations] is the list of the
    names of the entries of [location_data], in order.  The data is the one
    of the file, or both are empty. *)
Theorem load_known_locations_aligned (w : World F) :
  exists names locs items,
    load_known_locations w =
      (Return tt,
       world_app (app_location_data locs
                    (app_known_locations names (w_app w))) w) /\
    Json.iterate locs = Returns items /\
    Json.map_try name_of items = Returns names /\
    ((names = [] /\ locs = JList []) \/
     exists data,
       known_locations_json (w_disk w) = Returns data /\
       Json.getitem data "locations" = Returns locs).
Proof.
  rewrite load_known_locations_cases.
  destruct (known_locations_json (w_disk w)) as [data|] eqn:Ed;
    [|exists [], (JList []), []; auto 6].
  destruct (Json.getitem data "locations") as [locs|] eqn:El;
    [|exists [], (JList []), []; auto 6].
  destruct (Json.iterate locs) as [items|] eqn:Ei; cbn;
    [|exists [], (JList []), []; auto 6].
  destruct (Json.map_try name_of items) as [names|] eqn:En;
    [|exists [], (JList []), []; auto 6].
  exists names, locs, items. repeat split; eauto.
Qed.

(** X13.  One entry without a name hides every saved location: if a single
    entry of the file has no ["name"], both attributes end up empty. *)
Theorem malformed_entry_hides_all (w : World F) (data loc : json)
  (items : list json) :
  known_locations_json (w_disk w) = Returns data ->
  Json.getitem data "locations" = Returns (JList items) ->
  In loc items ->
  Json.getitem loc "name" = Raises ->
  load_known_locations w =
    (Return tt,
     world_app (app_location_data (JList [])
                  (app_known_locations [] (w_app w))) w).
Proof.
  intros Hd Hl Hin Hn. rewrite load_known_locations_cases, Hd, Hl. cbn.
  rewrite (JsonFacts.map_try_raises name_of loc items Hin Hn). reflexivity.
Qed.

End Locations.

Section Selection.
Context {F : Type}.
Variable fmt_num : nat -> number -> try string.
Variable py_str : json -> string.

(** The world with another selection and other texts in the four labels of
    the selected location. *)
Local Abbreviation reselected sel t1 t2 t3 t4 w :=
  (world_app
     (app_ids
        (ids_selected_altitude_label_text t4
           (ids_selected_longitude_label_text t3
              (ids_selected_latitude_label_text t2
                 (ids_selected_name_label_text t1 (ids (w_app w))))))
        (app_selected_location sel (w_app w))) w).

Lemma reselected_same (w : World F) :
  w = reselected (selected_location (w_app w))
        (selected_name_label_text (ids (w_app w)))
        (selected_latitude_label_text (ids (w_app w)))
        (selected_longitude_label_text (ids (w_app w)))
        (selected_altitude_label_text (ids (w_app w))) w.
Proof. destruct w as [[? ? ? ? ? ? []] ? ?]. reflexivity. Qed.

(** Entries with a name that is not the one looked for are passed over. *)
Lemma select_named_skip (location_name : string) (pre rest : list json)
  (w : World F) :
  Forall (fun l => exists v, Json.getitem l "name" = Returns v /\
                             Json.eq_str v location_name = false) pre ->
  select_named fmt_num py_str location_name (pre ++ rest) w =
  select_named fmt_num py_str location_name rest w.
Proof.
  induction 1 as [|l pre (v & Hv & Hne) _ IH]; [reflexivity|].
  cbn [app select_named]. py_step. rewrite Hv, Hne. exact IH.
Qed.

(** The loop over the entries: it ends, with or without an exception, and
    has changed at most the selection and the four labels; a selection it
    made is an entry with the name. *)
Lemma select_named_effect (location_name : string) (items : list json)
  (w : World F) :
  exists o sel t1 t2 t3 t4,
    select_named fmt_num py_str location_name items w = (o, reselected sel t1 t2 t3 t4 w) /\
    o <> Unfinished /\
    (sel = selected_location (w_app w) \/
     In sel items /\
     exists v, Json.getitem sel "name" = Returns v /\
               Json.eq_str v location_name = true).
Proof.
  induction items as [|loc rest IH].
  - exists (Return tt). do 5 eexists. split; [|split].
    + cbn. py_step. f_equal. apply reselected_same.
    + discriminate.
    + left. reflexivity.
  - cbn [select_named]. py_step.
    destruct (Json.getitem loc "name") as [v|] eqn:Hv.
    + destruct (Json.eq_str v location_name) eqn:He.
      * assert (Hsel : forall s : json, s = loc ->
                  s = selected_location (w_app w) \/
                  In s (loc :: rest) /\
                  exists v, Json.getitem s "name" = Returns v /\
                            Json.eq_str v location_name = true).
        { intros s ->. right. split; [left; reflexivity | eauto]. }
        destruct w as [[? ? ? ? ? ? []] ? ?]. records.
        destruct (Json.getitem loc "latitude") as [la|];
          [destruct (format_f fmt_num 10 la) as [tla|]|];
          records;
          try (exists Raise; do 5 eexists;
               split; [reflexivity | split; [discriminate | now apply Hsel]]).
        destruct (Json.getitem loc "longitude") as [lo|];
          [destruct (format_f fmt_num 10 lo) as [tlo|]|];
          records;
          try (exists Raise; do 5 eexists;
               split; [reflexivity | split; [discriminate | now apply Hsel]]).
        destruct (Json.getitem loc "altitude") as [al|];
          [destruct (format_f fmt_num 2 al) as [tal|]|];
          records;
          try (exists Raise; do 5 eexists;
               split; [reflexivity | split; [discriminate | now apply Hsel]]).
        exists (Return tt). do 5 eexists.
        split; [reflexivity | split; [discriminate | now apply Hsel]].
      * destruct IH as (o & sel & t1 & t2 & t3 & t4 & H & Ho & Hs).
        exists o, sel, t1, t2, t3, t4. split; [exact H|]. split; [exact Ho|].
        destruct Hs as [Hs|[Hin Hs]]; [left; exact Hs|].
        right. split; [right; exact Hin | exact Hs].
    + exists Raise. do 5 eexists. split; [|split].
      * f_equal. apply reselected_same.
      * discriminate.
      * left. reflexivity.
Qed.

(** X14.  [on_location_selected] never raises and changes nothing but the
    selection and the four labels of the selected location; the file, the
    mode, the two lists, the other widgets are as before.  A selection it
    made is an entry of the file with the name asked for. *)
Theorem on_location_selected_touches_selection_only
  (location_name : string) (w : World F) :
  exists sel t1 t2 t3 t4,
    on_location_selected fmt_num py_str location_name w =
      (Return tt, reselected sel t1 t2 t3 t4 w) /\
    (sel = selected_location (w_app w) \/
     exists data locs items v,
       known_locations_json (w_disk w) = Returns data /\
       Json.getitem data "locations" = Returns locs /\
       Json.iterate locs = Returns items /\
       In sel items /\
       Json.getitem sel "name" = Returns v /\
       Json.eq_str v location_name = true).
Proof.
  unfold on_location_selected.
  py_step.
  destruct (known_locations_json (w_disk w)) as [data|] eqn:Ed.
  2:{ do 5 eexists. split; [f_equal; apply reselected_same | now left]. }
  destruct (Json.getitem data "locations") as [locs|] eqn:El.
  2:{ do 5 eexists. split; [f_equal; apply reselected_same | now left]. }
  destruct (Json.iterate locs) as [items|] eqn:Ei.
  2:{ do 5 eexists. split; [f_equal; apply reselected_same | now left]. }
  destruct (select_named_effect location_name items w)
    as (o & sel & t1 & t2 & t3 & t4 & H & Ho & Hs).
  exists sel, t1, t2, t3, t4. rewrite H.
  split.
  - destruct o; [destruct a; reflexivity | reflexivity | congruence].
  - destruct Hs as [Hs|(Hin & v & Hv & He)]; [now left|].
    right. exists data, locs, items, v. auto 6.
Qed.

(** X15.  The first entry of the file with the name is the one selected,
    whatever follows it, and it is selected before its coordinates are
    looked at: an entry without a readable latitude, longitude or altitude
    still becomes the selection, with the labels after the failing one left
    as they were. *)
Theorem on_location_selected_first_match
  (location_name : string) (w : World F) (data locs loc v : json)
  (pre post : list json) :
  known_locations_json (w_disk w) = Returns data ->
  Json.getitem data "locations" = Returns locs ->
  Json.iterate locs = Returns (pre ++ loc :: post) ->
  Forall (fun l => exists v, Json.getitem l "name" = Returns v /\
                             Json.eq_str v location_name = false) pre ->
  Json.getitem loc "name" = Returns v ->
  Json.eq_str v location_name = true ->
  exists w',
    on_location_selected fmt_num py_str location_name w = (Return tt, w') /\
    selected_location (w_app w') = loc /\
    selected_name_label_text (ids (w_app w')) =
      ("Selected Location: " ++ py_str v)%string /\
    (forall la tla lo tlo al tal,
       Json.getitem loc "latitude" = Returns la ->
       format_f fmt_num 10 la = Returns tla ->
       Json.getitem loc "longitude" = Returns lo ->
       format_f fmt_num 10 lo = Returns tlo ->
       Json.getitem loc "altitude" = Returns al ->
       format_f fmt_num 2 al = Returns tal ->
       w' = reselected loc ("Selected Location: " ++ py_str v)%string
              ("Latitude: " ++ tla)%string ("Longitude: " ++ tlo)%string
              ("Altitude: " ++ tal ++ " m")%string w) /\
    (Json.getitem loc "latitude" = Raises ->
     w' = reselected loc ("Selected Location: " ++ py_str v)%string
            (selected_latitude_label_text (ids (w_app w)))
            (selected_longitude_label_text (ids (w_app w)))
            (selected_altitude_label_text (ids (w_app w))) w).
Proof.
  intros Hd Hl Hi Hpre Hv He.
  unfold on_location_selected.
  py_step. rewrite Hd, Hl, Hi.
  rewrite (select_named_skip _ _ w Hpre).
  cbn [select_named]. py_step. rewrite Hv, He.
  destruct w as [[? ? ? ? ? ? []] ? ?]. records.
  destruct (Json.getitem loc "latitude") as [la|];
    [destruct (format_f fmt_num 10 la) as [tla|] eqn:Fla|]; records;
    try (eexists; split; [reflexivity|]; records;
         repeat split; try reflexivity; intros;
         repeat match goal with
                | H : Returns _ = Returns _ |- _ => injection H as H; subst
                end; congruence).
  destruct (Json.getitem loc "longitude") as [lo|];
    [destruct (format_f fmt_num 10 lo) as [tlo|] eqn:Flo|]; records;
    try (eexists; split; [reflexivity|]; records;
         repeat split; try reflexivity; intros;
         repeat match goal with
                | H : Returns _ = Returns _ |- _ => injection H as H; subst
                end; congruence).
  destruct (Json.getitem loc "altitude") as [al|];
    [destruct (format_f fmt_num 2 al) as [tal|] eqn:Fal|]; records;
    try (eexists; split; [reflexivity|]; records;
         repeat split; try reflexivity; intros;
         repeat match goal with
                | H : Returns _ = Returns _ |- _ => injection H as H; subst
                end; congruence).
Qed.

End Selection.

Section SaveDelete.
Context {F : Type}.
Variable fmt_num : nat -> number -> try string.
Variable py_str : json -> string.
Variable strip : string -> string.
Variable parse_label parse_altitude_label : string -> try float.

(** The world with the file of the known locations holding [data]. *)
Local Abbreviation written data w :=
  (world_disk (disk_known_locations_json (Returns data) (w_disk w)) w).

(** Whether the entry stays when the location of a name is deleted. *)
Local Abbreviation other_name location_name :=
  (fun loc : json =>
     match Json.getitem loc "name" with
     | Returns v => negb (Json.eq_str v location_name)
     | Raises => false
     end).

Lemma load_known_locations_returns (w : World F) :
  exists w', load_known_locations w = (Return tt, w').
Proof.
  rewrite load_known_locations_cases.
  destruct (known_locations_json (w_disk w)) as [data|]; [|eauto].
  destruct (Json.getitem data "locations") as [locs|]; [|eauto].
  destruct (Json.bind _ _); eauto.
Qed.

Lemma written_same (w : World F) (data : json) :
  known_locations_json (w_disk w) = Returns data -> written data w = w.
Proof.
  destruct w as [a [j b c] cs]. cbn. intros ->. reflexivity.
Qed.

(** The filter of [do_delete] on entries that all have a name. *)
Lemma delete_filter (location_name : string) (items kept : list json) :
  Json.filter_try
    (fun loc =>
       Json.bind (Json.getitem loc "name")
         (fun name => Returns (negb (Json.eq_str name location_name))))
    items = Returns kept ->
  Forall (fun l => exists v, Json.getitem l "name" = Returns v) items /\
  kept = filter (other_name location_name) items.
Proof.
  intros H. apply JsonFacts.filter_try_filter in H. destruct H as [Hall ->].
  split.
  - eapply Forall_impl; [|exact Hall]. intros l [b Hb].
    destruct (Json.getitem l "name") as [v|]; [eauto | discriminate].
  - apply filter_ext. intros l.
    destruct (Json.getitem l "name"); reflexivity.
Qed.

Lemma delete_filter_total (location_name : string) (items : list json) :
  Forall (fun l => exists v, Json.getitem l "name" = Returns v) items ->
  Json.filter_try
    (fun loc =>
       Json.bind (Json.getitem loc "name")
         (fun name => Returns (negb (Json.eq_str name location_name))))
    items = Returns (filter (other_name location_name) items).
Proof.
  intros Hall. rewrite JsonFacts.filter_try_total.
  - f_equal. apply filter_ext. intros l.
    destruct (Json.getitem l "name"); reflexivity.
  - eapply Forall_impl; [|exact Hall]. intros l [v ->]. cbn. eauto.
Qed.

(** [save_location] when everything it reads is there. *)
Lemma save_location_success (text : string) (w : World F)
  (data : json) (items : list json) (lat lon alt : float) :
  strip text <> ""%string ->
  parse_label (latitude_label_text (ids (w_app w))) = Returns lat ->
  parse_label (longitude_label_text (ids (w_app w))) = Returns lon ->
  parse_altitude_label (altitude_label_text (ids (w_app w))) = Returns alt ->
  known_locations_json (w_disk w) = Returns data ->
  Json.getitem data "locations" = Returns (JList items) ->
  known_locations_writable (w_disk w) = true ->
  exists w',
    load_known_locations
      (written (Json.setitem data "locations"
                  (JList (items ++ [new_location (strip text) lat lon alt])))
               w) = (Return tt, w') /\
    save_location strip parse_label parse_altitude_label text w =
      (Return PopupDismissed, w').
Proof.
  intros Hn Hlat Hlon Halt Hd Hl Hw.
  destruct (load_known_locations_returns
              (written (Json.setitem data "locations"
                          (JList (items ++
                                  [new_location (strip text) lat lon alt])))
                       w)) as [w' Hw'].
  exists w'. split; [exact Hw'|].
  unfold save_location. apply String.eqb_neq in Hn. rewrite Hn.
  py_step. rewrite Hlat, Hlon, Halt, Hd, Hl, Hw, Hw'. reflexivity.
Qed.

(** X16.  [save_location] never raises, and unless it reports success (the
    popup is dismissed) it has changed nothing, neither in the file nor in
    the application.  On success the file holds what it held with one entry
    added at the end of the locations, built from the stripped name and the
    three labels, and the application has reloaded it; no entry is dropped,
    changed or moved, and a name already there is not looked for. *)
Theorem save_location_appends_or_nothing (text : string) (w : World F) :
  exists fb w',
    save_location strip parse_label parse_altitude_label text w =
      (Return fb, w') /\
    (fb <> PopupDismissed -> w' = w) /\
    (fb = PopupDismissed ->
     exists data items lat lon alt,
       strip text <> ""%string /\
       parse_label (latitude_label_text (ids (w_app w))) = Returns lat /\
       parse_label (longitude_label_text (ids (w_app w))) = Returns lon /\
       parse_altitude_label (altitude_label_text (ids (w_app w)))
         = Returns alt /\
       known_locations_json (w_disk w) = Returns data /\
       Json.getitem data "locations" = Returns (JList items) /\
       known_locations_writable (w_disk w) = true /\
       load_known_locations
         (written (Json.setitem data "locations"
                     (JList (items ++
                             [new_location (strip text) lat lon alt])))
                  w) = (Return tt, w')).
Proof.
  destruct (String.eqb (strip text) "") eqn:En.
  { exists Nothing, w. unfold save_location. rewrite En.
    split; [reflexivity|]. split; [reflexivity | discriminate]. }
  assert (Hfail : forall P : Prop,
            (ErrorPopup <> PopupDismissed -> w = w) /\
            (ErrorPopup = PopupDismissed -> P))
    by (intros P; split; [reflexivity | discriminate]).
  destruct (parse_label (latitude_label_text (ids (w_app w))))
    as [lat|] eqn:Hlat.
  2:{ exists ErrorPopup, w. unfold save_location. rewrite En. py_step.
      rewrite Hlat. split; [reflexivity | apply Hfail]. }
  destruct (parse_label (longitude_label_text (ids (w_app w))))
    as [lon|] eqn:Hlon.
  2:{ exists ErrorPopup, w. unfold save_location. rewrite En. py_step.
      rewrite Hlat, Hlon. split; [reflexivity | apply Hfail]. }
  destruct (parse_altitude_label (altitude_label_text (ids (w_app w))))
    as [alt|] eqn:Halt.
  2:{ exists ErrorPopup, w. unfold save_location. rewrite En. py_step.
      rewrite Hlat, Hlon, Halt. split; [reflexivity | apply Hfail]. }
  destruct (known_locations_json (w_disk w)) as [data|] eqn:Hd.
  2:{ exists ErrorPopup, w. unfold save_location. rewrite En. py_step.
      rewrite Hlat, Hlon, Halt, Hd. split; [reflexivity | apply Hfail]. }
  destruct (Json.getitem data "locations") as [locs|] eqn:Hl.
  2:{ exists ErrorPopup, w. unfold save_location. rewrite En. py_step.
      rewrite Hlat, Hlon, Halt, Hd, Hl. split; [reflexivity | apply Hfail]. }
  assert (Hitems : (exists items, locs = JList items) \/
                   (match locs with JList items => Returns items
                                  | _ => Raises end) = Raises)
    by (destruct locs; eauto).
  destruct Hitems as [[items ->]|Hitems].
  2:{ exists ErrorPopup, w. unfold save_location. rewrite En. py_step.
      rewrite Hlat, Hlon, Halt, Hd, Hl, Hitems.
      split; [reflexivity | apply Hfail]. }
  destruct (known_locations_writable (w_disk w)) eqn:Hw.
  2:{ exists ErrorPopup, w. unfold save_location. rewrite En. py_step.
      rewrite Hlat, Hlon, Halt, Hd, Hl, Hw.
      split; [reflexivity | apply Hfail]. }
  apply String.eqb_neq in En.
  destruct (@save_location_success text w data items lat lon alt
              En Hlat Hlon Halt Hd Hl Hw)
    as (w' & Hload & Hsave).
  exists PopupDismissed, w'. split; [exact Hsave|].
  split; [congruence|]. intros _.
  exists data, items, lat, lon, alt. auto 10.
Qed.

(** [do_delete] when everything it reads is there. *)
Lemma do_delete_success (location_name : string) (w : World F)
  (data locs : json) (items : list json) :
  known_locations_json (w_disk w) = Returns data ->
  Json.getitem data "locations" = Returns locs ->
  Json.iterate locs = Returns items ->
  Forall (fun l => exists v, Json.getitem l "name" = Returns v) items ->
  known_locations_writable (w_disk w) = true ->
  exists w',
    load_known_locations
      (written (Json.setitem data "locations"
                  (JList (filter (other_name location_name) items))) w)
      = (Return tt, w') /\
    do_delete location_name w = (Return SuccessPopup, w').
Proof.
  intros Hd Hl Hi Hall Hw.
  destruct (load_known_locations_returns
              (written (Json.setitem data "locations"
                          (JList (filter (other_name location_name) items)))
                       w)) as [w' Hw'].
  exists w'. split; [exact Hw'|].
  unfold do_delete. py_step.
  rewrite Hd, Hl, Hi, (delete_filter_total location_name Hall), Hw, Hw'.
  reflexivity.
Qed.

(** The two ways [do_delete] ends. *)
Lemma do_delete_outcome (location_name : string) (w : World F) :
  do_delete location_name w = (Return ErrorPopup, w) \/
  exists data locs items w',
    known_locations_json (w_disk w) = Returns data /\
    Json.getitem data "locations" = Returns locs /\
    Json.iterate locs = Returns items /\
    Forall (fun l => exists v, Json.getitem l "name" = Returns v) items /\
    known_locations_writable (w_disk w) = true /\
    load_known_locations
      (written (Json.setitem data "locations"
                  (JList (filter (other_name location_name) items))) w)
      = (Return tt, w') /\
    do_delete location_name w = (Return SuccessPopup, w').
Proof.
  destruct (known_locations_json (w_disk w)) as [data|] eqn:Hd.
  2:{ left. unfold do_delete. py_step. rewrite Hd. reflexivity. }
  destruct (Json.getitem data "locations") as [locs|] eqn:Hl.
  2:{ left. unfold do_delete. py_step. rewrite Hd, Hl. reflexivity. }
  destruct (Json.iterate locs) as [items|] eqn:Hi.
  2:{ left. unfold do_delete. py_step. rewrite Hd, Hl, Hi. reflexivity. }
  destruct (Json.filter_try
              (fun loc =>
                 Json.bind (Json.getitem loc "name")
                   (fun name =>
                      Returns (negb (Json.eq_str name location_name))))
              items) as [kept|] eqn:Hk.
  2:{ left. unfold do_delete. py_step. rewrite Hd, Hl, Hi, Hk.
      reflexivity. }
  apply delete_filter in Hk. destruct Hk as [Hall ->].
  destruct (known_locations_writable (w_disk w)) eqn:Hw.
  2:{ left. unfold do_delete. py_step.
      rewrite Hd, Hl, Hi, (delete_filter_total location_name Hall), Hw.
      reflexivity. }
  destruct (@do_delete_success location_name w data locs items
              Hd Hl Hi Hall Hw)
    as (w' & Hload & Hdel).
  right. exists data, locs, items, w'. auto 10.
Qed.

(** X17.  [do_delete] never raises, and unless it reports success it has
    changed nothing.  On success every entry had a name, the file holds what
    it held without the entries of that name (all of them, if the name
    occurs more than once), the others in their order, and the application
    has reloaded it. *)
Theorem do_delete_filters_or_nothing (location_name : string) (w : World F) :
  exists fb w',
    do_delete location_name w = (Return fb, w') /\
    (fb <> SuccessPopup -> w' = w) /\
    (fb = SuccessPopup ->
     exists data locs items,
       known_locations_json (w_disk w) = Returns data /\
       Json.getitem data "locations" = Returns locs /\
       Json.iterate locs = Returns items /\
       Forall (fun l => exists v, Json.getitem l "name" = Returns v) items /\
       known_locations_writable (w_disk w) = true /\
       load_known_locations
         (written (Json.setitem data "locations"
                     (JList (filter (other_name location_name) items))) w)
         = (Return tt, w')).
Proof.
  destruct (do_delete_outcome location_name w)
    as [H|(data & locs & items & w' & Hd & Hl & Hi & Hall & Hw & Hload & H)].
  - exists ErrorPopup, w. split; [exact H|].
    split; [reflexivity | discriminate].
  - exists SuccessPopup, w'. split; [exact H|].
    split; [congruence|]. intros _. exists data, locs, items. auto 10.
Qed.


(** What [load_known_locations] sets depends on the file only. *)
Lemma load_known_locations_by_disk (d : Disk) :
  exists names locs,
    ((names = [] /\ locs = JList []) \/
     exists data,
       known_locations_json d = Returns data /\
       Json.getitem data "locations" = Returns locs) /\
    forall w : World F,
      w_disk w = d ->
      load_known_locations w =
        (Return tt,
         world_app (app_location_data locs
                      (app_known_locations names (w_app w))) w).
Proof.
  destruct (known_locations_json d) as [data|] eqn:Hd.
  2:{ exists [], (JList []). split; [auto|]. intros w <-.
      rewrite load_known_locations_cases, Hd. reflexivity. }
  destruct (Json.getitem data "locations") as [locs|] eqn:Hl.
  2:{ exists [], (JList []). split; [auto|]. intros w <-.
      rewrite load_known_locations_cases, Hd, Hl. reflexivity. }
  destruct (Json.bind (Json.iterate locs)
              (Json.map_try (fun loc => Json.getitem loc "name")))
    as [names|] eqn:Hn.
  - exists names, locs. split; [eauto|]. intros w <-.
    rewrite load_known_locations_cases, Hd, Hl, Hn. reflexivity.
  - exists [], (JList []). split; [auto|]. intros w <-.
    rewrite load_known_locations_cases, Hd, Hl, Hn. reflexivity.
Qed.

(** X18.  Saving a location under a name no entry has and deleting that name
    again restores the file, and leaves the application as a reload of the
    unchanged file would. *)
Theorem save_then_delete_restores (text : string) (w : World F)
  (ditems : list (string * json)) (items : list json) (lat lon alt : float) :
  strip text <> ""%string ->
  parse_label (latitude_label_text (ids (w_app w))) = Returns lat ->
  parse_label (longitude_label_text (ids (w_app w))) = Returns lon ->
  parse_altitude_label (altitude_label_text (ids (w_app w))) = Returns alt ->
  known_locations_json (w_disk w) = Returns (JDict ditems) ->
  Json.lookup ditems "locations" = Some (JList items) ->
  known_locations_writable (w_disk w) = true ->
  Forall (fun l => exists v, Json.getitem l "name" = Returns v /\
                             Json.eq_str v (strip text) = false) items ->
  exists w1 w2,
    save_location strip parse_label parse_altitude_label text w =
      (Return PopupDismissed, w1) /\
    do_delete (strip text) w1 = (Return SuccessPopup, w2) /\
    w_disk w2 = w_disk w /\
    load_known_locations w = (Return tt, w2).
Proof.
  intros Hn Hlat Hlon Halt Hd Hk Hw Hall.
  assert (Hl : Json.getitem (JDict ditems) "locations" = Returns (JList items))
    by (cbn; rewrite Hk; reflexivity).
  destruct (@save_location_success text w (JDict ditems) items lat lon alt
              Hn Hlat Hlon Halt Hd Hl Hw) as (w1 & Hload1 & Hsave).
  set (new := new_location (strip text) lat lon alt) in *.
  set (data1 := Json.setitem (JDict ditems) "locations"
                  (JList (items ++ [new]))) in *.
  destruct (load_known_locations_by_disk
              (disk_known_locations_json (Returns data1) (w_disk w)))
    as (names1 & locs1 & _ & H1).
  rewrite (H1 (written data1 w) eq_refl) in Hload1.
  injection Hload1 as <-.
  assert (Hfilter : filter (other_name (strip text)) (items ++ [new]) = items).
  { rewrite filter_app. cbn. rewrite String.eqb_refl. cbn.
    rewrite app_nil_r. apply forallb_filter_id. apply forallb_forall.
    intros l Hin. rewrite Forall_forall in Hall.
    destruct (Hall l Hin) as (v & -> & ->). reflexivity. }
  destruct (@do_delete_success (strip text)
              (world_app (app_location_data locs1
                            (app_known_locations names1 (w_app w)))
                         (written data1 w))
              data1 (JList (items ++ [new])) (items ++ [new]))
    as (w2 & Hload2 & Hdel).
  - reflexivity.
  - subst data1. cbn. rewrite JsonFacts.lookup_assign. reflexivity.
  - reflexivity.
  - apply Forall_app. split.
    + eapply Forall_impl; [|exact Hall]. intros l (v & Hv & _). eauto.
    + constructor; [|constructor]. exists (JStr (strip text)). reflexivity.
  - destruct w as [a [j b c] cs]. exact Hw.
  - eexists. exists w2. split; [exact Hsave|]. split; [exact Hdel|].
    rewrite Hfilter in Hload2. subst data1. cbn [Json.setitem] in Hload2.
    rewrite JsonFacts.assign_assign, (JsonFacts.assign_same _ _ Hk) in Hload2.
    destruct (load_known_locations_by_disk (w_disk w))
      as (names & locs & _ & H).
    rewrite H in Hload2.
    2:{ destruct w as [a [j b c] cs]. cbn in *. subst j. reflexivity. }
    rewrite (H w eq_refl). injection Hload2 as <-.
    split.
    + destruct w as [a [j b c] cs]. cbn in *. subst j. reflexivity.
    + f_equal. destruct w as [a [j b c] cs]. cbn in *. subst j.
      reflexivity.
Qed.

(** The loop of [on_location_selected] at the first entry with the name. *)
Lemma select_named_hit (location_name : string) (loc v : json)
  (post : list json) (w : World F) :
  Json.getitem loc "name" = Returns v ->
  Json.eq_str v location_name = true ->
  exists o w',
    select_named fmt_num py_str location_name (loc :: post) w = (o, w') /\
    o <> Unfinished /\
    selected_location (w_app w') = loc.
Proof.
  intros Hv He. cbn [select_named]. py_step. rewrite Hv, He.
  destruct (Json.getitem loc "latitude") as [la|];
    [destruct (format_f fmt_num 10 la) as [tla|]|];
    try (do 2 eexists; split; [reflexivity|]; split;
         [discriminate | reflexivity]).
  destruct (Json.getitem loc "longitude") as [lo|];
    [destruct (format_f fmt_num 10 lo) as [tlo|]|];
    try (do 2 eexists; split; [reflexivity|]; split;
         [discriminate | reflexivity]).
  destruct (Json.getitem loc "altitude") as [al|];
    [destruct (format_f fmt_num 2 al) as [tal|]|];
    do 2 eexists; (split; [reflexivity|]); split;
    try discriminate; reflexivity.
Qed.

(** X19.  Saving under a name that an entry already has does not replace
    that entry: the new one goes to the end, and selecting the name keeps
    selecting the old entry, with the old coordinates. *)
Theorem saved_duplicate_is_shadowed (text : string) (w : World F)
  (data old v : json) (pre post : list json) (lat lon alt : float) :
  strip text <> ""%string ->
  parse_label (latitude_label_text (ids (w_app w))) = Returns lat ->
  parse_label (longitude_label_text (ids (w_app w))) = Returns lon ->
  parse_altitude_label (altitude_label_text (ids (w_app w))) = Returns alt ->
  known_locations_json (w_disk w) = Returns data ->
  Json.getitem data "locations" = Returns (JList (pre ++ old :: post)) ->
  known_locations_writable (w_disk w) = true ->
  Forall (fun l => exists v, Json.getitem l "name" = Returns v /\
                             Json.eq_str v (strip text) = false) pre ->
  Json.getitem old "name" = Returns v ->
  Json.eq_str v (strip text) = true ->
  exists w1 w2,
    save_location strip parse_label parse_altitude_label text w =
      (Return PopupDismissed, w1) /\
    known_locations_json (w_disk w1) =
      Returns (Json.setitem data "locations"
                 (JList (pre ++ old :: post ++
                         [new_location (strip text) lat lon alt]))) /\
    on_location_selected fmt_num py_str (strip text) w1 = (Return tt, w2) /\
    selected_location (w_app w2) = old.
Proof.
  intros Hn Hlat Hlon Halt Hd Hl Hw Hpre Hv He.
  destruct (@save_location_success text w data (pre ++ old :: post)
              lat lon alt Hn Hlat Hlon Halt Hd Hl Hw)
    as (w1 & Hload1 & Hsave).
  set (new := new_location (strip text) lat lon alt) in *.
  set (data1 := Json.setitem data "locations"
                  (JList ((pre ++ old :: post) ++ [new]))) in *.
  destruct (load_known_locations_by_disk
              (disk_known_locations_json (Returns data1) (w_disk w)))
    as (names1 & locs1 & _ & H1).
  rewrite (H1 (written data1 w) eq_refl) in Hload1.
  injection Hload1 as <-.
  assert (Hg : Json.getitem data1 "locations" =
               Returns (JList (pre ++ old :: post ++ [new]))).
  { subst data1. destruct data; try discriminate. cbn.
    rewrite JsonFacts.lookup_assign, <- app_assoc. reflexivity. }
  set (w1 := world_app (app_location_data locs1
                          (app_known_locations names1 (w_app w)))
                       (written data1 w)) in *.
  destruct (@select_named_hit (strip text) old v (post ++ [new]) w1 Hv He)
    as (o & w2 & Hsel & Ho & Hold).
  exists w1, w2. split; [exact Hsave|]. split; [|split].
  - subst w1 data1. rewrite <- app_assoc. reflexivity.
  - unfold on_location_selected. py_step.
    replace (known_locations_json (w_disk w1)) with (Returns data1)
      by reflexivity.
    rewrite Hg. cbn [Json.iterate].
    rewrite (select_named_skip fmt_num py_str _ _ w1 Hpre), Hsel.
    destruct o as [[]| |]; [reflexivity | reflexivity | congruence].
  - exact Hold.
Qed.

(** X20.  [do_delete] does not look at the selection: after the selected
    location has been deleted it is in none of the lists, but it is still
    selected, and [on_apply_location] writes its coordinates into the
    configuration and restarts the service. *)
Theorem deleted_selection_still_applied (location_name : string)
  (w w1 : World F) (run : command -> run_result)
  (loc v lat lon alt : json) (out1 out2 out3 : string) :
  current_mode (w_app w) = "fixed"%string ->
  selected_location (w_app w) = loc ->
  Json.getitem loc "name" = Returns v ->
  Json.eq_str v location_name = true ->
  Json.getitem loc "latitude" = Returns lat ->
  Json.getitem loc "longitude" = Returns lon ->
  Json.getitem loc "altitude" = Returns alt ->
  do_delete location_name w = (Return SuccessPopup, w1) ->
  let config :=
    JDict [("USE_FIXED_MODE", JBool true);
           ("COORDINATES",
            JDict [("LATITUDE", lat); ("LONGITUDE", lon);
                   ("ALTITUDE", alt)])]%string in
  run (WriteConfig config) = Completed out1 ->
  run QueryUid = Completed out2 ->
  run (RestartService (strip out2)) = Completed out3 ->
  (forall items, Json.iterate (location_data (w_app w1)) = Returns items ->
                 ~ In loc items) /\
  selected_location (w_app w1) = loc /\
  on_apply_location strip run w1 =
    (Return SuccessPopup,
     world_commands (RestartService (strip out2) :: QueryUid ::
                     WriteConfig config :: w_commands w1) w1).
Proof.
  intros Hm Hs Hv He Hlat Hlon Halt Hdel config Hr1 Hr2 Hr3.
  destruct (do_delete_outcome location_name w)
    as [H|(data & locs & items & w' & Hd & Hl & Hi & Hall & Hw & Hload & H)];
    [congruence|].
  rewrite Hdel in H. injection H as <-.
  set (kept := filter (other_name location_name) items) in *.
  set (data1 := Json.setitem data "locations" (JList kept)) in *.
  destruct (load_known_locations_by_disk
              (disk_known_locations_json (Returns data1) (w_disk w)))
    as (names1 & locs1 & Hlocs & H1).
  rewrite (H1 (written data1 w) eq_refl) in Hload.
  injection Hload as <-.
  split; [|split].
  - intros items' Hit Hin.
    replace (location_data _) with locs1 in Hit by reflexivity.
    destruct Hlocs as [[_ ->]|(d & Hd1 & Hl1)].
    + injection Hit as <-. destruct Hin.
    + cbn in Hd1. injection Hd1 as <-. subst data1.
      destruct data; try discriminate. cbn in Hl1.
      rewrite JsonFacts.lookup_assign in Hl1. injection Hl1 as <-.
      injection Hit as <-. subst kept. apply filter_In in Hin.
      destruct Hin as [_ Hin]. rewrite Hv, He in Hin. discriminate.
  - exact Hs.
  - unfold on_apply_location, prepare_config, run_checked. py_step.
    replace (current_mode (w_app _)) with (current_mode (w_app w))
      by reflexivity.
    replace (selected_location (w_app _)) with loc by (rewrite <- Hs; reflexivity).
    rewrite Hm. cbn [String.eqb Ascii.eqb Bool.eqb].
    rewrite (JsonFacts.getitem_truthy _ _ Hlat). cbn [negb].
    rewrite Hlat, Hlon, Halt. fold config.
    records. rewrite Hr1. records. rewrite Hr2. records. rewrite Hr3.
    reflexivity.
Qed.

End SaveDelete.

(** ** The initial configuration and the modes *)

Module FloatFacts.
Lemma finite_cases (x : float) :
  PrimFloat.is_finite x = true ->
  (exists s, Prim2SF x = S754_zero s) \/
  (exists s m e, Prim2SF x = S754_finite s m e).
Proof.
  unfold PrimFloat.is_finite, PrimFloat.is_nan, PrimFloat.is_infinity.
  rewrite !FloatAxioms.eqb_spec, FloatAxioms.abs_spec.
  replace (Prim2SF infinity) with (S754_infinity false) by reflexivity.
  destruct (Prim2SF x) as [s|s| |s m e]; cbn; eauto; try discriminate.
  destruct s; discriminate.
Qed.

(** A finite float minus itself is [+0.0]. *)
Lemma sub_diag (x : float) :
  PrimFloat.is_finite x = true ->
  Prim2SF (PrimFloat.sub x x) = S754_zero false.
Proof.
  intros H. rewrite FloatAxioms.sub_spec.
  destruct (finite_cases x H) as [[s ->]|(s & m & e & ->)].
  - destruct s; reflexivity.
  - unfold FloatAxioms.SF64sub, SFsub. rewrite Z.min_id.
    unfold shl_align. rewrite Z.sub_diag. cbn [fst].
    rewrite ?Z.sub_diag. reflexivity.
Qed.

(** The distance of a finite float from itself is below every positive
    float. *)
Lemma self_distance_below (x tol : float) :
  PrimFloat.is_finite x = true ->
  PrimFloat.ltb 0 tol = true ->
  PrimFloat.ltb (PrimFloat.abs (PrimFloat.sub x x)) tol = true.
Proof.
  intros H Ht. rewrite FloatAxioms.ltb_spec in *.
  rewrite FloatAxioms.abs_spec, (sub_diag x H). exact Ht.
Qed.
End FloatFacts.

Section InitialConfig.
Context {F : Type}.
Variable fmt_num : nat -> number -> try string.
Variable py_str : json -> string.
Variable int_to_float : Z -> try float.
Variable strip : string -> string.

(** The world after [apply_initial_config] has set the mode and the
    widgets of the fixed mode. *)
Local Abbreviation fixed_widgets w :=
  (world_app
     (app_ids
        (ids_switch_to_survey_mode_disabled false
           (ids_switch_to_fixed_mode_disabled true
              (ids_fixed_coordinates_column_opacity 1
                 (ids_current_coordinates_column_opacity (1 # 2)
                    (ids (w_app w))))))
        (app_current_mode "fixed" (w_app w))) w).

Lemma select_matching_skip (coords : json) (pre rest : list json)
  (w : World F) :
  Forall (fun l => matches int_to_float l coords = Returns false) pre ->
  select_matching int_to_float coords (pre ++ rest) w =
  select_matching int_to_float coords rest w.
Proof.
  induction 1 as [|l pre Hl _ IH]; [reflexivity|].
  cbn [app select_matching]. py_step. rewrite Hl. exact IH.
Qed.

Lemma select_matching_hit (coords loc : json) (post : list json)
  (w : World F) :
  matches int_to_float loc coords = Returns true ->
  select_matching int_to_float coords (loc :: post) w =
  (Return tt, world_app (app_selected_location loc (w_app w)) w).
Proof.
  intros H. cbn [select_matching]. py_step. rewrite H. reflexivity.
Qed.

Lemma select_matching_raises (coords loc : json) (post : list json)
  (w : World F) :
  matches int_to_float loc coords = Raises ->
  select_matching int_to_float coords (loc :: post) w = (Raise, w).
Proof.
  intros H. cbn [select_matching]. py_step. rewrite H. reflexivity.
Qed.

Lemma matches_truthy (loc coords : json) (b : bool) :
  matches int_to_float loc coords = Returns b -> Json.truthy loc = true.
Proof.
  unfold matches, close_to. intros H.
  destruct (Json.getitem loc "latitude") as [a|] eqn:E; [|discriminate].
  exact (JsonFacts.getitem_truthy _ _ E).
Qed.

(** [apply_initial_config] on a configuration of the fixed mode. *)
Lemma apply_initial_config_fixed (config flag coords : json)
  (items : list json) (w : World F) :
  Json.getitem config "USE_FIXED_MODE" = Returns flag ->
  Json.truthy flag = true ->
  Json.getitem config "COORDINATES" = Returns coords ->
  Json.iterate (location_data (w_app w)) = Returns items ->
  apply_initial_config fmt_num py_str int_to_float config w =
  (select_matching int_to_float coords items ;;;
   update_ui_with_config fmt_num py_str coords) (fixed_widgets w).
Proof.
  intros Hf Ht Hc Hi. unfold apply_initial_config.
  cbv beta iota zeta delta
    [Py.bind Py.ret Py.modify Py.get Py.call Py.raise modify_app modify_ids
     get_app].
  rewrite Hf, Ht, Hc.
  replace (location_data (w_app _)) with (location_data (w_app w))
    by reflexivity.
  rewrite Hi. reflexivity.
Qed.

(** [update_ui_with_config] ends, and leaves the selection and the mode. *)
Lemma update_ui_with_config_frame (coords : json) (w : World F) :
  exists o w',
    update_ui_with_config fmt_num py_str coords w = (o, w') /\
    o <> Unfinished /\
    selected_location (w_app w') = selected_location (w_app w) /\
    current_mode (w_app w') = current_mode (w_app w).
Proof.
  unfold update_ui_with_config. py_step.
  destruct w as [[gm sel mode kl ld ic []] d cs]. records.
  destruct (Json.getitem coords "LATITUDE") as [la|];
    [destruct (format_f fmt_num 8 la) as [tla|]|];
    try (do 2 eexists; split; [reflexivity|]; split;
         [discriminate | split; reflexivity]).
  destruct (Json.getitem coords "LONGITUDE") as [lo|];
    [destruct (format_f fmt_num 8 lo) as [tlo|]|];
    try (do 2 eexists; split; [reflexivity|]; split;
         [discriminate | split; reflexivity]).
  destruct (Json.getitem coords "ALTITUDE") as [al|];
    [destruct (format_f fmt_num 2 al) as [tal|]|];
    try (do 2 eexists; split; [reflexivity|]; split;
         [discriminate | split; reflexivity]).
  destruct (Json.truthy sel);
    [|do 2 eexists; split; [reflexivity|]; split;
      [discriminate | split; reflexivity]].
  destruct (Json.getitem sel "name") as [n|];
    [|do 2 eexists; split; [reflexivity|]; split;
      [discriminate | split; reflexivity]].
  destruct (as_text n);
    do 2 eexists; (split; [reflexivity|]); split;
    try discriminate; split; reflexivity.
Qed.

(** X21.  A configuration whose [USE_FIXED_MODE] is false (or [0], [None],
    empty) is applied exactly as [switch_to_survey_mode]: neither its
    [COORDINATES] nor the known locations are read, and nothing raises. *)
Theorem initial_config_survey_is_switch (config flag : json) (w : World F) :
  Json.getitem config "USE_FIXED_MODE" = Returns flag ->
  Json.truthy flag = false ->
  apply_initial_config fmt_num py_str int_to_float config w =
  switch_to_survey_mode w.
Proof.
  intros Hf Ht. unfold apply_initial_config, switch_to_survey_mode.
  py_step. rewrite Hf, Ht. reflexivity.
Qed.

(** X22.  In the fixed mode the selection becomes the first known location
    whose three coordinates are within the tolerances of the configured
    ones, later ones are not looked at, and the mode is fixed whether or
    not the labels can be written.  When they can, the three labels show the
    configured coordinates with 8, 8 and 2 decimals (not those of the
    location), and the name goes to the name label and the button. *)
Theorem initial_config_selects_first_match
  (config flag coords loc : json) (pre post : list json) (w : World F) :
  Json.getitem config "USE_FIXED_MODE" = Returns flag ->
  Json.truthy flag = true ->
  Json.getitem config "COORDINATES" = Returns coords ->
  Json.iterate (location_data (w_app w)) = Returns (pre ++ loc :: post) ->
  Forall (fun l => matches int_to_float l coords = Returns false) pre ->
  matches int_to_float loc coords = Returns true ->
  exists o w',
    apply_initial_config fmt_num py_str int_to_float config w = (o, w') /\
    o <> Unfinished /\
    selected_location (w_app w') = loc /\
    current_mode (w_app w') = "fixed"%string /\
    (forall lat lon alt tla tlo tal name,
       Json.getitem coords "LATITUDE" = Returns lat ->
       format_f fmt_num 8 lat = Returns tla ->
       Json.getitem coords "LONGITUDE" = Returns lon ->
       format_f fmt_num 8 lon = Returns tlo ->
       Json.getitem coords "ALTITUDE" = Returns alt ->
       format_f fmt_num 2 alt = Returns tal ->
       Json.getitem loc "name" = Returns (JStr name) ->
       o = Return tt /\
       w' = world_app
              (app_ids
                 (ids_select_location_button_text name
                    (ids_selected_name_label_text
                       ("Name: " ++ py_str (JStr name))%string
                       (ids_selected_altitude_label_text
                          ("Altitude: " ++ tal)%string
                          (ids_selected_longitude_label_text
                             ("Longitude: " ++ tlo)%string
                             (ids_selected_latitude_label_text
                                ("Latitude: " ++ tla)%string
                                (ids (w_app (fixed_widgets w))))))))
                 (app_selected_location loc (w_app (fixed_widgets w))))
              w).
Proof.
  intros Hf Ht Hc Hi Hpre Hm.
  erewrite apply_initial_config_fixed by eassumption.
  unfold Py.bind at 1.
  erewrite select_matching_skip by exact Hpre.
  erewrite select_matching_hit by exact Hm.
  set (w1 := world_app (app_selected_location loc (w_app (fixed_widgets w)))
               (fixed_widgets w)).
  destruct (update_ui_with_config_frame coords w1)
    as (o & w' & Hu & Ho & Hs & Hmode).
  exists o, w'. split; [exact Hu|]. split; [exact Ho|].
  split; [exact Hs|]. split; [exact Hmode|].
  intros lat lon alt tla tlo tal name H1 H2 H3 H4 H5 H6 H7.
  revert Hu. unfold update_ui_with_config. py_step.
  rewrite H1, H2, H3, H4, H5, H6.
  replace (selected_location (w_app _)) with loc by reflexivity.
  erewrite matches_truthy by exact Hm. rewrite H7. cbn [as_text].
  intros Hu. injection Hu as <- <-. split; [reflexivity|].
  destruct w as [[? ? ? ? ? ? []] ? ?]. reflexivity.
Qed.

(** X23.  A known location that cannot be compared (an entry without one
    of the coordinates, or with one that is no number) ahead of every match
    aborts the initial configuration with an exception: the mode and the
    buttons are those of the fixed mode, but no location is selected, not
    even a matching one further on, and the labels are not written. *)
Theorem malformed_location_aborts_initial_config
  (config flag coords bad : json) (pre post : list json) (w : World F) :
  Json.getitem config "USE_FIXED_MODE" = Returns flag ->
  Json.truthy flag = true ->
  Json.getitem config "COORDINATES" = Returns coords ->
  Json.iterate (location_data (w_app w)) = Returns (pre ++ bad :: post) ->
  Forall (fun l => matches int_to_float l coords = Returns false) pre ->
  matches int_to_float bad coords = Raises ->
  apply_initial_config fmt_num py_str int_to_float config w =
  (Raise, fixed_widgets w).
Proof.
  intros Hf Ht Hc Hi Hpre Hm.
  erewrite apply_initial_config_fixed by eassumption.
  unfold Py.bind at 1.
  erewrite select_matching_skip by exact Hpre.
  erewrite select_matching_raises by exact Hm.
  reflexivity.
Qed.


(** A location with finite coordinates is within the tolerances of its own
    coordinates. *)
Lemma matches_own_coordinates (loc : json) (x y z : float) :
  Json.getitem loc "latitude" = Returns (JFloat x) ->
  Json.getitem loc "longitude" = Returns (JFloat y) ->
  Json.getitem loc "altitude" = Returns (JFloat z) ->
  PrimFloat.is_finite x = true ->
  PrimFloat.is_finite y = true ->
  PrimFloat.is_finite z = true ->
  matches int_to_float loc
    (JDict [("LATITUDE", JFloat x); ("LONGITUDE", JFloat y);
            ("ALTITUDE", JFloat z)]%string) = Returns true.
Proof.
  intros Hx Hy Hz Fx Fy Fz. unfold matches, close_to.
  rewrite Hx, Hy, Hz. cbn -[PrimFloat.ltb PrimFloat.abs PrimFloat.sub].
  rewrite !FloatFacts.self_distance_below by (assumption || reflexivity).
  reflexivity.
Qed.

(** X25.  What [on_apply_location] prepares in the fixed mode is read back
    by [apply_initial_config] as the same selection: the configuration
    holds the three coordinates of the selected location, which (when they
    are finite floats) are within the tolerances of themselves, so with the
    location among the known ones and no earlier one as close, it is
    selected again and the mode is fixed. *)
Theorem applied_location_is_reselected (w : World F) (loc : json)
  (x y z : float) :
  current_mode (w_app w) = "fixed"%string ->
  selected_location (w_app w) = loc ->
  Json.getitem loc "latitude" = Returns (JFloat x) ->
  Json.getitem loc "longitude" = Returns (JFloat y) ->
  Json.getitem loc "altitude" = Returns (JFloat z) ->
  PrimFloat.is_finite x = true ->
  PrimFloat.is_finite y = true ->
  PrimFloat.is_finite z = true ->
  exists config coords,
    prepare_config w = (Return (Some config), w) /\
    Json.getitem config "COORDINATES" = Returns coords /\
    matches int_to_float loc coords = Returns true /\
    forall (w0 : World F) (pre post : list json),
      Json.iterate (location_data (w_app w0)) = Returns (pre ++ loc :: post) ->
      Forall (fun l => matches int_to_float l coords = Returns false) pre ->
      exists o w',
        apply_initial_config fmt_num py_str int_to_float config w0 = (o, w') /\
        o <> Unfinished /\
        selected_location (w_app w') = loc /\
        current_mode (w_app w') = "fixed"%string.
Proof.
  intros Hm Hs Hx Hy Hz Fx Fy Fz.
  pose proof (matches_own_coordinates loc Hx Hy Hz Fx Fy Fz) as Hown.
  do 2 eexists. split; [|split; [|split]].
  - unfold prepare_config. py_step. rewrite Hm, Hs.
    rewrite (JsonFacts.getitem_truthy _ _ Hx), Hx, Hy, Hz. reflexivity.
  - reflexivity.
  - exact Hown.
  - intros w0 pre post Hi Hpre.
    erewrite apply_initial_config_fixed;
      [|reflexivity | reflexivity | reflexivity | exact Hi].
    unfold Py.bind at 1.
    erewrite select_matching_skip by exact Hpre.
    erewrite select_matching_hit by exact Hown.
    match goal with
    | |- context [update_ui_with_config _ _ ?c ?w1] =>
        destruct (update_ui_with_config_frame c w1)
          as (o & w' & Hu & Ho & Hsel & Hmode)
    end.
    exists o, w'. auto.
Qed.

End InitialConfig.

(** ** Applying the configuration *)

Section ApplyLocation.
Context {F : Type}.
Variable fmt_num : nat -> number -> try string.
Variable py_str : json -> string.
Variable int_to_float : Z -> try float.
Variable strip : string -> string.

Lemma world_commands_same (w : World F) :
  world_commands ([] ++ w_commands w) w = w.
Proof. destruct w. reflexivity. Qed.

(** [prepare_config] reads the application and changes nothing. *)
Lemma prepare_config_state (w : World F) :
  snd (prepare_config w) = w /\ fst (prepare_config w) <> Unfinished.
Proof.
  unfold prepare_config. py_step.
  destruct (String.eqb (current_mode (w_app w)) "fixed");
    [|split; [reflexivity | discriminate]].
  destruct (negb (Json.truthy (selected_location (w_app w))));
    [split; [reflexivity | discriminate]|].
  destruct (Json.getitem (selected_location (w_app w)) "latitude");
    [|split; [reflexivity | discriminate]].
  destruct (Json.getitem (selected_location (w_app w)) "longitude");
    [|split; [reflexivity | discriminate]].
  destruct (Json.getitem (selected_location (w_app w)) "altitude");
    split; try reflexivity; discriminate.
Qed.

(** [on_apply_location] once the configuration is prepared. *)
Lemma on_apply_location_prepared (run : command -> run_result)
  (w : World F) (config : json) :
  prepare_config w = (Return (Some config), w) ->
  on_apply_location strip run w =
  match run (WriteConfig config) with
  | Completed _ =>
      match run QueryUid with
      | Completed out =>
          let cs := RestartService (strip out) :: QueryUid ::
                    WriteConfig config :: w_commands w in
          match run (RestartService (strip out)) with
          | Completed _ => (Return SuccessPopup, world_commands cs w)
          | CalledProcessError => (Return ErrorPopup, world_commands cs w)
          | OtherError => (Raise, world_commands cs w)
          end
      | CalledProcessError =>
          (Return ErrorPopup,
           world_commands (QueryUid :: WriteConfig config :: w_commands w) w)
      | OtherError =>
          (Raise,
           world_commands (QueryUid :: WriteConfig config :: w_commands w) w)
      end
  | CalledProcessError =>
      (Return ErrorPopup,
       world_commands (WriteConfig config :: w_commands w) w)
  | OtherError =>
      (Raise, world_commands (WriteConfig config :: w_commands w) w)
  end.
Proof.
  intros Hp. unfold on_apply_location.
  unfold Py.bind at 1. rewrite Hp.
  unfold run_checked. py_step.
  destruct (run (WriteConfig config)); try reflexivity.
  records. destruct (run QueryUid) as [out| |]; try reflexivity.
  records. destruct (run (RestartService (strip out))); reflexivity.
Qed.

(** X24.  [on_apply_location] touches neither the application nor the file
    of the known locations; it only runs commands.  The service is
    restarted only after the configuration has been written and the user id
    found, for the user id that [id -u] printed, stripped; and success is
    reported exactly when the restart has run and completed.  In the fixed
    mode without a selection nothing is run. *)
Theorem restart_only_after_write (run : command -> run_result)
  (w : World F) :
  exists o new,
    on_apply_location strip run w =
      (o, world_commands (new ++ w_commands w) w) /\
    o <> Unfinished /\
    (forall uid, In (RestartService uid) new ->
       exists config out1 out2,
         new = [RestartService uid; QueryUid; WriteConfig config] /\
         prepare_config w = (Return (Some config), w) /\
         run (WriteConfig config) = Completed out1 /\
         run QueryUid = Completed out2 /\
         uid = strip out2) /\
    (o = Return SuccessPopup <->
     exists uid out, In (RestartService uid) new /\
                     run (RestartService uid) = Completed out) /\
    (current_mode (w_app w) = "fixed"%string ->
     Json.truthy (selected_location (w_app w)) = false ->
     o = Return ErrorPopup /\ new = []).
Proof.
  destruct (prepare_config_state w) as [Hs Ho].
  destruct (prepare_config w) as [r s] eqn:Hp. cbn in Hs, Ho. subst s.
  assert (Hnone : forall o : outcome feedback,
            (forall uid, In (RestartService uid) [] ->
               exists config out1 out2,
                 [] = [RestartService uid; QueryUid; WriteConfig config] /\
                 (r, w) = (Return (Some config), w) /\
                 run (WriteConfig config) = Completed out1 /\
                 run QueryUid = Completed out2 /\
                 uid = strip out2) /\
            (o <> Return SuccessPopup ->
             (o = Return SuccessPopup <->
              exists uid out, In (RestartService uid) [] /\
                              run (RestartService uid) = Completed out))).
  { intros o. split; [intros uid []|]. intros Hne. split; [congruence|].
    intros (uid & out & [] & _). }
  assert (Hsel : current_mode (w_app w) = "fixed"%string ->
                 Json.truthy (selected_location (w_app w)) = false ->
                 r = Return None).
  { intros Hm Ht. revert Hp. unfold prepare_config. py_step.
    rewrite Hm, Ht. cbn. congruence. }
  destruct r as [[config|]| |]; [| | |congruence].
  - (* a configuration *)
    rewrite (on_apply_location_prepared run Hp).
    assert (Hfix : forall (o : outcome feedback) (new : list command),
              current_mode (w_app w) = "fixed"%string ->
              Json.truthy (selected_location (w_app w)) = false ->
              o = Return ErrorPopup /\ new = []).
    { intros o new Hm Ht. specialize (Hsel Hm Ht). discriminate. }
    destruct (run (WriteConfig config)) as [out1| |] eqn:H1.
    + destruct (run QueryUid) as [out2| |] eqn:H2.
      * cbv zeta.
        assert (Hin : forall uid,
                  In (RestartService uid)
                     [RestartService (strip out2); QueryUid;
                      WriteConfig config] ->
                  uid = strip out2).
        { intros uid [H|[H|[H|[]]]]; try discriminate. congruence. }
        destruct (run (RestartService (strip out2))) as [out3| |] eqn:H3.
        -- exists (Return SuccessPopup),
             [RestartService (strip out2); QueryUid; WriteConfig config].
           split; [reflexivity|]. split; [discriminate|].
           split; [intros uid H; rewrite (Hin uid H);
                   exists config, out1, out2; auto 6|]. split; [|apply Hfix].
           split; [|reflexivity]. intros _.
           exists (strip out2), out3. split; [left; reflexivity | exact H3].
        -- exists (Return ErrorPopup),
             [RestartService (strip out2); QueryUid; WriteConfig config].
           split; [reflexivity|]. split; [discriminate|].
           split; [intros uid H; rewrite (Hin uid H);
                   exists config, out1, out2; auto 6|]. split; [|apply Hfix].
           split; [discriminate|].
           intros (uid & out & H & Hr). rewrite (Hin uid H) in Hr.
           congruence.
        -- exists Raise,
             [RestartService (strip out2); QueryUid; WriteConfig config].
           split; [reflexivity|]. split; [discriminate|].
           split; [intros uid H; rewrite (Hin uid H);
                   exists config, out1, out2; auto 6|]. split; [|apply Hfix].
           split; [discriminate|].
           intros (uid & out & H & Hr). rewrite (Hin uid H) in Hr.
           congruence.
      * exists (Return ErrorPopup), [QueryUid; WriteConfig config].
        split; [reflexivity|]. split; [discriminate|].
        split; [intros uid [H|[H|[]]]; discriminate|].
        split; [|apply Hfix]. split; [discriminate|].
        intros (uid & out & [H|[H|[]]] & _); discriminate.
      * exists Raise, [QueryUid; WriteConfig config].
        split; [reflexivity|]. split; [discriminate|].
        split; [intros uid [H|[H|[]]]; discriminate|].
        split; [|apply Hfix]. split; [discriminate|].
        intros (uid & out & [H|[H|[]]] & _); discriminate.
    + exists (Return ErrorPopup), [WriteConfig config].
      split; [reflexivity|]. split; [discriminate|].
      split; [intros uid [H|[]]; discriminate|].
      split; [|apply Hfix]. split; [discriminate|].
      intros (uid & out & [H|[]] & _); discriminate.
    + exists Raise, [WriteConfig config].
      split; [reflexivity|]. split; [discriminate|].
      split; [intros uid [H|[]]; discriminate|].
      split; [|apply Hfix]. split; [discriminate|].
      intros (uid & out & [H|[]] & _); discriminate.
  - (* no selection in the fixed mode *)
    exists (Return ErrorPopup), [].
    unfold on_apply_location. unfold Py.bind at 1. rewrite Hp.
    rewrite world_commands_same.
    split; [reflexivity|]. split; [discriminate|].
    destruct (Hnone (Return ErrorPopup)) as [Ha Hb].
    split; [exact Ha|]. split; [apply Hb; discriminate | auto].
  - (* a coordinate of the selection is missing *)
    exists Raise, [].
    unfold on_apply_location. unfold Py.bind at 1. rewrite Hp.
    rewrite world_commands_same.
    split; [reflexivity|]. split; [discriminate|].
    destruct (Hnone (@Raise feedback)) as [Ha Hb].
    split; [exact Ha|]. split; [apply Hb; discriminate|].
    intros Hm Ht. specialize (Hsel Hm Ht). discriminate.
Qed.

End ApplyLocation.

(** ** The labels of the current position *)

Section PositionLabels.
Context {F : Type} {MO : MathOps F}.
Variable rtcm_read :
  list byte -> try (option (list byte) * option (RTCMMessage F)).
Variable fmt_float : nat -> F -> string.

(** The three labels show a snapshot. *)
Local Abbreviation shows i st :=
  (latitude_label_text i = ("Latitude: " ++ fmt_float 10 (latitude st))%string /\
   longitude_label_text i =
     ("Longitude: " ++ fmt_float 10 (longitude st))%string /\
   altitude_label_text i =
     ("Altitude: " ++ fmt_float 5 (altitude st) ++ " m")%string).




End PositionLabels.

Section PositionTask.
Context {F : Type} {MO : MathOps F}.
Variable rtcm_read :
  list byte -> try (option (list byte) * option (RTCMMessage F)).
Variable fmt_float : nat -> F -> string.

(** The world with another monitor and other texts in the three labels of
    the current position. *)
Local Abbreviation relabelled m t1 t2 t3 w :=
  (world_app
     (app_ids
        (ids_altitude_label_text t3
           (ids_longitude_label_text t2
              (ids_latitude_label_text t1 (ids (w_app w)))))
        (app_gnss_monitor m (w_app w))) w).




End PositionTask.

(** ** Starting up *)

Section Startup.
Context {F : Type} {MO : MathOps F}.
Variable fmt_num : nat -> number -> try string.
Variable py_str : json -> string.
Variable int_to_float : Z -> try float.

(** X27.  Without a readable configuration, or with an empty one, the
    application starts in the survey-in mode without an exception, whatever
    the file of the known locations holds: nothing is selected, no command
    is run, and no widget is touched, so the buttons and the columns keep
    what the layout gives them. *)
Theorem startup_without_config (widgets : Ids) (d : Disk) :
  match basestation_json d with
  | Returns config => Json.truthy config = false
  | Raises => True
  end ->
  exists names locs,
    startup fmt_num py_str int_to_float widgets d =
    (Return tt,
     {| w_app := {| gnss_monitor := init;
                    selected_location := JNull;
                    current_mode := "survey-in";
                    known_locations := names;
                    location_data := locs;
                    initial_config :=
                      match basestation_json d with
                      | Returns config => config
                      | Raises => JNull
                      end;
                    ids := widgets |};
        w_disk := d;
        w_commands := [] |}).
Proof.
  intros Hc. unfold startup.
  destruct (load_known_locations_by_disk (F := F) d)
    as (names & locs & _ & Hload).
  exists names, locs.
  unfold Py.bind at 1. rewrite Hload by reflexivity.
  destruct (basestation_json d) as [config|]; py_step; records;
    [rewrite Hc|]; reflexivity.
Qed.

End Startup.

(** ** The properties on concrete inputs *)

(** X3 on the first ten bytes of the position frame. *)
Lemma loop_ends_empty_or_incomplete_witness :
  _buffer Example.waiting = [] \/
  reads_incomplete Example.reader (_buffer Example.waiting).
Proof.
  apply (@loop_ends_empty_or_incomplete R RealMath.ops Example.reader 1%nat
           Example.waiting Example.waiting).
  vm_compute. reflexivity.
Defined.

(** X4 on a position frame, a 1077 frame and ten bytes of a third frame. *)
Lemma stream_drained_in_order_witness :
  process_buffer Example.reader 3 Scenario.streaming =
  (Return tt,
   with_buffer (fun _ => firstn 10 Example.position_frame)
     (with_status
        (status_after_all
           [(Example.position_frame, Example.position_message);
            (Example.other_frame, Example.other_message)])
        Scenario.streaming)).
Proof.
  apply (@stream_drained_in_order R RealMath.ops Example.reader
           [(Example.position_frame, Example.position_message);
            (Example.other_frame, Example.other_message)]
           (firstn 10 Example.position_frame) Scenario.stream).
  - apply framed_message.
    + vm_compute. reflexivity.
    + intros H. vm_compute in H. discriminate.
    + exact ExampleFacts.position_message_decodes.
    + apply framed_message.
      * vm_compute. reflexivity.
      * intros H. vm_compute in H. discriminate.
      * intros H. vm_compute in H. discriminate.
      * apply framed_tail. right. exists None. vm_compute. reflexivity.
  - reflexivity.
  - cbn. lia.
Defined.

(** X5 on the position frame cut after ten bytes. *)
Lemma message_survives_reconnect_witness :
  cycles Example.reader 1
    [ {| sock_connect := Raises; sock_recv := Returns Scenario.first_part |};
      {| sock_connect := Raises; sock_recv := Raises |};
      {| sock_connect := Returns 4%nat;
         sock_recv := Returns Scenario.second_part |} ] Example.connected
  = Some (with_socket (Some 4%nat)
            (with_status (status_after Example.position_message)
               Example.connected)).
Proof.
  apply (@message_survives_reconnect R RealMath.ops Example.reader
           Example.connected 3%nat 4%nat Scenario.first_part
           Scenario.second_part Example.position_message 0%nat).
  - reflexivity.
  - reflexivity.
  - intros H. vm_compute in H. discriminate.
  - intros H. vm_compute in H. discriminate.
  - exists None. vm_compute. reflexivity.
  - vm_compute. reflexivity.
  - exact ExampleFacts.position_message_decodes.
Defined.

(** X6 on one byte received, with a bound of a thousand passes. *)
Lemma loop_diverges_without_progress_witness :
  process_buffer (@idle_reader R) 1000
    (with_buffer (fun b => b ++ [x00]) Example.connected)
    = (Unfinished, with_buffer (fun b => b ++ [x00]) Example.connected) /\
  update_status (@idle_reader R) 1000
    {| sock_connect := Raises; sock_recv := Returns [x00] |} Example.connected
    = (Unfinished, with_buffer (fun b => b ++ [x00]) Example.connected).
Proof.
  apply (@loop_diverges_without_progress R RealMath.ops Example.connected
           3%nat [x00] 1000%nat).
  - reflexivity.
  - discriminate.
Defined.




(** X10 on the point of X7's example. *)
Lemma mirror_symmetry_witness :
  @ecef_to_geodetic R RealMath.ops 7000000%R 0%R (- 1)%R =
  ((- geo_lat (@ecef_to_geodetic R RealMath.ops 7000000%R 0%R 1%R))%R,
   geo_lon (@ecef_to_geodetic R RealMath.ops 7000000%R 0%R 1%R),
   geo_height (@ecef_to_geodetic R RealMath.ops 7000000%R 0%R 1%R)).
Proof.
  apply (@mirror_symmetry 7000000%R 0%R 1%R).
  replace (7000000 ^ 2 + 0 ^ 2)%R with (7000000 ^ 2)%R by ring.
  rewrite sqrt_pow2 by lra.
  unfold RealMath.wgs84_e2, RealMath.wgs84_f, RealMath.wgs84_a. lra.
Defined.


(** ** The properties of the application at the station *)

(** X13 on a file with the barn and an entry without a name. *)
Lemma malformed_entry_hides_all_witness :
  load_known_locations (Station.running [Station.barn; Station.nameless]) =
    (Return tt,
     world_app
       (app_location_data (JList [])
          (app_known_locations []
             (w_app (Station.running [Station.barn; Station.nameless]))))
       (Station.running [Station.barn; Station.nameless])).
Proof.
  apply (@malformed_entry_hides_all R
           (Station.running [Station.barn; Station.nameless])
           (Station.locations_file [Station.barn; Station.nameless])
           Station.nameless [Station.barn; Station.nameless]).
  - reflexivity.
  - reflexivity.
  - right. left. reflexivity.
  - reflexivity.
Defined.

(** X15 on the field, the second entry of the file. *)
Lemma on_location_selected_first_match_witness :
  exists w',
    on_location_selected Station.fmt_num Station.py_str "Field"
      (Station.running [Station.barn; Station.field]) = (Return tt, w') /\
    selected_location (w_app w') = Station.field /\
    selected_name_label_text (ids (w_app w')) =
      "Selected Location: Field"%string.
Proof.
  destruct (@on_location_selected_first_match R Station.fmt_num
              Station.py_str "Field"
              (Station.running [Station.barn; Station.field])
              (Station.locations_file [Station.barn; Station.field])
              (JList [Station.barn; Station.field]) Station.field
              (JStr "Field") [Station.barn] [])
    as (w' & H1 & H2 & H3 & _).
  - reflexivity.
  - reflexivity.
  - reflexivity.
  - constructor; [|constructor]. exists (JStr "Barn"). split; reflexivity.
  - reflexivity.
  - reflexivity.
  - exists w'. split; [exact H1|]. split; [exact H2 | exact H3].
Defined.

(** X18 on a new location named Shed. *)
Lemma save_then_delete_restores_witness :
  exists w1 w2,
    save_location Station.strip Station.parse_label
      Station.parse_altitude_label " Shed "
      (Station.running [Station.barn; Station.field])
      = (Return PopupDismissed, w1) /\
    do_delete "Shed" w1 = (Return SuccessPopup, w2) /\
    w_disk w2 = w_disk (Station.running [Station.barn; Station.field]) /\
    load_known_locations (Station.running [Station.barn; Station.field])
      = (Return tt, w2).
Proof.
  apply (@save_then_delete_restores R Station.strip Station.parse_label
           Station.parse_altitude_label " Shed "
           (Station.running [Station.barn; Station.field])
           [("version", JInt 1);
            ("locations", JList [Station.barn; Station.field])]%string
           [Station.barn; Station.field] 36.5%float (-121.5)%float
           12.25%float).
  - intros H. vm_compute in H. discriminate.
  - reflexivity.
  - reflexivity.
  - reflexivity.
  - reflexivity.
  - reflexivity.
  - reflexivity.
  - constructor; [|constructor; [|constructor]].
    + exists (JStr "Barn"). split; reflexivity.
    + exists (JStr "Field"). split; reflexivity.
Defined.

(** X19 on a second location named Barn. *)
Lemma saved_duplicate_is_shadowed_witness :
  exists w1 w2,
    save_location Station.strip Station.parse_label
      Station.parse_altitude_label "Barn"
      (Station.running [Station.field; Station.barn])
      = (Return PopupDismissed, w1) /\
    known_locations_json (w_disk w1) =
      Returns (Station.locations_file
                 [Station.field; Station.barn;
                  new_location "Barn" 36.5 (-121.5) 12.25]) /\
    on_location_selected Station.fmt_num Station.py_str "Barn" w1
      = (Return tt, w2) /\
    selected_location (w_app w2) = Station.barn.
Proof.
  apply (@saved_duplicate_is_shadowed R Station.fmt_num Station.py_str
           Station.strip Station.parse_label Station.parse_altitude_label
           "Barn" (Station.running [Station.field; Station.barn])
           (Station.locations_file [Station.field; Station.barn])
           Station.barn (JStr "Barn") [Station.field] []
           36.5%float (-121.5)%float 12.25%float).
  - intros H. vm_compute in H. discriminate.
  - reflexivity.
  - reflexivity.
  - reflexivity.
  - reflexivity.
  - reflexivity.
  - reflexivity.
  - constructor; [|constructor]. exists (JStr "Field"). split; reflexivity.
  - reflexivity.
  - reflexivity.
Defined.

(** X20 on the barn, selected and then deleted. *)
Lemma deleted_selection_still_applied_witness :
  let w := Station.chosen Station.barn [Station.barn; Station.field] in
  let w1 := snd (do_delete "Barn" w) in
  (forall items, Json.iterate (location_data (w_app w1)) = Returns items ->
                 ~ In Station.barn items) /\
  selected_location (w_app w1) = Station.barn /\
  on_apply_location Station.strip Station.run w1 =
    (Return SuccessPopup,
     world_commands
       [RestartService "1000"; QueryUid;
        WriteConfig (Station.fixed_config 36.5 (-121.5) 12.25)] w1).
Proof.
  intros w w1.
  apply (@deleted_selection_still_applied R Station.strip "Barn" w w1
           Station.run Station.barn (JStr "Barn") (JFloat 36.5)
           (JFloat (-121.5)) (JFloat 12.25) ""%string
           (String "1" (String "0" (String "0" (String "0"
              (String (ascii_of_nat 10) EmptyString)))))
           ""%string);
    reflexivity.
Defined.

(** X21 on the configuration that is written in the survey-in mode. *)
Lemma initial_config_survey_is_switch_witness :
  apply_initial_config Station.fmt_num Station.py_str Station.int_to_float
    Station.survey_config
    (Station.chosen Station.barn [Station.barn; Station.field]) =
  switch_to_survey_mode
    (Station.chosen Station.barn [Station.barn; Station.field]).
Proof.
  apply (@initial_config_survey_is_switch R Station.fmt_num Station.py_str
           Station.int_to_float Station.survey_config (JBool false)
           (Station.chosen Station.barn [Station.barn; Station.field]));
    reflexivity.
Defined.

(** X22 on the configuration of the field, the second known location. *)
Lemma initial_config_selects_first_match_witness :
  exists o w',
    apply_initial_config Station.fmt_num Station.py_str Station.int_to_float
      (Station.fixed_config 37.25 (-120.75) 80.5)
      (Station.running [Station.barn; Station.field]) = (o, w') /\
    o <> Unfinished /\
    selected_location (w_app w') = Station.field /\
    current_mode (w_app w') = "fixed"%string.
Proof.
  destruct (@initial_config_selects_first_match R Station.fmt_num
              Station.py_str Station.int_to_float
              (Station.fixed_config 37.25 (-120.75) 80.5) (JBool true)
              (JDict [("LATITUDE", JFloat 37.25);
                      ("LONGITUDE", JFloat (-120.75));
                      ("ALTITUDE", JFloat 80.5)]%string)
              Station.field [Station.barn] []
              (Station.running [Station.barn; Station.field]))
    as (o & w' & H1 & H2 & H3 & H4 & _).
  - reflexivity.
  - reflexivity.
  - reflexivity.
  - reflexivity.
  - constructor; [|constructor]. vm_compute. reflexivity.
  - vm_compute. reflexivity.
  - exists o, w'. auto.
Defined.

(** X23 on an entry without coordinates between the barn and the field. *)
Lemma malformed_location_aborts_initial_config_witness :
  fst (apply_initial_config Station.fmt_num Station.py_str
         Station.int_to_float (Station.fixed_config 37.25 (-120.75) 80.5)
         (Station.running [Station.barn; Station.sketch; Station.field]))
    = Raise /\
  selected_location
    (w_app (snd (apply_initial_config Station.fmt_num Station.py_str
                   Station.int_to_float
                   (Station.fixed_config 37.25 (-120.75) 80.5)
                   (Station.running
                      [Station.barn; Station.sketch; Station.field]))))
    = JNull.
Proof.
  rewrite (@malformed_location_aborts_initial_config R Station.fmt_num
             Station.py_str Station.int_to_float
             (Station.fixed_config 37.25 (-120.75) 80.5) (JBool true)
             (JDict [("LATITUDE", JFloat 37.25);
                     ("LONGITUDE", JFloat (-120.75));
                     ("ALTITUDE", JFloat 80.5)]%string)
             Station.sketch [Station.barn] [Station.field]
             (Station.running [Station.barn; Station.sketch; Station.field])).
  - split; reflexivity.
  - reflexivity.
  - reflexivity.
  - reflexivity.
  - reflexivity.
  - constructor; [|constructor]. vm_compute. reflexivity.
  - reflexivity.
Defined.

(** X25 on the barn, selected in the fixed mode, and a restart. *)
Lemma applied_location_is_reselected_witness :
  exists config o w',
    prepare_config (Station.chosen Station.barn [Station.field; Station.barn])
      = (Return (Some config),
         Station.chosen Station.barn [Station.field; Station.barn]) /\
    apply_initial_config Station.fmt_num Station.py_str Station.int_to_float
      config (Station.running [Station.field; Station.barn]) = (o, w') /\
    o <> Unfinished /\
    selected_location (w_app w') = Station.barn /\
    current_mode (w_app w') = "fixed"%string.
Proof.
  destruct (@applied_location_is_reselected R Station.fmt_num Station.py_str
              Station.int_to_float
              (Station.chosen Station.barn [Station.field; Station.barn])
              Station.barn 36.5%float (-121.5)%float 12.25%float)
    as (config & coords & H1 & H2 & H3 & H4); try reflexivity.
  destruct (H4 (Station.running [Station.field; Station.barn])
               [Station.field] [])
    as (o & w' & H5 & H6 & H7 & H8).
  - reflexivity.
  - constructor; [|constructor].
    cbn in H1. injection H1 as <-. cbn in H2. injection H2 as <-.
    vm_compute. reflexivity.
  - exists config, o, w'. auto.
Defined.


(** X27 on a station without a configuration. *)
Lemma startup_without_config_witness :
  exists names locs,
    startup (F := R) Station.fmt_num Station.py_str Station.int_to_float
      Station.widgets (Station.disk [Station.barn; Station.field]) =
    (Return tt,
     {| w_app := {| gnss_monitor := init;
                    selected_location := JNull;
                    current_mode := "survey-in";
                    known_locations := names;
                    location_data := locs;
                    initial_config := JNull;
                    ids := Station.widgets |};
        w_disk := Station.disk [Station.barn; Station.field];
        w_commands := [] |}).
Proof.
  apply (@startup_without_config R RealMath.ops Station.fmt_num
           Station.py_str Station.int_to_float Station.widgets
           (Station.disk [Station.barn; Station.field])).
  exact I.
Defined.
